(** * Solo Leveling Fitness API: leveling arithmetic and request handlers

    A shallow embedding of [main.py] (with the collection schemas of
    [schemas.py]) and the properties of its experience/level arithmetic,
    check-in streak rule and quest completion.

    Conventions of the embedding.
    - Python [int] is [Z].  A Python [float] is an IEEE 754 binary64
      number, a [spec_float] of the Standard Library with precision 53:
      [float(n)], the product of two floats and [int(x)] are computed as
      CPython computes them, with their rounding and their
      [OverflowError].  The one operation that IEEE 754 does not fix is
      the C library's [pow], which [level ** 1.5] calls: it is a parameter
      of [next_level_exp] and of everything that uses it.
    - A stored document is a record with every key that its handler
      writes, so the defaults of [dict.get] never apply.
    - A handler is a computation over the world (the document store and
      the wall clock) that ends with a value or a raised exception; what
      was written to the store before an exception stays written.
    - [bson.ObjectId], [date.isoformat], [datetime.now] and
      [random.choice] are library calls: they are parameters of the
      handlers. *)

From Stdlib Require Import ZArith QArith Qround Ascii String List Lia SpecFloat.
From stdpp Require Import base option gmap list strings.

Local Open Scope string_scope.
Local Open Scope Z_scope.

(** ** Exceptions and outcomes *)

Inductive exn : Type :=
  | HTTPException (status_code : Z) (detail : string)
  | InvalidId      (* bson.errors.InvalidId, from ObjectId(...) *)
  | TypeError      (* int() of a complex number, subscripting None *)
  | OverflowError  (* an int too large for a float, int() of an infinity *)
  | ValueError     (* int() of a NaN *)
  | ZeroDivisionError.

(** [Diverge] is produced only when a loop is given too little fuel. *)
Inductive outcome (A : Type) : Type :=
  | Return (a : A)
  | Raise (e : exn)
  | Diverge.

Arguments Return {A} a.
Arguments Raise {A} e.
Arguments Diverge {A}.

(** One computation after another; an exception ends the sequence. *)
Definition and_then {A B} (o : outcome A) (k : A -> outcome B) : outcome B :=
  match o with
  | Return a => k a
  | Raise e => Raise e
  | Diverge => Diverge
  end.

(** ** Python floats

    binary64: 53 bits of precision, exponents below 1024. *)

Definition prec : Z := 53.
Definition emax : Z := 1024.

(** The float of a Python [int], as in [n * 1.5] or [n ** 1.5]: the
    nearest binary64 number, ties to even; [OverflowError] when that is
    an infinity ("int too large to convert to float"). *)
Definition float_of_int (n : Z) : outcome spec_float :=
  match binary_normalize prec emax n 0 false with
  | S754_infinity _ => Raise OverflowError
  | x => Return x
  end.

(** [x * y] on floats: the rounded product; an overflow gives an infinity
    and raises nothing. *)
Definition float_mul (x y : spec_float) : spec_float := SFmul prec emax x y.

(** [int(x)] for a float [x]: truncation toward zero; [OverflowError] for
    an infinity and [ValueError] for a NaN. *)
Definition int_of_float (x : spec_float) : outcome Z :=
  match x with
  | S754_zero _ => Return 0
  | S754_finite s m e =>
      let a := if 0 <=? e then Z.pos m * 2 ^ e else Z.pos m / 2 ^ (- e) in
      Return (if s then - a else a)
  | S754_infinity _ => Raise OverflowError
  | S754_nan => Raise ValueError
  end.

(** [a / b] on two Python ints: the quotient rounded to the nearest
    float, ties to even; [OverflowError] when that is an infinity
    ("integer division result too large for a float"). *)
Definition int_true_div (a b : Z) : outcome spec_float :=
  match a, b with
  | _, 0 => Raise ZeroDivisionError
  | 0, _ => Return (S754_zero (b <? 0))
  | _, _ =>
      let '(q, e, l) := SFdiv_core_binary prec emax (Z.abs a) 0 (Z.abs b) 0 in
      match binary_round_aux prec emax (xorb (a <? 0) (b <? 0)) q e l with
      | S754_infinity _ => Raise OverflowError
      | x => Return x
      end
  end.

(** The literals [1.0], [1.5], [2.0] and the float of [100]. *)
Definition float_1 : spec_float := S754_finite false 4503599627370496 (-52).
Definition float_1_5 : spec_float := S754_finite false 6755399441055744 (-52).
Definition float_2 : spec_float := S754_finite false 4503599627370496 (-51).
Definition float_100 : spec_float := S754_finite false 7036874417766400 (-46).

(** ** Helpers of main.py *)

Section Leveling.

(** The C library's [pow(x, y)] on doubles. An overflow shows as an
    infinite result ([errno] is then [ERANGE], and CPython raises
    [OverflowError]). *)
Variable pow : spec_float -> spec_float -> spec_float.

(** [iv ** 1.5] for a float [iv], as CPython's [float_pow] computes it:
    zero, a negative base and [1.0] are treated before the C library is
    called. A negative base to the power 1.5 is handed to the complex
    power, whose modulus is [pow(|iv|, 1.5)]: the result is a complex
    number, [None] here, or [OverflowError] when the modulus overflows. *)
Definition float_pow_1_5 (iv : spec_float) : outcome (option spec_float) :=
  match iv with
  | S754_nan => Return (Some S754_nan)
  | S754_infinity _ => Return (Some (S754_infinity false))
  | S754_zero _ => Return (Some (S754_zero false))
  | S754_finite true m e =>
      match pow (S754_finite false m e) float_1_5 with
      | S754_infinity _ => Raise OverflowError
      | _ => Return None
      end
  | S754_finite false _ _ =>
      if SFeqb iv float_1 then Return (Some float_1)
      else match pow iv float_1_5 with
           | S754_infinity _ => Raise OverflowError
           | S754_nan => Raise ValueError
           | ix => Return (Some ix)
           end
  end.

(** [def next_level_exp(level): return int(100 * (level ** 1.5))].
    [100 * z] for a complex [z] is complex, and [int] of it raises
    [TypeError]. *)
Definition next_level_exp (level : Z) : outcome Z :=
  and_then (float_of_int level) (fun iv =>
  and_then (float_pow_1_5 iv) (fun p =>
  match p with
  | Some x => int_of_float (float_mul float_100 x)
  | None => Raise TypeError
  end)).

(** The level-up loop, as inlined in each of the three handlers:
<<
    leveled_up = False
    while new_exp >= next_level_exp(level):
        new_exp -= next_level_exp(level)
        level += 1
        leveled_up = True
>>
    The three copies are kept apart, one per handler. The result is
    [(new_exp, level, leveled_up)] when the loop exits. *)

(** Lines 153-156, in [daily_checkin]. *)
Fixpoint daily_checkin_loop (fuel : nat) (new_exp level : Z) (leveled_up : bool)
  : outcome (Z * Z * bool) :=
  match fuel with
  | O => Diverge
  | S fuel' =>
      match next_level_exp level with
      | Return req =>
          if new_exp >=? req
          then daily_checkin_loop fuel' (new_exp - req) (level + 1) true
          else Return (new_exp, level, leveled_up)
      | Raise e => Raise e
      | Diverge => Diverge
      end
  end.

(** Lines 209-212, in [log_workout]. *)
Fixpoint log_workout_loop (fuel : nat) (new_exp level : Z) (leveled_up : bool)
  : outcome (Z * Z * bool) :=
  match fuel with
  | O => Diverge
  | S fuel' =>
      match next_level_exp level with
      | Return req =>
          if new_exp >=? req
          then log_workout_loop fuel' (new_exp - req) (level + 1) true
          else Return (new_exp, level, leveled_up)
      | Raise e => Raise e
      | Diverge => Diverge
      end
  end.

(** Lines 311-314, in [complete_quest]. *)
Fixpoint complete_quest_loop (fuel : nat) (new_exp level : Z) (leveled_up : bool)
  : outcome (Z * Z * bool) :=
  match fuel with
  | O => Diverge
  | S fuel' =>
      match next_level_exp level with
      | Return req =>
          if new_exp >=? req
          then complete_quest_loop fuel' (new_exp - req) (level + 1) true
          else Return (new_exp, level, leveled_up)
      | Raise e => Raise e
      | Diverge => Diverge
      end
  end.

(** The threshold of a level as a number: what [next_level_exp] returns,
    and 0 where it raises. *)
Definition threshold (level : Z) : Z :=
  match next_level_exp level with
  | Return req => req
  | _ => 0
  end.

End Leveling.

(** Fuel that lets the loop run to its exit from any start, when every
    threshold from level 1 on is at least 1: every turn then takes at
    least 1 off [new_exp], and level 0 costs one extra turn. *)
Definition loop_fuel (new_exp : Z) : nat := S (S (Z.to_nat new_exp)).

(** What the level-up loop needs of the C library, and what every C
    library gives: [pow(x, 1.5) >= 1] for a finite [x >= 1]. A positive
    float [m * 2^e] is at least 1 when [m] has more than [-e] binary
    digits. *)
Definition at_least_one (x : spec_float) : Prop :=
  match x with
  | S754_infinity false => True
  | S754_finite false m e => 1 <= Z.pos (digits2_pos m) + e
  | _ => False
  end.

Definition pow_at_least_one (pow : spec_float -> spec_float -> spec_float) : Prop :=
  forall m e, 1 <= Z.pos (digits2_pos m) + e ->
    at_least_one (pow (S754_finite false m e) float_1_5).

(** The thresholds of the levels from [lo] to [hi] are computed, none of
    them beyond the range of a float, and are at least 1. *)
Definition thresholds_return (pow : spec_float -> spec_float -> spec_float)
    (lo hi : Z) : Prop :=
  forall L, lo <= L <= hi ->
    exists req, next_level_exp pow L = Return req /\ 1 <= req.

(** The same, as a test on the [n] levels from [lo] on. *)
Fixpoint thresholds_return_from (pow : spec_float -> spec_float -> spec_float)
    (lo : Z) (n : nat) : bool :=
  match n with
  | O => true
  | S n' =>
      match next_level_exp pow lo with
      | Return req => (1 <=? req) && thresholds_return_from pow (lo + 1) n'
      | _ => false
      end
  end.

(** ** The Leveling Engine of the specification

    "Given current integer level (>= 1) and integer exp (>= 0), and a
    non-negative integer EXP delta, produce a new (level, exp, leveled_up)
    triple such that: new_exp_total = exp + delta; repeatedly, while
    new_exp_total >= required(level): subtract required(level) from
    new_exp_total and increment level by 1; leveled_up = true iff at least
    one increment occurred."

    The engine is written over the threshold function [req]; the
    specification's engine is the one over [required]. *)

(** The threshold of the specification, [required(L) = floor(100 * L^1.5)]
    in exact arithmetic: the integer square root of [100^2 * L^3]. The
    code's threshold is [next_level_exp]. *)
Definition required (L : Z) : Z := Z.sqrt (10000 * L ^ 3).

Section Engine.

Variable req : Z -> Z.

(** [normalize n level exp] counts the increments; [None] when [n]
    turns were not enough. *)
Fixpoint normalize (n : nat) (level exp_total : Z) : option (Z * Z * nat) :=
  match n with
  | O => None
  | S n' =>
      if req level <=? exp_total
      then match normalize n' (level + 1) (exp_total - req level) with
           | Some (level', exp', k) => Some (level', exp', S k)
           | None => None
           end
      else Some (level, exp_total, O)
  end.

Definition leveling_engine (n : nat) (level exp delta : Z) : option (Z * Z * bool) :=
  match normalize n level (exp + delta) with
  | Some (level', exp', k) => Some (level', exp', negb (Nat.eqb k 0))
  | None => None
  end.

(** The sum [req(level) + ... + req(level + k - 1)]: the experience
    consumed by [k] level-ups that start at [level]. *)
Fixpoint consumed (level : Z) (k : nat) : Z :=
  match k with
  | O => 0
  | S k' => req level + consumed (level + 1) k'
  end.

End Engine.

(** The engine's triple [(level, exp, leveled_up)] in the order the loops
    return it, and running out of turns as running out of fuel. *)
Definition engine_outcome (r : option (Z * Z * bool)) : outcome (Z * Z * bool) :=
  match r with
  | Some (level, exp, leveled_up) => Return (exp, level, leveled_up)
  | None => Diverge
  end.

(** ** Documents (the dictionaries written by main.py)

    A timestamp is a number of seconds since the epoch, UTC. The [valid]
    predicates are the [Field] constraints that schemas.py declares for
    the collection. *)

Module Hunter.
Record t : Type := mk {
  name : string;
  title : option string;
  level : Z;
  exp : Z;
  streak : Z;
  last_checkin : option Z;
  created_at : Z;
  updated_at : Z
}.

(** [level: ge=1], [exp: ge=0], [streak: ge=0]. *)
Definition valid (h : t) : bool :=
  (1 <=? level h) && (0 <=? exp h) && (0 <=? streak h).

(** [{"$set": {"exp": .., "level": .., "updated_at": ..}}] *)
Definition set_progress (new_exp new_level now : Z) (h : t) : t :=
  mk (name h) (title h) new_level new_exp (streak h) (last_checkin h)
     (created_at h) now.

(** [{"$set": {"exp": .., "level": .., "last_checkin": .., "streak": ..,
    "updated_at": ..}}] *)
Definition set_checkin (new_exp new_level last new_streak now : Z) (h : t) : t :=
  mk (name h) (title h) new_level new_exp new_streak (Some last)
     (created_at h) now.
End Hunter.

Module Workout.
Record t : Type := mk {
  user_id : string;
  workout_type : string;
  minutes : Z;
  difficulty : string;
  exp_awarded : Z;
  created_at : Z;
  updated_at : Z
}.

(** [minutes: ge=1, le=300], [exp_awarded: ge=0]. *)
Definition valid (w : t) : bool :=
  (1 <=? minutes w) && (minutes w <=? 300) && (0 <=? exp_awarded w).
End Workout.

Module Quest.
Record t : Type := mk {
  user_id : string;
  date : string;
  title : string;
  description : string;
  exp_reward : Z;
  completed : bool;
  created_at : Z;
  updated_at : Z
}.

(** [exp_reward: ge=0]. *)
Definition valid (q : t) : bool := 0 <=? exp_reward q.

(** [{"$set": {"completed": True, "updated_at": ..}}] *)
Definition set_completed (now : Z) (q : t) : t :=
  mk (user_id q) (date q) (title q) (description q) (exp_reward q) true
     (created_at q) now.

(** The filter [{"user_id": u, "date": d}]. *)
Definition matches (u d : string) (q : t) : bool :=
  String.eqb (user_id q) u && String.eqb (date q) d.
End Quest.

Module Checkin.
Record t : Type := mk {
  user_id : string;
  date : string;
  streak_after : Z;
  created_at : Z;
  updated_at : Z
}.

(** [streak_after: ge=0]. *)
Definition valid (c : t) : bool := 0 <=? streak_after c.
End Checkin.

(** ** The document store

    The hunter collection is a map from [_id] to document. In the other
    collections a document's [_id] is its position: the store hands ids
    out once, in insertion order, and no handler deletes a document. *)

Record Store : Type := mkStore {
  coll_hunter : gmap N Hunter.t;
  coll_workout : list Workout.t;
  coll_quest : list Quest.t;
  coll_checkin : list Checkin.t
}.

(** [db] is [None] when database.py found no store at import time; [ticks]
    counts the clock readings taken so far. *)
Record World : Type := mkWorld {
  db : option Store;
  ticks : nat
}.

(** ** Computations *)

Definition M (A : Type) : Type := World -> outcome A * World.

Definition ret {A} (a : A) : M A := fun w => (Return a, w).

Definition raise {A} (e : exn) : M A := fun w => (Raise e, w).

Definition bind {A B} (m : M A) (k : A -> M B) : M B :=
  fun w =>
    match m w with
    | (Return a, w') => k a w'
    | (Raise e, w') => (Raise e, w')
    | (Diverge, w') => (Diverge, w')
    end.

Notation "x <- m ;; k" := (bind m (fun x => k))
  (at level 100, m at next level, right associativity).
Notation "m ;;; k" := (bind m (fun _ => k))
  (at level 100, right associativity).

Definition lift {A} (o : outcome A) : M A := fun w => (o, w).

(** [try: body / except Exception: handler]. *)
Definition try_except {A} (body handler : M A) : M A :=
  fun w =>
    match body w with
    | (Raise _, w') => handler w'
    | r => r
    end.

(** A computation ends when, from every world, it returns or raises: it
    never stops for lack of fuel. *)
Definition ends {A} (m : M A) : Prop := forall w, fst (m w) <> Diverge.

(** [db[...]]: subscripting [None] raises [TypeError]. *)
Definition get_db : M Store :=
  fun w =>
    match db w with
    | Some s => (Return s, w)
    | None => (Raise TypeError, w)
    end.

Definition put_db (s : Store) : M unit :=
  fun w => (Return tt, mkWorld (Some s) (ticks w)).

(** [if db is None: raise HTTPException(500, "Database not configured")]. *)
Definition check_db : M unit :=
  fun w =>
    match db w with
    | Some _ => (Return tt, w)
    | None => (Raise (HTTPException 500 "Database not configured"), w)
    end.

(** First document of a collection that passes a filter, with its [_id]. *)
Fixpoint find_one {A} (p : A -> bool) (l : list A) : option (nat * A) :=
  match l with
  | [] => None
  | x :: l' =>
      if p x then Some (O, x)
      else match find_one p l' with
           | Some (i, y) => Some (S i, y)
           | None => None
           end
  end.

(** [db["hunter"].insert_one(h).inserted_id]: the store picks an unused id. *)
Definition hunter_insert_one (h : Hunter.t) : M N :=
  s <- get_db ;;
  let oid := fresh (dom (coll_hunter s)) in
  put_db (mkStore (<[oid := h]> (coll_hunter s)) (coll_workout s)
                  (coll_quest s) (coll_checkin s)) ;;;
  ret oid.

(** [db["hunter"].update_one({"_id": oid}, {"$set": ...})]. *)
Definition hunter_update_one (oid : N) (set : Hunter.t -> Hunter.t) : M unit :=
  s <- get_db ;;
  put_db (mkStore (alter set oid (coll_hunter s)) (coll_workout s)
                  (coll_quest s) (coll_checkin s)).

Definition workout_insert_one (x : Workout.t) : M unit :=
  s <- get_db ;;
  put_db (mkStore (coll_hunter s) (coll_workout s ++ [x])
                  (coll_quest s) (coll_checkin s)).

Definition checkin_insert_one (x : Checkin.t) : M unit :=
  s <- get_db ;;
  put_db (mkStore (coll_hunter s) (coll_workout s) (coll_quest s)
                  (coll_checkin s ++ [x])).

Definition quest_insert_one (x : Quest.t) : M unit :=
  s <- get_db ;;
  put_db (mkStore (coll_hunter s) (coll_workout s) (coll_quest s ++ [x])
                  (coll_checkin s)).

(** [db["quest"].find_one({"user_id": u, "date": d})]. *)
Definition quest_find_one (u d : string) : M (option (nat * Quest.t)) :=
  s <- get_db ;;
  ret (find_one (Quest.matches u d) (coll_quest s)).

(** [db["quest"].update_one({"_id": qid}, {"$set": ...})]. *)
Definition quest_update_one (qid : nat) (set : Quest.t -> Quest.t) : M unit :=
  s <- get_db ;;
  put_db (mkStore (coll_hunter s) (coll_workout s)
                  (alter set qid (coll_quest s)) (coll_checkin s)).

(** ** Request and response models *)

Module CreateHunterRequest.
Record t : Type := mk { name : string; title : option string }.
End CreateHunterRequest.

Module LogWorkoutRequest.
Record t : Type := mk {
  user_id : string;
  workout_type : string;
  minutes : Z;
  difficulty : string
}.

(** Validation of a request body by the model: the four fields are
    typed ([str], [str], [int], [str]) and carry no [Field] constraint;
    an absent [difficulty] takes the default ["normal"]. *)
Definition model_validate (user_id workout_type : string) (minutes : Z)
    (difficulty : option string) : option t :=
  Some (mk user_id workout_type minutes (default "normal" difficulty)).
End LogWorkoutRequest.

Module CompleteQuestRequest.
Record t : Type := mk { user_id : string; date : option string }.
End CompleteQuestRequest.

Inductive checkin_response : Type :=
  | Already_checked_in (streak level exp : Z)
  | Checkin_complete (exp_gain streak level exp : Z) (leveled_up : bool).

Definition checkin_message (r : checkin_response) : string :=
  match r with
  | Already_checked_in _ _ _ => "Already checked in today"
  | Checkin_complete _ _ _ _ _ => "Check-in complete"
  end.

Record workout_response : Type := Workout_logged {
  wr_exp_gain : Z;
  wr_level : Z;
  wr_exp : Z;
  wr_leveled_up : bool
}.

Inductive complete_response : Type :=
  | Quest_already_completed (reward : Z)
  | Quest_completed (reward level exp : Z) (leveled_up : bool).

Definition complete_message (r : complete_response) : string :=
  match r with
  | Quest_already_completed _ => "Quest already completed"
  | Quest_completed _ _ _ _ => "Quest completed"
  end.

(** A request to one of the routes that write to the store. *)
Inductive request : Type :=
  | POST_hunters (payload : CreateHunterRequest.t)
  | POST_checkin (user_id : string)
  | POST_workouts (payload : LogWorkoutRequest.t)
  | GET_quests (r : nat) (user_id : string)
  | POST_quests_complete (payload : CompleteQuestRequest.t).

(** ** Pure parts of the handlers *)

(** [d.date()] of a timestamp, as a day number; [(d1 - d2).days] of two
    dates is the difference of their day numbers. *)
Definition date (t : Z) : Z := t `div` 86400.

(** [{"easy": 1.0, "normal": 1.5, "hard": 2.0}.get(difficulty, 1.5)]. *)
Definition diff_mult (difficulty : string) : spec_float :=
  if String.eqb difficulty "easy" then float_1
  else if String.eqb difficulty "normal" then float_1_5
  else if String.eqb difficulty "hard" then float_2
  else float_1_5.

(** [exp_gain = int(payload.minutes * diff_mult)]: the minutes become a
    float, the product is rounded, and [int] truncates it. *)
Definition workout_exp_gain (minutes : Z) (difficulty : string) : outcome Z :=
  and_then (float_of_int minutes) (fun x =>
  int_of_float (float_mul x (diff_mult difficulty))).

(** The multiplier table of the specification, as rationals. *)
Definition multiplier (difficulty : string) : Q :=
  if String.eqb difficulty "easy" then 1 # 1
  else if String.eqb difficulty "normal" then 3 # 2
  else if String.eqb difficulty "hard" then 2 # 1
  else 3 # 2.

(** A test: [int(minutes * x)] is computed and is the floor of
    [minutes * q], an amount from 1 to 600. *)
Definition exp_gain_is_floor (x : spec_float) (q : Q) (minutes : Z) : bool :=
  match and_then (float_of_int minutes)
                 (fun v => int_of_float (float_mul v x)) with
  | Return g => (g =? Qfloor (inject_Z minutes * q)) && (1 <=? g) && (g <=? 600)
  | _ => false
  end.

(** [int(exp / to_next * 100)] of [get_profile], for [to_next <> 0]. *)
Definition percent (exp to_next : Z) : outcome Z :=
  and_then (int_true_div exp to_next) (fun q =>
  int_of_float (float_mul q float_100)).

(** [exp_gain = 10 + min(new_streak, 20)]. *)
Definition checkin_exp_gain (new_streak : Z) : Z := 10 + Z.min new_streak 20.

(** The catalog [base] of [get_daily_quests]. *)
Definition base : list (string * Z) :=
  [ ("Do 100 Push-ups", 75); ("Run 3 km", 90);
    ("Stretch for 10 minutes", 40); ("Hold a 2-minute plank", 60) ].

(** ** Routes *)

Section Routes.

(** The C library's [pow]. *)
Variable pow : spec_float -> spec_float -> spec_float.
(** [ObjectId(s)]: the parsed id, or [None] where bson raises
    [InvalidId]. *)
Variable ObjectId : string -> option N.
(** [date.isoformat()] of a day number. *)
Variable isoformat : Z -> string.
(** [clock n] is what the [n]-th call of [datetime.now(timezone.utc)]
    returns. *)
Variable clock : nat -> Z.

Definition now : M Z :=
  fun w => (Return (clock (ticks w)), mkWorld (db w) (S (ticks w))).

(** [def today_str(): return datetime.now(timezone.utc).date().isoformat()] *)
Definition today_str : M string :=
  t <- now ;; ret (isoformat (date t)).

(** [db["hunter"].find_one({"_id": ObjectId(user_id)})], with the [_id]
    of the document found. *)
Definition hunter_find_one (user_id : string) : M (option (N * Hunter.t)) :=
  s <- get_db ;;
  match ObjectId user_id with
  | None => raise InvalidId
  | Some oid => ret (pair oid <$> coll_hunter s !! oid)
  end.

(** [try: hunter = find_one(...) / except Exception: raise 400], then
    [if not hunter: raise 404]. *)
Definition lookup_hunter (user_id : string) : M (N * Hunter.t) :=
  hunter <- try_except (hunter_find_one user_id)
                       (raise (HTTPException 400 "Invalid user id")) ;;
  match hunter with
  | None => raise (HTTPException 404 "Hunter not found")
  | Some h => ret h
  end.

(** [POST /api/hunters] *)
Definition create_hunter (payload : CreateHunterRequest.t) : M (Hunter.t * N) :=
  check_db ;;;
  t1 <- now ;;
  t2 <- now ;;
  let hunter :=
    Hunter.mk (CreateHunterRequest.name payload)
              (CreateHunterRequest.title payload) 1 0 0 None t1 t2 in
  inserted_id <- hunter_insert_one hunter ;;
  ret (hunter, inserted_id).

(** [POST /api/checkin] *)
Definition daily_checkin (user_id : string) : M checkin_response :=
  check_db ;;;
  found <- lookup_hunter user_id ;;
  let (oid, hunter) := found : N * Hunter.t in
  today <- today_str ;;
  let last_checkin := Hunter.last_checkin hunter in
  let last_date := (fun t => isoformat (date t)) <$> last_checkin in
  if match last_date with
     | Some d => String.eqb d today
     | None => false
     end
  then ret (Already_checked_in (Hunter.streak hunter) (Hunter.level hunter)
                               (Hunter.exp hunter))
  else
    (* Determine streak *)
    new_streak <- match last_checkin with
                  | Some last =>
                      t <- now ;;
                      ret (if date t - date last =? 1
                           then Hunter.streak hunter + 1 else 1)
                  | None => ret 1
                  end ;;
    (* Award EXP for check-in *)
    let exp_gain := checkin_exp_gain new_streak in
    let new_exp := Hunter.exp hunter + exp_gain in
    let level := Hunter.level hunter in
    r <- lift (daily_checkin_loop pow (loop_fuel new_exp) new_exp level false) ;;
    let '(new_exp, level, leveled_up) := r : Z * Z * bool in
    t_last <- now ;;
    t_upd <- now ;;
    hunter_update_one oid
      (Hunter.set_checkin new_exp level t_last new_streak t_upd) ;;;
    (* Record checkin *)
    t_c <- now ;;
    t_u <- now ;;
    checkin_insert_one (Checkin.mk user_id today new_streak t_c t_u) ;;;
    ret (Checkin_complete exp_gain new_streak level new_exp leveled_up).

(** [POST /api/workouts] *)
Definition log_workout (payload : LogWorkoutRequest.t) : M workout_response :=
  check_db ;;;
  (* Simple EXP calculation *)
  exp_gain <- lift (workout_exp_gain (LogWorkoutRequest.minutes payload)
                                     (LogWorkoutRequest.difficulty payload)) ;;
  found <- lookup_hunter (LogWorkoutRequest.user_id payload) ;;
  let (oid, hunter) := found : N * Hunter.t in
  let new_exp := Hunter.exp hunter + exp_gain in
  let level := Hunter.level hunter in
  r <- lift (log_workout_loop pow (loop_fuel new_exp) new_exp level false) ;;
  let '(new_exp, level, leveled_up) := r : Z * Z * bool in
  t_upd <- now ;;
  hunter_update_one oid (Hunter.set_progress new_exp level t_upd) ;;;
  (* Record workout *)
  t_c <- now ;;
  t_u <- now ;;
  workout_insert_one
    (Workout.mk (LogWorkoutRequest.user_id payload)
                (LogWorkoutRequest.workout_type payload)
                (LogWorkoutRequest.minutes payload)
                (LogWorkoutRequest.difficulty payload) exp_gain t_c t_u) ;;;
  ret (Workout_logged exp_gain level new_exp leveled_up).

(** [GET /api/quests]; [r] is the index that [random.choice] draws. *)
Definition get_daily_quests (r : nat) (user_id : string) : M (nat * Quest.t) :=
  check_db ;;;
  _ <- lookup_hunter user_id ;;
  today <- today_str ;;
  quest <- quest_find_one user_id today ;;
  match quest with
  | Some q => ret q
  | None =>
      let '(title, reward) := nth (r mod 4)%nat base ("", 0) in
      t_c <- now ;;
      t_u <- now ;;
      let quest :=
        Quest.mk user_id today title
          "Complete the task to earn EXP and keep your streak."
          reward false t_c t_u in
      s <- get_db ;;
      quest_insert_one quest ;;;
      ret (length (coll_quest s), quest)
  end.

(** [payload.date or today_str()]: an absent or empty date means today. *)
Definition date_or_today (payload : CompleteQuestRequest.t) : M string :=
  match CompleteQuestRequest.date payload with
  | Some d => if String.eqb d "" then today_str else ret d
  | None => today_str
  end.

(** [POST /api/quests/complete] *)
Definition complete_quest (payload : CompleteQuestRequest.t) : M complete_response :=
  check_db ;;;
  today <- date_or_today payload ;;
  quest <- quest_find_one (CompleteQuestRequest.user_id payload) today ;;
  match quest with
  | None => raise (HTTPException 404 "Quest not found for today")
  | Some (qid, quest) =>
      if Quest.completed quest
      then ret (Quest_already_completed (Quest.exp_reward quest))
      else
        (* Update quest *)
        t_q <- now ;;
        quest_update_one qid (Quest.set_completed t_q) ;;;
        (* Award EXP *)
        found <- lookup_hunter (CompleteQuestRequest.user_id payload) ;;
        let (oid, hunter) := found : N * Hunter.t in
        let reward := Quest.exp_reward quest in
        let new_exp := Hunter.exp hunter + reward in
        let level := Hunter.level hunter in
        r <- lift (complete_quest_loop pow (loop_fuel new_exp) new_exp level false) ;;
        let '(new_exp, level, leveled_up) := r : Z * Z * bool in
        t_upd <- now ;;
        hunter_update_one oid (Hunter.set_progress new_exp level t_upd) ;;;
        ret (Quest_completed reward level new_exp leveled_up)
  end.

(** The world after a request, whatever its response, and after a sequence
of requests served one after the other. *)
Definition serve (req : request) (w : World) : World :=
  match req with
  | POST_hunters payload => snd (create_hunter payload w)
  | POST_checkin user_id => snd (daily_checkin user_id w)
  | POST_workouts payload => snd (log_workout payload w)
  | GET_quests r user_id => snd (get_daily_quests r user_id w)
  | POST_quests_complete payload => snd (complete_quest payload w)
  end.

Definition serve_all (reqs : list request) (w : World) : World :=
  fold_left (fun w req => serve req w) reqs w.

End Routes.

(** ** Invariants of the stored documents *)

(** The invariant of the Hunter entity: level >= 1 and
    0 <= exp < next_level_exp(level), the threshold as the code computes
    it. *)
Definition hunter_normalized (pow : spec_float -> spec_float -> spec_float)
    (h : Hunter.t) : Prop :=
  1 <= Hunter.level h
  /\ 0 <= Hunter.exp h
  /\ exists req, next_level_exp pow (Hunter.level h) = Return req
                 /\ Hunter.exp h < req.

(** Every hunter is normalized with a streak >= 0, and every quest has a
    reward >= 0. *)
Definition store_ok (pow : spec_float -> spec_float -> spec_float)
    (s : Store) : Prop :=
  (forall oid h, coll_hunter s !! oid = Some h ->
                 hunter_normalized pow h /\ 0 <= Hunter.streak h)
  /\ Forall (fun q => 0 <= Quest.exp_reward q) (coll_quest s).

Definition world_ok (pow : spec_float -> spec_float -> spec_float)
    (w : World) : Prop :=
  match db w with
  | Some s => store_ok pow s
  | None => True
  end.

(** The one bound on a request that the invariants need. *)
Definition minutes_nonnegative (req : request) : Prop :=
  match req with
  | POST_workouts payload => 0 <= LogWorkoutRequest.minutes payload
  | _ => True
  end.

(** ** The read-only routes *)

Record profile_response : Type := Profile {
  pr_id : N;
  pr_name : string;
  pr_title : option string;
  pr_level : Z;
  pr_exp : Z;
  pr_exp_to_next : Z;
  pr_progress_pct : Z;
  pr_streak : Z
}.

Section ReadRoutes.

Variable pow : spec_float -> spec_float -> spec_float.
Variable ObjectId : string -> option N.

(** [GET /api/hunters]: [find({}).limit(100)], each document with its
    [_id] moved to ["id"]. The cursor runs over the collection in the
    order of the store. *)
Definition list_hunters : M (list (N * Hunter.t)) :=
  check_db ;;;
  s <- get_db ;;
  ret (take 100 (map_to_list (coll_hunter s))).

(** [GET /api/profile] *)
Definition get_profile (user_id : string) : M profile_response :=
  check_db ;;;
  found <- lookup_hunter ObjectId user_id ;;
  let (oid, hunter) := found : N * Hunter.t in
  (* Compute progress to next level *)
  let level := Hunter.level hunter in
  let exp := Hunter.exp hunter in
  to_next <- lift (next_level_exp pow level) ;;
  (* min(100, int(exp / to_next * 100)) if to_next else 0 *)
  progress <- (if to_next =? 0 then ret 0
               else p <- lift (percent exp to_next) ;; ret (Z.min 100 p)) ;;
  ret (Profile oid (Hunter.name hunter) (Hunter.title hunter) level exp
               to_next progress (Hunter.streak hunter)).

End ReadRoutes.

(** ** The store transitions of the routes

    What a request can do to the store, whatever it answers: nothing, or
    one of the writes below. Timestamps, the date string and the ids are
    those the handler happens to use. *)

Inductive effect (pow : spec_float -> spec_float -> spec_float)
  : request -> Store -> Store -> Prop :=
  | effect_none (req : request) (s : Store) : effect pow req s s
  | effect_create (payload : CreateHunterRequest.t) (s : Store) (t1 t2 : Z) :
      effect pow (POST_hunters payload) s
        (mkStore
           (<[fresh (dom (coll_hunter s)) :=
                Hunter.mk (CreateHunterRequest.name payload)
                          (CreateHunterRequest.title payload) 1 0 0 None t1 t2]>
              (coll_hunter s))
           (coll_workout s) (coll_quest s) (coll_checkin s))
  | effect_checkin (user_id : string) (s : Store) (oid : N) (h : Hunter.t)
      (today : string) (new_streak new_exp level : Z) (leveled_up : bool)
      (t_last t_upd t_c t_u : Z) :
      coll_hunter s !! oid = Some h ->
      new_streak = 1 \/ new_streak = Hunter.streak h + 1 ->
      daily_checkin_loop pow
        (loop_fuel (Hunter.exp h + checkin_exp_gain new_streak))
        (Hunter.exp h + checkin_exp_gain new_streak) (Hunter.level h) false
      = Return (new_exp, level, leveled_up) ->
      effect pow (POST_checkin user_id) s
        (mkStore
           (alter (Hunter.set_checkin new_exp level t_last new_streak t_upd)
                  oid (coll_hunter s))
           (coll_workout s) (coll_quest s)
           (coll_checkin s ++ [Checkin.mk user_id today new_streak t_c t_u]))
  | effect_workout (payload : LogWorkoutRequest.t) (s : Store) (oid : N)
      (h : Hunter.t) (exp_gain new_exp level : Z) (leveled_up : bool)
      (t_upd t_c t_u : Z) :
      workout_exp_gain (LogWorkoutRequest.minutes payload)
                       (LogWorkoutRequest.difficulty payload)
      = Return exp_gain ->
      coll_hunter s !! oid = Some h ->
      log_workout_loop pow (loop_fuel (Hunter.exp h + exp_gain))
                       (Hunter.exp h + exp_gain) (Hunter.level h) false
      = Return (new_exp, level, leveled_up) ->
      effect pow (POST_workouts payload) s
        (mkStore
           (alter (Hunter.set_progress new_exp level t_upd) oid (coll_hunter s))
           (coll_workout s ++
            [Workout.mk (LogWorkoutRequest.user_id payload)
                        (LogWorkoutRequest.workout_type payload)
                        (LogWorkoutRequest.minutes payload)
                        (LogWorkoutRequest.difficulty payload)
                        exp_gain t_c t_u])
           (coll_quest s) (coll_checkin s))
  | effect_quest_new (r : nat) (user_id : string) (s : Store) (today : string)
      (title : string) (reward t_c t_u : Z) :
      find_one (Quest.matches user_id today) (coll_quest s) = None ->
      In (title, reward) base ->
      effect pow (GET_quests r user_id) s
        (mkStore (coll_hunter s) (coll_workout s)
           (coll_quest s ++
            [Quest.mk user_id today title
               "Complete the task to earn EXP and keep your streak."
               reward false t_c t_u])
           (coll_checkin s))
  | effect_quest_marked (payload : CompleteQuestRequest.t) (s : Store)
      (qid : nat) (q : Quest.t) (t_q : Z) :
      coll_quest s !! qid = Some q ->
      Quest.completed q = false ->
      effect pow (POST_quests_complete payload) s
        (mkStore (coll_hunter s) (coll_workout s)
           (alter (Quest.set_completed t_q) qid (coll_quest s))
           (coll_checkin s))
  | effect_quest_awarded (payload : CompleteQuestRequest.t) (s : Store)
      (qid : nat) (q : Quest.t) (oid : N) (h : Hunter.t)
      (new_exp level : Z) (leveled_up : bool) (t_q t_upd : Z) :
      coll_quest s !! qid = Some q ->
      Quest.completed q = false ->
      coll_hunter s !! oid = Some h ->
      complete_quest_loop pow
        (loop_fuel (Hunter.exp h + Quest.exp_reward q))
        (Hunter.exp h + Quest.exp_reward q) (Hunter.level h) false
      = Return (new_exp, level, leveled_up) ->
      effect pow (POST_quests_complete payload) s
        (mkStore
           (alter (Hunter.set_progress new_exp level t_upd) oid (coll_hunter s))
           (coll_workout s)
           (alter (Quest.set_completed t_q) qid (coll_quest s))
           (coll_checkin s)).

(** ** More invariants of the stored documents *)

(** What stays of a hunter: its name, title and creation time; its level
    may only grow. *)
Definition hunter_kept (h h' : Hunter.t) : Prop :=
  Hunter.name h' = Hunter.name h
  /\ Hunter.title h' = Hunter.title h
  /\ Hunter.created_at h' = Hunter.created_at h
  /\ Hunter.level h <= Hunter.level h'.

(** What stays of a quest: everything but [updated_at], and [completed]
    once it is set. *)
Definition quest_kept (q q' : Quest.t) : Prop :=
  Quest.user_id q' = Quest.user_id q
  /\ Quest.date q' = Quest.date q
  /\ Quest.title q' = Quest.title q
  /\ Quest.exp_reward q' = Quest.exp_reward q
  /\ (Quest.completed q = true -> Quest.completed q' = true).

(** The pair that the Quest entity is unique for. *)
Definition quest_key (q : Quest.t) : string * string :=
  (Quest.user_id q, Quest.date q).

Definition quest_keys_unique (s : Store) : Prop :=
  NoDup (map quest_key (coll_quest s)).

(** The range of schemas.py for the minutes of a workout. *)
Definition minutes_in_range (req : request) : Prop :=
  match req with
  | POST_workouts payload => 1 <= LogWorkoutRequest.minutes payload <= 300
  | _ => True
  end.

(** ** A concrete environment

    Instances of the library parameters, to run the handlers on
    concrete requests: [pow] is correctly rounded, ids are 24 hexadecimal
    digits, dates print as [YYYY-MM-DD] in the proleptic Gregorian
    calendar, and the clock advances by one second per reading. *)

(** A correctly rounded [pow(x, 1.5)] for a positive [x]: the square root
    of the exact cube of [x], rounded once to the nearest float, ties to
    even. The program calls [pow] with no other exponent. *)
Definition pow_rn (x y : spec_float) : spec_float :=
  match x with
  | S754_finite false m e =>
      if SFeqb y float_1_5 then
        let '(q, e', l) :=
          SFsqrt_core_binary prec emax (Z.pos (m * m * m)) (3 * e) in
        binary_round_aux prec emax false q e' l
      else S754_nan
  | _ => S754_nan
  end.

Definition hex_digit (c : ascii) : option N :=
  let n := N_of_ascii c in
  if ((48 <=? n) && (n <=? 57))%N then Some (n - 48)%N
  else if ((97 <=? n) && (n <=? 102))%N then Some (n - 87)%N
  else if ((65 <=? n) && (n <=? 70))%N then Some (n - 55)%N
  else None.

Fixpoint hex_value (s : string) (acc : N) : option N :=
  match s with
  | EmptyString => Some acc
  | String c s' =>
      match hex_digit c with
      | Some d => hex_value s' (16 * acc + d)%N
      | None => None
      end
  end.

Definition hex_ObjectId (s : string) : option N :=
  if Nat.eqb (String.length s) 24 then hex_value s 0%N else None.

Definition digit (n : Z) : string :=
  String (ascii_of_N (48 + Z.to_N n)) EmptyString.

Definition pad2 (n : Z) : string := (digit (n / 10 mod 10) ++ digit (n mod 10))%string.

Definition pad4 (n : Z) : string := (pad2 (n / 100) ++ pad2 (n mod 100))%string.

Definition civil_isoformat (days : Z) : string :=
  let z := days + 719468 in
  let era := z / 146097 in
  let doe := z mod 146097 in
  let yoe := (doe - doe / 1460 + doe / 36524 - doe / 146096) / 365 in
  let doy := doe - (365 * yoe + yoe / 4 - yoe / 100) in
  let mp := (5 * doy + 2) / 153 in
  let d := doy - (153 * mp + 2) / 5 + 1 in
  let m := if mp <? 10 then mp + 3 else mp - 9 in
  let y := yoe + era * 400 + (if m <=? 2 then 1 else 0) in
  (pad4 y ++ "-" ++ pad2 m ++ "-" ++ pad2 d)%string.

(** One reading per second, starting 2023-11-14 22:13:20 UTC. *)
Definition second_clock (n : nat) : Z := 1700000000 + Z.of_nat n.

(** Worlds and requests to run the handlers on. *)

Definition id0 : string := "000000000000000000000000".

Definition empty_world : World := mkWorld (Some (mkStore ∅ [] [] [])) 0.

(** One hunter, just created, at id 0. *)
Definition sung : Hunter.t :=
  Hunter.mk "Sung" None 1 0 0 None 1700000000 1700000001.

Definition store1 : Store := mkStore {[ 0%N := sung ]} [] [] [].

Definition world1 : World := mkWorld (Some store1) 2.

(** The same hunter after a check-in today, and after one yesterday. *)
Definition sung_today : Hunter.t :=
  Hunter.mk "Sung" None 1 11 1 (Some 1700000003) 1700000000 1700000004.

Definition store_today : Store :=
  mkStore {[ 0%N := sung_today ]} [] []
          [Checkin.mk id0 "2023-11-14" 1 1700000005 1700000006].

Definition world_today : World := mkWorld (Some store_today) 7.

Definition sung_yesterday : Hunter.t :=
  Hunter.mk "Sung" None 1 40 3 (Some 1699913600) 1699000000 1699913601.

Definition store_yesterday : Store :=
  mkStore {[ 0%N := sung_yesterday ]} [] [] [].

Definition world_yesterday : World := mkWorld (Some store_yesterday) 0.

(** Today's quest of hunter 0, open and completed; and an open quest filed
    under a user id that is no ObjectId. *)
Definition quest_run (user_id : string) (completed : bool) : Quest.t :=
  Quest.mk user_id "2023-11-14" "Run 3 km"
    "Complete the task to earn EXP and keep your streak."
    90 completed 1700000003 1700000004.

Definition store_quest_done : Store :=
  mkStore {[ 0%N := sung ]} [] [quest_run id0 true] [].

Definition world_quest_done : World := mkWorld (Some store_quest_done) 5.

Definition store_quest_orphan : Store :=
  mkStore {[ 0%N := sung ]} [] [quest_run "ghost" false] [].

Definition world_quest_orphan : World := mkWorld (Some store_quest_orphan) 5.

(** Requests. *)
Definition workout_60_normal : LogWorkoutRequest.t :=
  LogWorkoutRequest.mk id0 "run" 60 "normal".

Definition workout_minus_1_normal : LogWorkoutRequest.t :=
  LogWorkoutRequest.mk id0 "run" (-1) "normal".

Definition workout_minus_10_normal : LogWorkoutRequest.t :=
  LogWorkoutRequest.mk id0 "run" (-10) "normal".

Definition complete_today (user_id : string) : CompleteQuestRequest.t :=
  CompleteQuestRequest.mk user_id None.

(** A world without a database, an id that names no hunter, and today's
    quest of hunter 0 still open. *)
Definition world_no_db : World := mkWorld None 0.

Definition id1 : string := "000000000000000000000001".

Definition store_quest_open : Store :=
  mkStore {[ 0%N := sung ]} [] [quest_run id0 false] [].

Definition world_quest_open : World := mkWorld (Some store_quest_open) 5.

(** A clock whose first seven readings fall on 2023-11-14 and the later
    ones on the day after. *)
Definition next_day_clock (n : nat) : Z :=
  if (n <? 7)%nat then 1700000000 + Z.of_nat n else 1700086400 + Z.of_nat n.

(** A clock whose first reading is the last second of 2023-11-14; the
    later ones fall on 2023-11-15. *)
Definition midnight_clock (n : nat) : Z := 1700006399 + Z.of_nat n.

(** One request to each of the five routes. *)
Definition session : list request :=
  [ POST_hunters (CreateHunterRequest.mk "Jin" (Some "Rookie"));
    POST_checkin id0;
    POST_workouts workout_60_normal;
    GET_quests 1 id0;
    POST_quests_complete (complete_today id0) ].

(** A level at which the threshold in double precision leaves
    floor(100 * L^1.5), and the award that shows it. *)
Definition level_360004 : Z := 360004.

Definition award_360004 : Z := 21600360000.

(** A test: on the [n] levels from [lo] on, [next_level_exp] with the
    correctly rounded [pow] returns the threshold of the specification. *)
Fixpoint next_level_exp_is_required (lo : Z) (n : nat) : bool :=
  match n with
  | O => true
  | S n' =>
      match next_level_exp pow_rn lo with
      | Return req => (req =? required lo) && next_level_exp_is_required (lo + 1) n'
      | _ => false
      end
  end.

Example required_1 : required 1 = 100.
Proof. reflexivity. Qed.
Example iso_epoch : civil_isoformat 0 = "1970-01-01".
Proof. reflexivity. Qed.
Example iso_leap : civil_isoformat 11016 = "2000-02-29".
Proof. reflexivity. Qed.
Example iso_2024 : civil_isoformat 19723 = "2024-01-01".
Proof. reflexivity. Qed.
Example iso_clock : civil_isoformat (date (second_clock 0)) = "2023-11-14".
Proof. reflexivity. Qed.
Example iso_midnight :
  civil_isoformat (date (midnight_clock 0)) = "2023-11-14"
  /\ civil_isoformat (date (midnight_clock 1)) = "2023-11-15".
Proof. split; reflexivity. Qed.
Example oid_1 : hex_ObjectId "00000000000000000000000A" = Some 10%N.
Proof. reflexivity. Qed.
Example oid_bad : hex_ObjectId "xyz" = None.
Proof. reflexivity. Qed.

(** ** Binary64 arithmetic *)

Lemma digits2_pos_log2 (m : positive) :
  Z.pos (digits2_pos m) = Z.log2 (Z.pos m) + 1.
Proof.
  assert (H : forall p, digits2_pos p = Pos.size p)
    by (induction p; simpl; congruence).
  rewrite H. destruct m; simpl; lia.
Qed.

Lemma Zdigits2_log2 (a : Z) : 0 < a -> Zdigits2 a = Z.log2 a + 1.
Proof.
  destruct a as [| p | p]; try lia. intros _. apply digits2_pos_log2.
Qed.

(** A positive number has as many digits as its logarithm says. *)
Lemma digits2_pos_bounds (m : positive) :
  2 ^ (Z.pos (digits2_pos m) - 1) <= Z.pos m < 2 ^ Z.pos (digits2_pos m).
Proof.
  rewrite digits2_pos_log2.
  pose proof (Z.log2_spec (Z.pos m) ltac:(lia)) as H.
  replace (Z.log2 (Z.pos m) + 1 - 1) with (Z.log2 (Z.pos m)) by lia.
  unfold Z.succ in H. exact H.
Qed.

Lemma Zdigits2_le (a b : Z) : 0 < a -> a <= b -> Zdigits2 a <= Zdigits2 b.
Proof.
  intros Ha Hab. rewrite !Zdigits2_log2 by lia.
  pose proof (Z.log2_le_mono a b Hab). lia.
Qed.

(** Dropping [n] low digits of a number that has more than [n]. *)
Lemma Zdigits2_div_pow2 (a n : Z) :
  0 < a -> 0 <= n < Zdigits2 a ->
  0 < a / 2 ^ n /\ Zdigits2 (a / 2 ^ n) = Zdigits2 a - n.
Proof.
  intros Ha Hn. rewrite Zdigits2_log2 in Hn by exact Ha.
  pose proof (Z.log2_spec a Ha) as [Hlo _].
  assert (Hq : 0 < a / 2 ^ n).
  { apply Z.div_str_pos. split; [apply Z.pow_pos_nonneg; lia |].
    etransitivity; [| exact Hlo]. apply Z.pow_le_mono_r; lia. }
  split; [exact Hq |].
  rewrite !Zdigits2_log2 by assumption.
  rewrite <- Z.shiftr_div_pow2 by lia.
  rewrite Z.log2_shiftr by exact Ha. lia.
Qed.

Lemma shr_1_m (mrs : shr_record) :
  0 <= shr_m mrs -> shr_m (shr_1 mrs) = shr_m mrs / 2.
Proof.
  destruct mrs as [m r s]. cbn [shr_m]. intros Hm.
  rewrite <- Z.div2_div.
  destruct m as [| p | p]; [reflexivity | | lia].
  destruct p; reflexivity.
Qed.

Lemma iter_pos_shr_1_m (n : positive) (mrs : shr_record) :
  0 <= shr_m mrs ->
  shr_m (SpecFloat.iter_pos shr_1 n mrs) = shr_m mrs / 2 ^ Z.pos n.
Proof.
  revert mrs. induction n as [n IH | n IH |]; intros mrs Hm; cbn [SpecFloat.iter_pos].
  - assert (H1 : 0 <= shr_m (shr_1 mrs))
      by (rewrite shr_1_m by exact Hm; apply Z.div_pos; lia).
    assert (H2 : 0 <= shr_m (SpecFloat.iter_pos shr_1 n (shr_1 mrs)))
      by (rewrite IH by exact H1; apply Z.div_pos; [exact H1 | apply Z.pow_pos_nonneg; lia]).
    rewrite IH by exact H2. rewrite IH by exact H1. rewrite shr_1_m by exact Hm.
    rewrite !Z.div_div by (try (apply Z.pow_nonzero; lia); try (apply Z.pow_pos_nonneg; lia); lia).
    f_equal.
    replace (Z.pos n~1) with (1 + Z.pos n + Z.pos n) by lia.
    rewrite !Z.pow_add_r by lia. lia.
  - assert (H1 : 0 <= shr_m (SpecFloat.iter_pos shr_1 n mrs))
      by (rewrite IH by exact Hm; apply Z.div_pos; [exact Hm | apply Z.pow_pos_nonneg; lia]).
    rewrite IH by exact H1. rewrite IH by exact Hm.
    rewrite Z.div_div by (try (apply Z.pow_nonzero; lia); try (apply Z.pow_pos_nonneg; lia); lia).
    f_equal.
    replace (Z.pos n~0) with (Z.pos n + Z.pos n) by lia.
    rewrite Z.pow_add_r by lia. reflexivity.
  - rewrite shr_1_m by exact Hm. reflexivity.
Qed.

(** The mantissa and the exponent after a shift. *)
Lemma shr_m_e (mrs : shr_record) (e n : Z) :
  0 <= shr_m mrs ->
  shr_m (fst (shr mrs e n)) = shr_m mrs / 2 ^ Z.max n 0
  /\ snd (shr mrs e n) = e + Z.max n 0.
Proof.
  intros Hm. destruct n as [| p | p]; cbn [shr fst snd].
  - cbn. rewrite Z.div_1_r. lia.
  - rewrite iter_pos_shr_1_m by exact Hm.
    replace (Z.max (Z.pos p) 0) with (Z.pos p) by lia. auto.
  - replace (Z.max (Z.neg p) 0) with 0 by lia. cbn. rewrite Z.div_1_r. lia.
Qed.

Lemma shr_record_of_loc_m (m : Z) (l : location) :
  shr_m (shr_record_of_loc m l) = m.
Proof. destruct l as [| []]; reflexivity. Qed.

Lemma round_nearest_even_bounds (m : Z) (l : location) :
  m <= round_nearest_even m l <= m + 1.
Proof.
  destruct l as [| []]; cbn; try lia. destruct (Z.even m); lia.
Qed.

(** The exponent of a float of magnitude at least 1/2 is not the
    smallest one. *)
Lemma fexp_large (x : Z) : 1 <= x -> fexp prec emax x = x - prec.
Proof. unfold fexp, emin, prec, emax. lia. Qed.

(** One rounding step: a mantissa with [d] digits at exponent [e], with
    [d + e >= 1], leaves a positive mantissa with at least as large a
    magnitude. *)
Lemma shr_fexp_large (m : Z) (e : Z) (l : location) :
  0 < m -> 1 <= Zdigits2 m + e ->
  let r := shr_fexp prec emax m e l in
  0 < shr_m (fst r)
  /\ Zdigits2 m + e <= Zdigits2 (shr_m (fst r)) + snd r.
Proof.
  intros Hm Hmag r. subst r. unfold shr_fexp.
  rewrite fexp_large by exact Hmag.
  destruct (shr_m_e (shr_record_of_loc m l) e (Zdigits2 m + e - prec - e))
    as [Hsm Hse]; [rewrite shr_record_of_loc_m; lia |].
  rewrite Hsm, Hse, shr_record_of_loc_m.
  assert (Hd : 1 <= Zdigits2 m) by (rewrite Zdigits2_log2 by exact Hm;
    pose proof (Z.log2_nonneg m); lia).
  destruct (Zdigits2_div_pow2 m (Z.max (Zdigits2 m + e - prec - e) 0) Hm)
    as [Hq Hdq]; [unfold prec; lia |].
  split; [exact Hq |]. rewrite Hdq. lia.
Qed.

(** Rounding a positive number of magnitude at least 1 gives an infinity
    or a finite number of magnitude at least 1, of the same sign. *)
Lemma binary_round_aux_large (sx : bool) (m : positive) (e : Z) (l : location) :
  1 <= Z.pos (digits2_pos m) + e ->
  binary_round_aux prec emax sx (Z.pos m) e l = S754_infinity sx
  \/ exists m' e',
       binary_round_aux prec emax sx (Z.pos m) e l = S754_finite sx m' e'
       /\ 1 <= Z.pos (digits2_pos m') + e'.
Proof.
  intros Hmag. unfold binary_round_aux.
  pose proof (shr_fexp_large (Z.pos m) e l ltac:(lia) Hmag) as [Hm1 Hmag1].
  destruct (shr_fexp prec emax (Z.pos m) e l) as [mrs1 e1]. cbn [fst snd] in *.
  pose proof (round_nearest_even_bounds (shr_m mrs1) (loc_of_shr_record mrs1))
    as Hround.
  set (m1 := round_nearest_even (shr_m mrs1) (loc_of_shr_record mrs1)) in *.
  assert (Hd1 : Zdigits2 (shr_m mrs1) <= Zdigits2 m1)
    by (apply Zdigits2_le; lia).
  pose proof (shr_fexp_large m1 e1 loc_Exact ltac:(lia)
                ltac:(cbn [Zdigits2] in Hmag1; lia)) as [Hm2 Hmag2].
  destruct (shr_fexp prec emax m1 e1 loc_Exact) as [mrs2 e2].
  cbn [fst snd] in *.
  destruct (shr_m mrs2) as [| m2 | m2]; try lia.
  destruct (e2 <=? emax - prec); [right | left; reflexivity].
  exists m2, e2. split; [reflexivity |].
  cbn [Zdigits2] in *. lia.
Qed.

Lemma digits2_pos_iter_xO (m k : positive) :
  digits2_pos (Pos.iter xO m k) = (digits2_pos m + k)%positive.
Proof.
  induction k as [| k IH] using Pos.peano_ind.
  - cbn. lia.
  - rewrite Pos.iter_succ. cbn [digits2_pos]. rewrite IH. lia.
Qed.

Lemma binary_round_large (sx : bool) (m : positive) (e : Z) :
  1 <= Z.pos (digits2_pos m) + e ->
  binary_round prec emax sx m e = S754_infinity sx
  \/ exists m' e',
       binary_round prec emax sx m e = S754_finite sx m' e'
       /\ 1 <= Z.pos (digits2_pos m') + e'.
Proof.
  intros Hmag. unfold binary_round.
  rewrite fexp_large by exact Hmag. unfold shl_align.
  destruct (Z.pos (digits2_pos m) + e - prec - e) as [| d | d] eqn:Hd;
    try (apply binary_round_aux_large; exact Hmag).
  apply binary_round_aux_large. rewrite digits2_pos_iter_xO.
  rewrite Pos2Z.inj_add. lia.
Qed.

(** The float of an int that is not 0 has the sign of the int and a
    magnitude of at least 1, unless the int is too large. *)
Lemma float_of_int_positive (n : Z) :
  1 <= n ->
  float_of_int n = Raise OverflowError
  \/ exists m e, float_of_int n = Return (S754_finite false m e)
                 /\ 1 <= Z.pos (digits2_pos m) + e.
Proof.
  intros Hn. destruct n as [| p | p]; try lia.
  unfold float_of_int. cbn [binary_normalize].
  destruct (binary_round_large false p 0) as [-> | (m & e & -> & Hmag)].
  - pose proof (digits2_pos_bounds p). lia.
  - left. reflexivity.
  - right. eauto.
Qed.

Lemma float_of_int_negative (n : Z) :
  n <= -1 ->
  float_of_int n = Raise OverflowError
  \/ exists m e, float_of_int n = Return (S754_finite true m e).
Proof.
  intros Hn. destruct n as [| p | p]; try lia.
  unfold float_of_int. cbn [binary_normalize].
  destruct (binary_round_large true p 0) as [-> | (m & e & -> & Hmag)].
  - pose proof (digits2_pos_bounds p). lia.
  - left. reflexivity.
  - right. eauto.
Qed.

(** The product of two positive floats of magnitude at least 1. *)
Lemma float_mul_large (m1 : positive) (e1 : Z) (m2 : positive) (e2 : Z) :
  1 <= Z.pos (digits2_pos m1) + e1 ->
  1 <= Z.pos (digits2_pos m2) + e2 ->
  at_least_one (float_mul (S754_finite false m1 e1) (S754_finite false m2 e2)).
Proof.
  intros H1 H2. unfold float_mul. cbn [SFmul xorb].
  destruct (binary_round_aux_large false (m1 * m2) (e1 + e2) loc_Exact)
    as [-> | (m & e & -> & Hmag)]; [| exact I | exact Hmag].
  rewrite !digits2_pos_log2 in *. rewrite Pos2Z.inj_mul.
  pose proof (Z.log2_mul_below (Z.pos m1) (Z.pos m2) ltac:(lia) ltac:(lia)).
  lia.
Qed.

(** [int] of a float that is at least 1. *)
Lemma int_of_float_large (x : spec_float) :
  at_least_one x ->
  int_of_float x = Raise OverflowError
  \/ exists a, int_of_float x = Return a /\ 1 <= a.
Proof.
  destruct x as [s | [] | | [] m e]; cbn [at_least_one]; try contradiction.
  - intros _. left. reflexivity.
  - intros Hmag. right. cbn [int_of_float]. eexists. split; [reflexivity |].
    pose proof (digits2_pos_bounds m) as [Hlo _].
    destruct (Z.leb_spec 0 e) as [He | He].
    + assert (0 < 2 ^ e) by (apply Z.pow_pos_nonneg; lia). nia.
    + assert (0 < Z.pos m / 2 ^ (- e)); [| lia].
      apply Z.div_str_pos. split; [apply Z.pow_pos_nonneg; lia |].
      etransitivity; [| exact Hlo]. apply Z.pow_le_mono_r; lia.
Qed.

(** [int] of a float that is not negative. *)
Lemma int_of_float_nonneg (x : spec_float) (a : Z) :
  match x with S754_finite true _ _ => False | _ => True end ->
  int_of_float x = Return a -> 0 <= a.
Proof.
  destruct x as [s | s | | [] m e]; cbn [int_of_float]; try contradiction;
    intros _; try discriminate; intros [= <-]; [lia |].
  destruct (Z.leb_spec 0 e) as [He | He].
  - assert (0 < 2 ^ e) by (apply Z.pow_pos_nonneg; lia). nia.
  - apply Z.div_pos; [lia | apply Z.pow_pos_nonneg; lia].
Qed.

(** Rounding keeps the sign. *)
Lemma binary_round_aux_sign (sx : bool) (m e : Z) (l : location) :
  match binary_round_aux prec emax sx m e l with
  | S754_zero s | S754_infinity s | S754_finite s _ _ => s = sx
  | S754_nan => True
  end.
Proof.
  unfold binary_round_aux.
  destruct (shr_fexp prec emax m e l) as [mrs1 e1].
  destruct (shr_fexp prec emax _ e1 loc_Exact) as [mrs2 e2].
  destruct (shr_m mrs2); [reflexivity | | exact I].
  destruct (e2 <=? emax - prec); reflexivity.
Qed.

Lemma diff_mult_table :
  diff_mult "easy" = float_1
  /\ diff_mult "normal" = float_1_5
  /\ diff_mult "hard" = float_2
  /\ forall d, d <> "easy" -> d <> "normal" -> d <> "hard" ->
               diff_mult d = float_1_5.
Proof.
  repeat split. intros d He Hn Hh. unfold diff_mult.
  destruct (String.eqb_spec d "easy"); [contradiction |].
  destruct (String.eqb_spec d "normal"); [contradiction |].
  destruct (String.eqb_spec d "hard"); [contradiction | reflexivity].
Qed.

Lemma diff_mult_positive (d : string) :
  exists m e, diff_mult d = S754_finite false m e.
Proof.
  unfold diff_mult.
  destruct (String.eqb d "easy"); [eexists _, _; reflexivity |].
  destruct (String.eqb d "normal"); [eexists _, _; reflexivity |].
  destruct (String.eqb d "hard"); eexists _, _; reflexivity.
Qed.

(** The EXP of a workout of [minutes >= 0] is not negative. *)
Lemma workout_exp_gain_nonneg (minutes : Z) (difficulty : string) (g : Z) :
  0 <= minutes -> workout_exp_gain minutes difficulty = Return g -> 0 <= g.
Proof.
  intros Hm. unfold workout_exp_gain.
  destruct (diff_mult_positive difficulty) as (dm & de & ->).
  destruct (Z.eq_dec minutes 0) as [-> | Hne].
  { cbn. intros [= <-]. lia. }
  destruct (float_of_int_positive minutes ltac:(lia)) as [-> | (m & e & -> & _)];
    cbn [and_then]; [discriminate |].
  apply int_of_float_nonneg. unfold float_mul. cbn [SFmul xorb].
  pose proof (binary_round_aux_sign false (Z.pos (m * dm)) (e + de) loc_Exact) as Hs.
  destruct (binary_round_aux prec emax false (Z.pos (m * dm)) (e + de) loc_Exact)
    as [s | s | | s m' e']; try exact I.
  subst s. exact I.
Qed.

Lemma workout_exp_gain_ends (minutes : Z) (difficulty : string) :
  workout_exp_gain minutes difficulty <> Diverge.
Proof.
  unfold workout_exp_gain, float_of_int.
  destruct (binary_normalize prec emax minutes 0 false); cbn [and_then];
    try discriminate; destruct (float_mul _ _); discriminate.
Qed.

(** *** The minutes of the schema *)

Lemma multiplier_table :
  multiplier "easy" = 1 # 1
  /\ multiplier "normal" = 3 # 2
  /\ multiplier "hard" = 2 # 1
  /\ forall d, d <> "easy" -> d <> "normal" -> d <> "hard" ->
               multiplier d = 3 # 2.
Proof.
  repeat split. intros d He Hn Hh. unfold multiplier.
  destruct (String.eqb_spec d "easy"); [contradiction |].
  destruct (String.eqb_spec d "normal"); [contradiction |].
  destruct (String.eqb_spec d "hard"); [contradiction | reflexivity].
Qed.

(** The float table of the code and the table of the specification go
    together. *)
Lemma diff_mult_multiplier (d : string) :
  (diff_mult d = float_1 /\ multiplier d = 1 # 1)
  \/ (diff_mult d = float_1_5 /\ multiplier d = 3 # 2)
  \/ (diff_mult d = float_2 /\ multiplier d = 2 # 1).
Proof.
  unfold diff_mult, multiplier.
  destruct (String.eqb d "easy"); [left; split; reflexivity |].
  destruct (String.eqb d "normal"); [right; left; split; reflexivity |].
  destruct (String.eqb d "hard"); [right; right | right; left];
    split; reflexivity.
Qed.

Lemma exp_gain_is_floor_1_to_300 :
  forallb (fun n => exp_gain_is_floor float_1 (1 # 1) (Z.of_nat n)
                    && exp_gain_is_floor float_1_5 (3 # 2) (Z.of_nat n)
                    && exp_gain_is_floor float_2 (2 # 1) (Z.of_nat n))
          (seq 1 300)
  = true.
Proof. vm_compute. reflexivity. Qed.

Lemma workout_exp_gain_checked (minutes : Z) (d : string) :
  1 <= minutes <= 300 ->
  exp_gain_is_floor (diff_mult d) (multiplier d) minutes = true.
Proof.
  intros Hm.
  pose proof (proj1 (forallb_forall _ _) exp_gain_is_floor_1_to_300
                (Z.to_nat minutes)) as Hcheck.
  cbv beta in Hcheck. rewrite Z2Nat.id in Hcheck by lia.
  specialize (Hcheck ltac:(apply in_seq; lia)).
  apply andb_true_iff in Hcheck as [Hcheck H2].
  apply andb_true_iff in Hcheck as [H1 H15].
  destruct (diff_mult_multiplier d) as [[-> ->] | [[-> ->] | [-> ->]]];
    assumption.
Qed.

(** For 1 to 300 minutes [int(minutes * diff_mult)] is
    floor(minutes * multiplier). *)
Lemma workout_exp_gain_valid_minutes (minutes : Z) (d : string) :
  1 <= minutes <= 300 ->
  workout_exp_gain minutes d
  = Return (Qfloor (inject_Z minutes * multiplier d)).
Proof.
  intros Hm. pose proof (workout_exp_gain_checked minutes d Hm) as Hcheck.
  unfold exp_gain_is_floor in Hcheck. unfold workout_exp_gain.
  destruct (and_then _ _) as [g | e |]; try discriminate.
  apply andb_true_iff in Hcheck as [Hcheck _].
  apply andb_true_iff in Hcheck as [Hcheck _].
  apply Z.eqb_eq in Hcheck. rewrite Hcheck. reflexivity.
Qed.

Lemma workout_exp_gain_valid_range (minutes : Z) (d : string) :
  1 <= minutes <= 300 ->
  1 <= Qfloor (inject_Z minutes * multiplier d) <= 600.
Proof.
  intros Hm. pose proof (workout_exp_gain_checked minutes d Hm) as Hcheck.
  unfold exp_gain_is_floor in Hcheck.
  destruct (and_then _ _) as [g | e |]; try discriminate.
  apply andb_true_iff in Hcheck as [Hcheck Hhi].
  apply andb_true_iff in Hcheck as [Heq Hlo].
  apply Z.eqb_eq in Heq. rewrite <- Heq. lia.
Qed.

(** ** The thresholds of [next_level_exp] *)

Example float_literals :
  binary_normalize prec emax 1 0 false = float_1
  /\ binary_normalize prec emax 3 (-1) false = float_1_5
  /\ binary_normalize prec emax 2 0 false = float_2
  /\ binary_normalize prec emax 100 0 false = float_100.
Proof. repeat split. Qed.

Example int_of_100_times_1 : int_of_float (float_mul float_100 float_1) = Return 100.
Proof. reflexivity. Qed.

Section Thresholds.

Variable pow : spec_float -> spec_float -> spec_float.

Lemma next_level_exp_0 : next_level_exp pow 0 = Return 0.
Proof. reflexivity. Qed.

(** [1.0 ** 1.5] is [1.0] without a call of the C library. *)
Lemma next_level_exp_1 : next_level_exp pow 1 = Return 100.
Proof. reflexivity. Qed.

Lemma next_level_exp_negative (level : Z) :
  level < 0 -> exists e, next_level_exp pow level = Raise e.
Proof.
  intros Hl. unfold next_level_exp.
  destruct (float_of_int_negative level ltac:(lia)) as [-> | (m & e & ->)];
    cbn [and_then float_pow_1_5]; [eauto |].
  destruct (pow (S754_finite false m e) float_1_5); cbn [and_then]; eauto.
Qed.

(** From level 1 on a threshold is at least 1, when the C library's
    [pow(x, 1.5)] is at least 1 for [x >= 1]. *)
Lemma next_level_exp_positive (level req : Z) :
  pow_at_least_one pow -> 1 <= level ->
  next_level_exp pow level = Return req -> 1 <= req.
Proof.
  intros Hpow Hl. unfold next_level_exp.
  destruct (float_of_int_positive level Hl) as [-> | (m & e & -> & Hmag)];
    cbn [and_then]; [discriminate |].
  cbn [float_pow_1_5].
  destruct (SFeqb (S754_finite false m e) float_1).
  - cbn [and_then]. rewrite int_of_100_times_1. intros [= <-]. lia.
  - specialize (Hpow m e Hmag).
    destruct (pow (S754_finite false m e) float_1_5) as [s | [] | | [] m' e'];
      cbn [at_least_one] in Hpow; try contradiction; cbn [and_then];
      try discriminate.
    destruct (int_of_float_large
                (float_mul float_100 (S754_finite false m' e')))
      as [-> | (a & -> & Ha)]; [| discriminate | intros [= <-]; exact Ha].
    apply float_mul_large; [cbn; lia | exact Hpow].
Qed.

Lemma thresholds_return_from_sound (lo : Z) (n : nat) :
  thresholds_return_from pow lo n = true ->
  forall hi, hi < lo + Z.of_nat n -> thresholds_return pow lo hi.
Proof.
  revert lo. induction n as [| n IH]; intros lo Hcheck hi Hhi L HL; [lia |].
  cbn [thresholds_return_from] in Hcheck.
  destruct (next_level_exp pow lo) as [req | e |] eqn:Hreq; try discriminate.
  apply andb_true_iff in Hcheck as [Hpos Hrest].
  destruct (Z.eq_dec L lo) as [-> | Hne].
  - exists req. split; [exact Hreq | apply Z.leb_le; exact Hpos].
  - apply (IH (lo + 1) Hrest hi); lia.
Qed.

Lemma thresholds_return_narrow (lo hi lo' hi' : Z) :
  thresholds_return pow lo hi -> lo <= lo' -> hi' <= hi ->
  thresholds_return pow lo' hi'.
Proof. intros H Hlo Hhi L HL. apply H. lia. Qed.

End Thresholds.

(** ** The correctly rounded [pow] *)

Lemma pow_rn_at_least_one : pow_at_least_one pow_rn.
Proof.
  intros m e Hmag. unfold pow_rn.
  change (SFeqb float_1_5 float_1_5) with true. cbv iota.
  unfold SFsqrt_core_binary.
  set (m3 := Z.pos (m * m * m)).
  set (e' := Z.min (fexp prec emax (Z.div2 (Zdigits2 m3 + 3 * e + 1)))
                   (Z.div2 (3 * e))).
  set (s := 3 * e - 2 * e').
  assert (Hs : 0 <= s).
  { subst s e'. pose proof (Z.div2_odd (3 * e)) as Hodd.
    destruct (Z.odd (3 * e)); cbn [Z.b2z] in Hodd; lia. }
  set (m' := match s with
             | 0 => m3
             | Z.pos _ => Z.shiftl m3 s
             | Z.neg _ => 0
             end).
  assert (Hm' : m' = m3 * 2 ^ s).
  { subst m'. destruct s as [| p | p]; [lia | | lia].
    apply Z.shiftl_mul_pow2. lia. }
  pose proof (digits2_pos_bounds m) as [Hlo _].
  assert (Hm3 : 2 ^ (- (3 * e)) <= m3 \/ (0 <= e /\ 1 <= m3)).
  { destruct (Z.leb_spec 0 e) as [He | He]; [right; subst m3; lia | left].
    assert (Hm : 2 ^ (- e) <= Z.pos m).
    { etransitivity; [| exact Hlo]. apply Z.pow_le_mono_r; lia. }
    subst m3. rewrite !Pos2Z.inj_mul.
    replace (- (3 * e)) with (- e + - e + - e) by lia.
    rewrite !Z.pow_add_r by lia.
    assert (Hb : 0 < 2 ^ (- e)) by (apply Z.pow_pos_nonneg; lia).
    assert (H2 : 2 ^ (- e) * 2 ^ (- e) <= Z.pos m * Z.pos m)
      by (apply Z.mul_le_mono_nonneg; lia).
    apply Z.mul_le_mono_nonneg; lia. }
  assert (Hbig : 2 ^ Z.max 0 (- e') * 2 ^ Z.max 0 (- e') <= m').
  { rewrite Hm', <- Z.pow_add_r by lia.
    assert (H2s : 0 < 2 ^ s) by (apply Z.pow_pos_nonneg; lia).
    destruct (Z.leb_spec 0 e') as [He' | He'].
    - replace (Z.max 0 (- e') + Z.max 0 (- e')) with 0 by lia.
      change (2 ^ 0) with 1. subst m3. nia.
    - replace (Z.max 0 (- e') + Z.max 0 (- e')) with (- (2 * e')) by lia.
      destruct Hm3 as [Hm3 | [He Hm3]].
      + replace (- (2 * e')) with (- (3 * e) + s) by lia.
        destruct (Z.leb_spec 0 (- (3 * e))) as [Hneg | Hpos].
        * rewrite Z.pow_add_r by lia.
          assert (0 < 2 ^ (- (3 * e))) by (apply Z.pow_pos_nonneg; lia). nia.
        * assert (2 ^ (- (3 * e) + s) <= 2 ^ s)
            by (apply Z.pow_le_mono_r; lia).
          subst m3. nia.
      + assert (2 ^ (- (2 * e')) <= 2 ^ s) by (apply Z.pow_le_mono_r; lia).
        nia. }
  assert (Hm'pos : 0 <= m').
  { rewrite Hm'. subst m3. assert (0 < 2 ^ s) by (apply Z.pow_pos_nonneg; lia). nia. }
  pose proof (proj1 (Z.sqrt_le_square m' (2 ^ Z.max 0 (- e')) Hm'pos
                       ltac:(apply Z.pow_nonneg; lia)) Hbig) as Hq.
  pose proof (Z.sqrtrem_sqrt m') as Hsqrt.
  destruct (Z.sqrtrem m') as [q r]. cbn [fst] in Hsqrt. subst q.
  assert (Hqpos : 0 < Z.sqrt m').
  { assert (0 < 2 ^ Z.max 0 (- e')) by (apply Z.pow_pos_nonneg; lia). lia. }
  destruct (Z.sqrt m') as [| q | q] eqn:Hsq; try lia.
  set (l := if r =? 0 then loc_Exact
            else loc_Inexact (if r <=? Z.pos q then Lt else Gt)).
  destruct (binary_round_aux_large false q e' l)
    as [-> | (mr & er & -> & Hr)]; [| exact I | exact Hr].
  rewrite digits2_pos_log2.
  assert (Z.max 0 (- e') <= Z.log2 (Z.pos q)); [| lia].
  apply Z.log2_le_pow2; [lia | exact Hq].
Qed.

(** ** Small levels: the thresholds of the specification *)

Lemma next_level_exp_is_required_sound (lo : Z) (n : nat) :
  next_level_exp_is_required lo n = true ->
  forall L, lo <= L < lo + Z.of_nat n ->
    next_level_exp pow_rn L = Return (required L).
Proof.
  revert lo. induction n as [| n IH]; intros lo Hcheck L HL; [lia |].
  cbn [next_level_exp_is_required] in Hcheck.
  destruct (next_level_exp pow_rn lo) as [req | e |] eqn:Hreq; try discriminate.
  apply andb_true_iff in Hcheck as [Heq Hrest].
  destruct (Z.eq_dec L lo) as [-> | Hne].
  - apply Z.eqb_eq in Heq. rewrite Hreq, Heq. reflexivity.
  - apply (IH (lo + 1) Hrest). lia.
Qed.

Lemma next_level_exp_small (L : Z) :
  1 <= L <= 10002 -> next_level_exp pow_rn L = Return (required L).
Proof.
  intros HL.
  apply (next_level_exp_is_required_sound 1 (Z.to_nat 10002));
    [vm_compute; reflexivity | lia].
Qed.

(** ** The level-up loop *)

Section LevelUp.

Variable pow : spec_float -> spec_float -> spec_float.

Lemma int_of_float_ends (x : spec_float) : int_of_float x <> Diverge.
Proof. destruct x; discriminate. Qed.

Lemma next_level_exp_ends (level : Z) : next_level_exp pow level <> Diverge.
Proof.
  unfold next_level_exp, float_of_int.
  destruct (binary_normalize prec emax level 0 false) as [s | s | | [] m e];
    cbn [and_then float_pow_1_5]; try discriminate;
    try apply int_of_float_ends.
  - destruct (pow (S754_finite false m e) float_1_5); discriminate.
  - destruct (SFeqb _ _); cbn [and_then]; [apply int_of_float_ends |].
    destruct (pow (S754_finite false m e) float_1_5); cbn [and_then];
      try discriminate; apply int_of_float_ends.
Qed.

Lemma log_workout_loop_eq (fuel : nat) (new_exp level : Z) (leveled_up : bool) :
  log_workout_loop pow fuel new_exp level leveled_up
  = daily_checkin_loop pow fuel new_exp level leveled_up.
Proof.
  revert new_exp level leveled_up.
  induction fuel as [| fuel IH]; intros new_exp level leveled_up; simpl.
  - reflexivity.
  - destruct (next_level_exp pow level) as [req | e |]; [| reflexivity | reflexivity].
    destruct (new_exp >=? req); [apply IH | reflexivity].
Qed.

Lemma complete_quest_loop_eq (fuel : nat) (new_exp level : Z) (leveled_up : bool) :
  complete_quest_loop pow fuel new_exp level leveled_up
  = daily_checkin_loop pow fuel new_exp level leveled_up.
Proof.
  revert new_exp level leveled_up.
  induction fuel as [| fuel IH]; intros new_exp level leveled_up; simpl.
  - reflexivity.
  - destruct (next_level_exp pow level) as [req | e |]; [| reflexivity | reflexivity].
    destruct (new_exp >=? req); [apply IH | reflexivity].
Qed.

Lemma level_up_copies (loop : nat -> Z -> Z -> bool -> outcome (Z * Z * bool)) :
  In loop [daily_checkin_loop pow; log_workout_loop pow; complete_quest_loop pow] ->
  forall fuel new_exp level leveled_up,
    loop fuel new_exp level leveled_up
    = daily_checkin_loop pow fuel new_exp level leveled_up.
Proof.
  intros [<- | [<- | [<- | []]]] fuel new_exp level leveled_up.
  - reflexivity.
  - apply log_workout_loop_eq.
  - apply complete_quest_loop_eq.
Qed.

Lemma threshold_eq (level req : Z) :
  next_level_exp pow level = Return req -> threshold pow level = req.
Proof. unfold threshold. intros ->. reflexivity. Qed.

(** What the loop returns, when it returns: the level has not gone down,
    the new exp is below the threshold of the new level, the thresholds of
    the levels passed were computed and add up to what was taken off, and
    the flag is raised exactly when a level was passed. *)
Lemma daily_checkin_loop_sound (fuel : nat) (new_exp level : Z) (leveled_up : bool)
    (e' l' : Z) (b' : bool) :
  daily_checkin_loop pow fuel new_exp level leveled_up = Return (e', l', b') ->
  level <= l'
  /\ (exists req, next_level_exp pow l' = Return req /\ e' < req)
  /\ new_exp = e' + consumed (threshold pow) level (Z.to_nat (l' - level))
  /\ b' = leveled_up || (level <? l')
  /\ (l' = level -> e' = new_exp)
  /\ (0 <= new_exp -> 0 <= e').
Proof.
  revert new_exp level leveled_up.
  induction fuel as [| fuel IH]; intros new_exp level leveled_up; simpl;
    [discriminate |].
  destruct (next_level_exp pow level) as [req | e |] eqn:Hreq;
    [| discriminate | discriminate].
  destruct (Z.geb_spec new_exp req) as [Hge | Hlt].
  - intros Hrun.
    destruct (IH _ _ _ Hrun) as (Hle & Hnew & Hsum & Hflag & _ & Hnn).
    split; [lia |]. split; [exact Hnew |].
    split.
    { replace (Z.to_nat (l' - level)) with (S (Z.to_nat (l' - (level + 1))))
        by lia.
      cbn [consumed]. rewrite (threshold_eq _ _ Hreq). lia. }
    split.
    { rewrite Hflag. destruct (Z.ltb_spec level l'); [| lia].
      rewrite orb_true_r. reflexivity. }
    split; [lia |]. intros _. apply Hnn. lia.
  - intros [= <- <- <-].
    split; [lia |]. split; [eauto |].
    rewrite Z.sub_diag, Z.ltb_irrefl, orb_false_r.
    change (Z.to_nat 0) with O. cbn [consumed].
    split; [lia |]. split; [reflexivity |]. split; [reflexivity |]. auto.
Qed.

(** More fuel changes nothing once the loop has ended. *)
Lemma daily_checkin_loop_more_fuel (n m : nat) (new_exp level : Z)
    (leveled_up : bool) (o : outcome (Z * Z * bool)) :
  daily_checkin_loop pow n new_exp level leveled_up = o -> o <> Diverge ->
  (n <= m)%nat ->
  daily_checkin_loop pow m new_exp level leveled_up = o.
Proof.
  revert m new_exp level leveled_up.
  induction n as [| n IH]; intros m new_exp level leveled_up; simpl.
  - intros <- H. contradiction.
  - intros Hrun Ho Hm. destruct m as [| m]; [lia |]. simpl.
    destruct (next_level_exp pow level) as [req | e |]; try exact Hrun.
    destruct (new_exp >=? req); [| exact Hrun].
    apply IH; [exact Hrun | exact Ho | lia].
Qed.

(** The flag the loop starts with is raised or kept, nothing else. *)
Lemma daily_checkin_loop_flag (fuel : nat) (new_exp level : Z) (leveled_up : bool) :
  daily_checkin_loop pow fuel new_exp level leveled_up
  = match daily_checkin_loop pow fuel new_exp level false with
    | Return (e', l', b') => Return (e', l', leveled_up || b')
    | o => o
    end.
Proof.
  revert new_exp level leveled_up.
  induction fuel as [| fuel IH]; intros new_exp level leveled_up; simpl;
    [reflexivity |].
  destruct (next_level_exp pow level) as [req | e |]; try reflexivity.
  destruct (new_exp >=? req).
  - destruct (daily_checkin_loop pow fuel (new_exp - req) (level + 1) true)
      as [[[e' l'] b'] | e |] eqn:Hrun; try reflexivity.
    destruct (daily_checkin_loop_sound _ _ _ _ _ _ _ Hrun)
      as (_ & _ & _ & -> & _). rewrite orb_true_r. reflexivity.
  - rewrite orb_false_r. reflexivity.
Qed.

(** A run, and then a run from its result with [delta] more, is one run
    with [delta] more from the start. *)
Lemma daily_checkin_loop_compose (n m : nat) (new_exp level : Z)
    (leveled_up : bool) (e1 l1 : Z) (b1 : bool) (delta : Z)
    (o : outcome (Z * Z * bool)) :
  daily_checkin_loop pow n new_exp level leveled_up = Return (e1, l1, b1) ->
  0 <= delta ->
  daily_checkin_loop pow m (e1 + delta) l1 b1 = o -> o <> Diverge ->
  daily_checkin_loop pow (n + m) (new_exp + delta) level leveled_up = o.
Proof.
  revert new_exp level leveled_up.
  induction n as [| n IH]; intros new_exp level leveled_up Hrun Hdelta Hnext Ho;
    [discriminate |].
  cbn [daily_checkin_loop] in Hrun.
  destruct (next_level_exp pow level) as [req | e |] eqn:Hreq;
    [| discriminate | discriminate].
  destruct (Z.geb_spec new_exp req) as [Hge | Hlt].
  - change (S n + m)%nat with (S (n + m)). cbn [daily_checkin_loop].
    rewrite Hreq.
    destruct (Z.geb_spec (new_exp + delta) req) as [_ | Hlt]; [| lia].
    replace (new_exp + delta - req) with (new_exp - req + delta) by lia.
    apply IH; assumption.
  - injection Hrun as <- <- <-.
    apply (daily_checkin_loop_more_fuel m); [exact Hnext | exact Ho | lia].
Qed.

(** With every threshold from level 1 on at least 1, the fuel of the
    handlers is enough: the loop ends, by its exit or by the exception of
    [next_level_exp]. *)
Lemma daily_checkin_loop_ends (fuel : nat) (new_exp level : Z) (leveled_up : bool) :
  pow_at_least_one pow -> (loop_fuel new_exp <= fuel)%nat ->
  daily_checkin_loop pow fuel new_exp level leveled_up <> Diverge.
Proof.
  intros Hpow Hfuel.
  destruct (Z.lt_ge_cases level 0) as [Hneg | Hl].
  { destruct fuel as [| fuel]; [unfold loop_fuel in Hfuel; lia |]. simpl.
    destruct (next_level_exp_negative pow level Hneg) as [e ->]. discriminate. }
  assert (Hn : (Z.to_nat new_exp + Z.to_nat (1 - level) < fuel)%nat)
    by (unfold loop_fuel in Hfuel; lia).
  clear Hfuel. revert new_exp level leveled_up Hl Hn.
  induction fuel as [| fuel IH]; intros new_exp level leveled_up Hl Hn; [lia |].
  simpl.
  destruct (next_level_exp pow level) as [req | e |] eqn:Hreq;
    [| discriminate | exact (fun _ => next_level_exp_ends level Hreq)].
  destruct (Z.geb_spec new_exp req) as [Hge | Hlt]; [| discriminate].
  apply IH; [lia |].
  destruct (Z.eq_dec level 0) as [-> | Hne].
  - rewrite next_level_exp_0 in Hreq. injection Hreq as <-. lia.
  - pose proof (next_level_exp_positive pow level req Hpow ltac:(lia) Hreq). lia.
Qed.

(** With the thresholds of the levels in reach computed and at least 1,
    the loop returns. *)
Lemma daily_checkin_loop_returns (fuel : nat) (new_exp level : Z) (leveled_up : bool) :
  thresholds_return pow level (level + Z.max new_exp 0) ->
  (Z.to_nat new_exp < fuel)%nat ->
  exists r, daily_checkin_loop pow fuel new_exp level leveled_up = Return r.
Proof.
  revert new_exp level leveled_up.
  induction fuel as [| fuel IH]; intros new_exp level leveled_up Hthr Hfuel; [lia |].
  simpl.
  destruct (Hthr level ltac:(lia)) as (req & -> & Hreq).
  destruct (Z.geb_spec new_exp req) as [Hge | Hlt]; [| eauto].
  apply IH; [| lia].
  apply (thresholds_return_narrow pow _ _ _ _ Hthr); lia.
Qed.

(** Every level passed costs at least 1: the level gained is at most the
    exp taken off. *)
Lemma daily_checkin_loop_reach (fuel : nat) (new_exp level : Z) (leveled_up : bool)
    (e' l' : Z) (b' : bool) :
  thresholds_return pow level (level + Z.max new_exp 0) ->
  daily_checkin_loop pow fuel new_exp level leveled_up = Return (e', l', b') ->
  l' + e' <= level + new_exp.
Proof.
  revert new_exp level leveled_up.
  induction fuel as [| fuel IH]; intros new_exp level leveled_up Hthr; simpl;
    [discriminate |].
  destruct (Hthr level ltac:(lia)) as (req & -> & Hreq).
  destruct (Z.geb_spec new_exp req) as [Hge | Hlt].
  - intros Hrun. apply IH in Hrun; [lia |].
    apply (thresholds_return_narrow pow _ _ _ _ Hthr); lia.
  - intros [= <- <- <-]. lia.
Qed.

(** The same with an exp that may be negative: levels are only passed
    with exp that is there. *)
Lemma daily_checkin_loop_reach_max (fuel : nat) (new_exp level : Z)
    (leveled_up : bool) (e' l' : Z) (b' : bool) :
  thresholds_return pow level (level + Z.max new_exp 0) ->
  daily_checkin_loop pow fuel new_exp level leveled_up = Return (e', l', b') ->
  l' + Z.max e' 0 <= level + Z.max new_exp 0.
Proof.
  revert new_exp level leveled_up.
  induction fuel as [| fuel IH]; intros new_exp level leveled_up Hthr; simpl;
    [discriminate |].
  destruct (Hthr level ltac:(lia)) as (req & -> & Hreq).
  destruct (Z.geb_spec new_exp req) as [Hge | Hlt].
  - intros Hrun. apply IH in Hrun; [lia |].
    apply (thresholds_return_narrow pow _ _ _ _ Hthr); lia.
  - intros [= <- <- <-]. lia.
Qed.

(** The two together: the loop of a handler, run with the handler's fuel
    or more. *)
Lemma daily_checkin_loop_run (fuel : nat) (new_exp level : Z) :
  thresholds_return pow level (level + Z.max new_exp 0) ->
  (loop_fuel new_exp <= fuel)%nat ->
  exists e' l' b' req,
    daily_checkin_loop pow fuel new_exp level false = Return (e', l', b')
    /\ level <= l'
    /\ next_level_exp pow l' = Return req
    /\ e' < req
    /\ new_exp = e' + consumed (threshold pow) level (Z.to_nat (l' - level))
    /\ (b' = true <-> level < l')
    /\ (0 <= new_exp -> 0 <= e')
    /\ l' + e' <= level + new_exp.
Proof.
  intros Hthr Hfuel.
  destruct (daily_checkin_loop_returns fuel new_exp level false Hthr)
    as [[[e' l'] b'] Hrun]; [unfold loop_fuel in Hfuel; lia |].
  pose proof (daily_checkin_loop_reach _ _ _ _ _ _ _ Hthr Hrun) as Hreach.
  destruct (daily_checkin_loop_sound _ _ _ _ _ _ _ Hrun)
    as (Hle & (req & Hreq & Hlt) & Hsum & Hflag & _ & Hnn).
  exists e', l', b', req. repeat split; try assumption.
  - intros ->. cbn in Hflag. symmetry in Hflag. apply Z.ltb_lt. exact Hflag.
  - intros Hlt'. rewrite Hflag. cbn. apply Z.ltb_lt. exact Hlt'.
Qed.

(** Where the thresholds are computed the loop is the engine over them. *)
Lemma daily_checkin_loop_normalize (fuel : nat) (new_exp level : Z) (leveled_up : bool) :
  (forall L, level <= L < level + Z.of_nat fuel ->
     exists req, next_level_exp pow L = Return req) ->
  daily_checkin_loop pow fuel new_exp level leveled_up
  = match normalize (threshold pow) fuel level new_exp with
    | Some (level', exp', k) =>
        Return (exp', level', leveled_up || negb (Nat.eqb k 0))
    | None => Diverge
    end.
Proof.
  revert new_exp level leveled_up.
  induction fuel as [| fuel IH]; intros new_exp level leveled_up Hthr; simpl.
  - reflexivity.
  - destruct (Hthr level ltac:(lia)) as (req & Hreq).
    rewrite (threshold_eq _ _ Hreq), Hreq, Z.geb_leb.
    destruct (req <=? new_exp).
    + rewrite IH by (intros L HL; apply Hthr; lia).
      destruct (normalize (threshold pow) fuel (level + 1) (new_exp - req))
        as [[[l' e'] k] |]; [| reflexivity].
      simpl. rewrite orb_true_r. reflexivity.
    + simpl. rewrite orb_false_r. reflexivity.
Qed.

End LevelUp.

(** ** The threshold of the specification *)

Lemma cube_nonneg (L : Z) : 0 <= L -> 0 <= 10000 * L ^ 3.
Proof. intros HL. assert (0 <= L ^ 3) by (apply Z.pow_nonneg; lia). lia. Qed.

(** [required L] is the floor of [100 * L^1.5]: it is the integer [r] with
    [r^2 <= 100^2 * L^3 < (r+1)^2]. *)
Lemma required_floor (L : Z) :
  0 <= L ->
  required L * required L <= 10000 * L ^ 3 < (required L + 1) * (required L + 1).
Proof.
  intros HL. unfold required.
  pose proof (Z.sqrt_spec (10000 * L ^ 3) (cube_nonneg L HL)) as H.
  unfold Z.succ in H. exact H.
Qed.

Lemma required_nonneg (L : Z) : 0 <= required L.
Proof. apply Z.sqrt_nonneg. Qed.

Lemma required_ge_100 (L : Z) : 1 <= L -> 100 <= required L.
Proof.
  intros HL. unfold required.
  apply Z.sqrt_le_square; [apply cube_nonneg; lia | lia |].
  assert (1 <= L ^ 3) by (replace (L ^ 3) with (L * L * L) by ring; nia).
  lia.
Qed.

Lemma required_lt_succ (L : Z) : 1 <= L -> required L < required (L + 1).
Proof.
  intros HL.
  pose proof (required_floor L ltac:(lia)) as [Hlo _].
  pose proof (required_nonneg L) as Hr.
  assert (Hle : required L + 1 <= required (L + 1)); [| lia].
  unfold required at 2.
  apply Z.sqrt_le_square; [apply cube_nonneg; lia | lia |].
  replace (L ^ 3) with (L * L * L) in Hlo by ring.
  replace ((L + 1) ^ 3) with ((L + 1) * (L + 1) * (L + 1)) by ring.
  assert (Hb : required L <= 100 * L * L) by nia.
  nia.
Qed.

(** The threshold of the specification is strictly increasing from
    level 1 on. *)
Lemma required_strictly_increasing (a b : Z) :
  1 <= a -> a < b -> required a < required b.
Proof.
  intros Ha Hab.
  replace b with (a + Z.of_nat (S (Z.to_nat (b - a - 1)))) by lia.
  generalize (Z.to_nat (b - a - 1)) as n. intros n.
  induction n as [| n IH].
  - apply required_lt_succ; lia.
  - etransitivity; [exact IH |].
    replace (a + Z.of_nat (S (S n))) with (a + Z.of_nat (S n) + 1) by lia.
    apply required_lt_succ; lia.
Qed.

(** ** The claims on the level-up loop *)

(** C1, amended. With the thresholds that next_level_exp computes in
    double precision in place of required(L) = floor(100 * L^1.5): for
    every level >= 1, exp >= 0 and delta >= 0 for which the thresholds of
    the levels in reach (level to level + exp + delta) are computed and
    at least 1, the level-up loop (each of the three copies, run on
    exp + delta with the handlers' fuel or more) returns an exp with
    0 <= exp < next_level_exp(new_level), and experience is conserved:
    exp + delta = new_exp + the thresholds of the levels passed through,
    each of which next_level_exp returned. *)
Theorem level_up_range_and_conservation
    (pow : spec_float -> spec_float -> spec_float)
    (loop : nat -> Z -> Z -> bool -> outcome (Z * Z * bool))
    (fuel : nat) (level exp delta : Z) :
  In loop [daily_checkin_loop pow; log_workout_loop pow; complete_quest_loop pow] ->
  1 <= level ->
  0 <= exp ->
  0 <= delta ->
  (loop_fuel (exp + delta) <= fuel)%nat ->
  thresholds_return pow level (level + (exp + delta)) ->
  exists new_exp new_level leveled_up req,
    loop fuel (exp + delta) level false
    = Return (new_exp, new_level, leveled_up)
    /\ next_level_exp pow new_level = Return req
    /\ 0 <= new_exp < req
    /\ level <= new_level <= level + (exp + delta)
    /\ exp + delta
       = new_exp
         + consumed (threshold pow) level (Z.to_nat (new_level - level))
    /\ (forall L, level <= L < new_level ->
          next_level_exp pow L = Return (threshold pow L)
          /\ 1 <= threshold pow L).
Proof.
  intros Hloop Hlevel Hexp Hdelta Hfuel Hthr.
  rewrite (level_up_copies pow loop Hloop).
  destruct (daily_checkin_loop_run pow fuel (exp + delta) level)
    as (e' & l' & b & req & Hrun & Hle & Hreq & Hlt & Hsum & _ & Hnn & Hreach);
    [replace (Z.max (exp + delta) 0) with (exp + delta) by lia; exact Hthr
    | exact Hfuel |].
  specialize (Hnn ltac:(lia)).
  exists e', l', b, req.
  split; [exact Hrun |]. split; [exact Hreq |].
  split; [lia |]. split; [lia |]. split; [exact Hsum |].
  intros L HL. destruct (Hthr L ltac:(lia)) as (r & Hr & Hpos).
  rewrite (threshold_eq pow L r Hr). auto.
Qed.

(** C9, amended. The formula required(L) = floor(100 * L^1.5) is positive
    and strictly increasing for every level >= 1, with required(1) = 100.
    The threshold that the code computes, next_level_exp(level), is 100
    at level 1 and, with a C library whose pow(x, 1.5) is at least 1 for
    x >= 1, positive for every level >= 1 at which it returns; it is not
    strictly increasing: 2^53 and 2^53 + 1 are the same float and get the
    same threshold. The level-up loop still terminates for every
    level >= 1, exp >= 0 and delta >= 0, however large: some amount of
    fuel suffices, and with that much or more the loop ends in one same
    way, with its result or with the exception of next_level_exp (a level
    beyond the range of a float); it ends with its result when the
    thresholds of the levels in reach are computed. *)
Theorem thresholds_positive_and_loop_terminates
    (pow : spec_float -> spec_float -> spec_float) :
  pow_at_least_one pow ->
  (required 1 = 100
   /\ (forall L, 1 <= L -> 0 < required L)
   /\ (forall a b, 1 <= a -> a < b -> required a < required b))
  /\ next_level_exp pow 1 = Return 100
  /\ (forall L req, 1 <= L -> next_level_exp pow L = Return req -> 0 < req)
  /\ next_level_exp pow (2 ^ 53 + 1) = next_level_exp pow (2 ^ 53)
  /\ (forall loop level exp delta,
        In loop [daily_checkin_loop pow; log_workout_loop pow;
                 complete_quest_loop pow] ->
        1 <= level -> 0 <= exp -> 0 <= delta ->
        exists n o,
          o <> Diverge
          /\ (forall fuel, (n <= fuel)%nat ->
                loop fuel (exp + delta) level false = o)
          /\ (thresholds_return pow level (level + (exp + delta)) ->
              exists r, o = Return r)).
Proof.
  intros Hpow.
  split.
  { split; [reflexivity |]. split; [| exact required_strictly_increasing].
    intros L HL. pose proof (required_ge_100 L HL). lia. }
  split; [reflexivity |].
  split.
  { intros L req HL Hreq.
    pose proof (next_level_exp_positive pow L req Hpow HL Hreq). lia. }
  split; [reflexivity |].
  intros loop level exp delta Hloop Hlevel Hexp Hdelta.
  exists (loop_fuel (exp + delta)),
         (daily_checkin_loop pow (loop_fuel (exp + delta)) (exp + delta) level false).
  split; [apply daily_checkin_loop_ends; [exact Hpow | lia] |].
  split.
  - intros fuel Hfuel. rewrite (level_up_copies pow loop Hloop).
    apply (daily_checkin_loop_more_fuel pow (loop_fuel (exp + delta)));
      [reflexivity | apply daily_checkin_loop_ends; [exact Hpow | lia]
      | exact Hfuel].
  - intros Hthr. apply daily_checkin_loop_returns; [| unfold loop_fuel; lia].
    replace (Z.max (exp + delta) 0) with (exp + delta) by lia. exact Hthr.
Qed.


(** X2. Awards add up: from a level >= 1 and an exp >= 0, with the
    thresholds of the levels in reach computed and at least 1, levelling
    by delta1 and then, from the result, by delta2 ends at the same level
    and exp as levelling once by delta1 + delta2, and the single run
    reports a level-up exactly when one of the two runs does. *)
Theorem level_up_is_additive
    (pow : spec_float -> spec_float -> spec_float)
    (loop : nat -> Z -> Z -> bool -> outcome (Z * Z * bool))
    (level exp delta1 delta2 : Z) :
  In loop [daily_checkin_loop pow; log_workout_loop pow; complete_quest_loop pow] ->
  1 <= level -> 0 <= exp -> 0 <= delta1 -> 0 <= delta2 ->
  thresholds_return pow level (level + (exp + delta1 + delta2)) ->
  exists exp1 level1 up1 exp2 level2 up2,
    loop (loop_fuel (exp + delta1)) (exp + delta1) level false
    = Return (exp1, level1, up1)
    /\ loop (loop_fuel (exp1 + delta2)) (exp1 + delta2) level1 false
       = Return (exp2, level2, up2)
    /\ loop (loop_fuel (exp + delta1 + delta2)) (exp + delta1 + delta2) level false
       = Return (exp2, level2, up1 || up2).
Proof.
  intros Hloop Hlevel Hexp Hd1 Hd2 Hthr.
  pose proof (level_up_copies pow loop Hloop) as Hcopy.
  destruct (daily_checkin_loop_run pow (loop_fuel (exp + delta1)) (exp + delta1) level)
    as (e1 & l1 & b1 & r1 & Hrun1 & Hle1 & _ & _ & _ & _ & Hnn1 & Hreach1);
    [apply (thresholds_return_narrow pow _ _ _ _ Hthr); lia | lia |].
  specialize (Hnn1 ltac:(lia)).
  destruct (daily_checkin_loop_run pow (loop_fuel (e1 + delta2)) (e1 + delta2) l1)
    as (e2 & l2 & b2 & r2 & Hrun2 & _);
    [apply (thresholds_return_narrow pow _ _ _ _ Hthr); lia | lia |].
  exists e1, l1, b1, e2, l2, b2. rewrite !Hcopy.
  split; [exact Hrun1 |]. split; [exact Hrun2 |].
  assert (Hrun2' : daily_checkin_loop pow (loop_fuel (e1 + delta2)) (e1 + delta2) l1 b1
                   = Return (e2, l2, b1 || b2))
    by (rewrite daily_checkin_loop_flag, Hrun2; reflexivity).
  pose proof (daily_checkin_loop_compose pow _ _ _ _ _ _ _ _ delta2 _
                Hrun1 Hd2 Hrun2' ltac:(discriminate)) as Hboth.
  destruct (daily_checkin_loop_returns pow (loop_fuel (exp + delta1 + delta2))
              (exp + delta1 + delta2) level false) as [r Hr];
    [apply (thresholds_return_narrow pow _ _ _ _ Hthr); lia
    | unfold loop_fuel; lia |].
  rewrite Hr.
  set (big := (loop_fuel (exp + delta1 + delta2)
               + (loop_fuel (exp + delta1) + loop_fuel (e1 + delta2)))%nat).
  pose proof (daily_checkin_loop_more_fuel pow _ big _ _ _ _ Hr
                ltac:(discriminate) ltac:(subst big; lia)) as Ha.
  pose proof (daily_checkin_loop_more_fuel pow _ big _ _ _ _ Hboth
                ltac:(discriminate) ltac:(subst big; lia)) as Hb.
  rewrite Ha in Hb. exact Hb.
Qed.

(** ** Small levels: the loop of the specification *)

Lemma normalize_ext (f g : Z -> Z) (n : nat) (level exp_total : Z) :
  (forall L, level <= L < level + Z.of_nat n -> f L = g L) ->
  normalize f n level exp_total = normalize g n level exp_total.
Proof.
  revert level exp_total.
  induction n as [| n IH]; intros level exp_total Hfg; [reflexivity |].
  cbn [normalize]. rewrite (Hfg level ltac:(lia)).
  rewrite (IH (level + 1)) by (intros L HL; apply Hfg; lia).
  reflexivity.
Qed.

Lemma consumed_ext (f g : Z -> Z) (level : Z) (k : nat) :
  (forall L, level <= L < level + Z.of_nat k -> f L = g L) ->
  consumed f level k = consumed g level k.
Proof.
  revert level. induction k as [| k IH]; intros level Hfg; [reflexivity |].
  cbn [consumed]. rewrite (Hfg level ltac:(lia)).
  rewrite (IH (level + 1)) by (intros L HL; apply Hfg; lia).
  reflexivity.
Qed.

Lemma threshold_small (L : Z) :
  1 <= L <= 10002 -> threshold pow_rn L = required L.
Proof. intros HL. apply threshold_eq, next_level_exp_small, HL. Qed.

(** X24. For small levels the code follows the specification to the
    letter, with a correctly rounded pow: for every level from 1 to 10000,
    next_level_exp(level) = required(level) = floor(100 * level^1.5), at
    least 100 and strictly increasing in the level; and for level >= 1,
    exp >= 0 and delta >= 0 with level + exp + delta <= 10000, each copy
    of the level-up loop returns an exp in [0, required(new_level)) with
    exp + delta = new_exp + the sum of required(L) over the levels passed,
    reports a level-up exactly when the level rose, and is the Leveling
    Engine of the specification. *)
Theorem small_levels_follow_the_specification
    (loop : nat -> Z -> Z -> bool -> outcome (Z * Z * bool))
    (level exp delta : Z) :
  In loop [daily_checkin_loop pow_rn; log_workout_loop pow_rn;
           complete_quest_loop pow_rn] ->
  1 <= level -> 0 <= exp -> 0 <= delta ->
  level + (exp + delta) <= 10000 ->
  (forall L, 1 <= L <= 10000 ->
     next_level_exp pow_rn L = Return (required L) /\ 100 <= required L)
  /\ (forall a b ra rb, 1 <= a -> a < b -> b <= 10000 ->
        next_level_exp pow_rn a = Return ra ->
        next_level_exp pow_rn b = Return rb -> ra < rb)
  /\ exists new_exp new_level leveled_up,
       loop (loop_fuel (exp + delta)) (exp + delta) level false
       = Return (new_exp, new_level, leveled_up)
       /\ 0 <= new_exp < required new_level
       /\ level <= new_level
       /\ exp + delta
          = new_exp + consumed required level (Z.to_nat (new_level - level))
       /\ (leveled_up = true <-> level < new_level)
       /\ engine_outcome
            (leveling_engine required (loop_fuel (exp + delta)) level exp delta)
          = Return (new_exp, new_level, leveled_up).
Proof.
  intros Hloop Hlevel Hexp Hdelta Hsmall.
  split.
  { intros L HL. split; [apply next_level_exp_small; lia |].
    apply required_ge_100; lia. }
  split.
  { intros a b ra rb Ha Hab Hb Hra Hrb.
    rewrite next_level_exp_small in Hra, Hrb by lia.
    injection Hra as <-. injection Hrb as <-.
    apply required_strictly_increasing; lia. }
  rewrite (level_up_copies pow_rn loop Hloop).
  assert (Hthr : thresholds_return pow_rn level
                   (level + Z.max (exp + delta) 0)).
  { intros L HL. exists (required L).
    assert (Hreq : next_level_exp pow_rn L = Return (required L))
      by (apply next_level_exp_small; lia).
    split; [exact Hreq |].
    exact (next_level_exp_positive pow_rn L _ pow_rn_at_least_one
             ltac:(lia) Hreq). }
  destruct (daily_checkin_loop_run pow_rn (loop_fuel (exp + delta))
              (exp + delta) level Hthr ltac:(lia))
    as (e' & l' & b & req & Hrun & Hle & Hreq & Hlt & Hsum & Hup & Hnn & Hreach).
  specialize (Hnn ltac:(lia)).
  rewrite next_level_exp_small in Hreq by lia. injection Hreq as <-.
  exists e', l', b.
  split; [exact Hrun |]. split; [lia |]. split; [exact Hle |].
  split.
  { rewrite Hsum. f_equal. apply consumed_ext. intros L HL.
    apply threshold_small. lia. }
  split; [exact Hup |].
  rewrite <- Hrun.
  rewrite (daily_checkin_loop_normalize pow_rn)
    by (intros L HL; exists (required L); apply next_level_exp_small;
        unfold loop_fuel in HL; lia).
  unfold leveling_engine.
  rewrite (normalize_ext required (threshold pow_rn))
    by (intros L HL; symmetry; apply threshold_small;
        unfold loop_fuel in HL; lia).
  destruct (normalize (threshold pow_rn) (loop_fuel (exp + delta)) level
              (exp + delta)) as [[[l2 e2] k] |]; reflexivity.
Qed.

(** ** Finding and updating a document *)

Lemma find_one_Some {A} (p : A -> bool) (l : list A) (i : nat) (x : A) :
  find_one p l = Some (i, x) ->
  l !! i = Some x /\ p x = true
  /\ forall j y, (j < i)%nat -> l !! j = Some y -> p y = false.
Proof.
  revert i. induction l as [| a l IH]; intros i; simpl; [discriminate |].
  destruct (p a) eqn:Hpa.
  - intros [= <- <-]. repeat split; [exact Hpa | intros j y Hj; lia].
  - destruct (find_one p l) as [[i' y'] |]; [| discriminate].
    intros [= <- <-]. destruct (IH i' eq_refl) as (Hl & Hp & Hbefore).
    repeat split; [exact Hl | exact Hp |].
    intros [| j] y Hj Hy; simpl in Hy.
    + injection Hy as <-. exact Hpa.
    + apply (Hbefore j y); [lia | exact Hy].
Qed.

(** Updating the document found, in a way its filter does not see, leaves
    it the document found. *)
Lemma find_one_alter {A} (p : A -> bool) (f : A -> A) (l : list A) (i : nat) (x : A) :
  find_one p l = Some (i, x) -> p (f x) = true ->
  find_one p (alter f i l) = Some (i, f x).
Proof.
  revert i. induction l as [| a l IH]; intros i; simpl; [discriminate |].
  destruct (p a) eqn:Hpa.
  - intros [= <- <-] Hpf. simpl. rewrite Hpf. reflexivity.
  - destruct (find_one p l) as [[i' y'] |] eqn:Hrec; [| discriminate].
    intros [= <- <-] Hpf.
    change (alter f (S i') (a :: l)) with (a :: alter f i' l).
    simpl. rewrite Hpa, (IH i' eq_refl Hpf). reflexivity.
Qed.

Lemma matches_set_completed (u d : string) (now : Z) (q : Quest.t) :
  Quest.matches u d (Quest.set_completed now q) = Quest.matches u d q.
Proof. reflexivity. Qed.

(** ** Computations that end *)

Lemma ends_ret {A} (a : A) : ends (ret a).
Proof. intros w. discriminate. Qed.

Lemma ends_raise {A} (e : exn) : ends (@raise A e).
Proof. intros w. discriminate. Qed.

Lemma ends_bind {A B} (m : M A) (k : A -> M B) :
  ends m -> (forall a, ends (k a)) -> ends (bind m k).
Proof.
  intros Hm Hk w. unfold bind. specialize (Hm w).
  destruct (m w) as [[a | e |] w']; cbn in *.
  - apply Hk.
  - discriminate.
  - contradiction.
Qed.

Lemma ends_try_except {A} (body handler : M A) :
  ends body -> ends handler -> ends (try_except body handler).
Proof.
  intros Hb Hh w. unfold try_except. specialize (Hb w).
  destruct (body w) as [[a | e |] w']; cbn in *.
  - discriminate.
  - apply Hh.
  - contradiction.
Qed.

Lemma ends_lift {A} (o : outcome A) : o <> Diverge -> ends (lift o).
Proof. intros Ho w. exact Ho. Qed.

Lemma ends_get_db : ends get_db.
Proof. intros w. unfold get_db. destruct (db w); discriminate. Qed.

Lemma ends_put_db (s : Store) : ends (put_db s).
Proof. intros w. discriminate. Qed.

Lemma ends_check_db : ends check_db.
Proof. intros w. unfold check_db. destruct (db w); discriminate. Qed.

Create HintDb ends discriminated.

#[export] Hint Resolve ends_ret ends_raise ends_get_db ends_put_db
  ends_check_db : ends.

(** Peel one layer of a computation: a bind, a lifted outcome, or a case
    distinction on a value. *)
Ltac ends_step :=
  match goal with
  | |- ends (bind _ _) => apply ends_bind; [| intros ?]
  | |- ends (try_except _ _) => apply ends_try_except
  | |- ends (lift _) => apply ends_lift
  | |- ends (match ?x with _ => _ end) => destruct x
  | |- ends (let (_, _) := ?x in _) => destruct x
  | |- ends _ => solve [auto with ends]
  end.

(** ** Properties of the routes *)

Section RouteProperties.

Variable pow : spec_float -> spec_float -> spec_float.
Variable ObjectId : string -> option N.
Variable isoformat : Z -> string.
Variable clock : nat -> Z.

Lemma check_db_ok (w : World) (s : Store) :
  db w = Some s -> check_db w = (Return tt, w).
Proof. intros H. unfold check_db. rewrite H. reflexivity. Qed.

Lemma lookup_hunter_found (user_id : string) (w : World) (s : Store)
    (oid : N) (h : Hunter.t) :
  db w = Some s -> ObjectId user_id = Some oid ->
  coll_hunter s !! oid = Some h ->
  lookup_hunter ObjectId user_id w = (Return (oid, h), w).
Proof.
  intros Hdb Hoid Hh.
  unfold lookup_hunter, try_except, hunter_find_one, bind, get_db, ret.
  rewrite Hdb, Hoid, Hh. reflexivity.
Qed.

Lemma lookup_hunter_invalid (user_id : string) (w : World) (s : Store) :
  db w = Some s -> ObjectId user_id = None ->
  lookup_hunter ObjectId user_id w
  = (Raise (HTTPException 400 "Invalid user id"), w).
Proof.
  intros Hdb Hoid.
  unfold lookup_hunter, try_except, hunter_find_one, bind, get_db, raise.
  rewrite Hdb, Hoid. reflexivity.
Qed.

Lemma lookup_hunter_missing (user_id : string) (w : World) (s : Store) (oid : N) :
  db w = Some s -> ObjectId user_id = Some oid ->
  coll_hunter s !! oid = None ->
  lookup_hunter ObjectId user_id w
  = (Raise (HTTPException 404 "Hunter not found"), w).
Proof.
  intros Hdb Hoid Hh.
  unfold lookup_hunter, try_except, hunter_find_one, bind, get_db, ret, raise.
  rewrite Hdb, Hoid, Hh. reflexivity.
Qed.

(** C6. The daily check-in is a no-op within a calendar day (UTC): for
    every hunter whose last_checkin date equals today (the date of the
    clock reading the handler takes), the request returns "Already
    checked in today" with the current streak, level and exp, and leaves
    the store as it was: no hunter field changes and no Checkin record
    is inserted. *)
Theorem checkin_same_day_is_noop
    (user_id : string) (w : World) (s : Store) (oid : N) (h : Hunter.t)
    (last : Z) :
  db w = Some s ->
  ObjectId user_id = Some oid ->
  coll_hunter s !! oid = Some h ->
  Hunter.last_checkin h = Some last ->
  date last = date (clock (ticks w)) ->
  exists r w',
    daily_checkin pow ObjectId isoformat clock user_id w = (Return r, w')
    /\ r = Already_checked_in (Hunter.streak h) (Hunter.level h) (Hunter.exp h)
    /\ checkin_message r = "Already checked in today"
    /\ db w' = Some s.
Proof.
  intros Hdb Hoid Hh Hlast Hdate.
  unfold daily_checkin. unfold bind at 1. rewrite (check_db_ok _ _ Hdb).
  unfold bind at 1. rewrite (lookup_hunter_found _ _ _ _ _ Hdb Hoid Hh).
  unfold bind at 1. unfold today_str, bind, now, ret. cbn.
  rewrite Hlast. cbn. rewrite Hdate, String.eqb_refl.
  eexists _, _. repeat split. exact Hdb.
Qed.

Lemma lookup_hunter_cases (user_id : string) (w : World) (s : Store) :
  db w = Some s ->
  (exists e, lookup_hunter ObjectId user_id w = (Raise e, w))
  \/ (exists oid h, ObjectId user_id = Some oid
                    /\ coll_hunter s !! oid = Some h).
Proof.
  intros Hdb.
  destruct (ObjectId user_id) as [oid |] eqn:Hoid.
  - destruct (coll_hunter s !! oid) as [h |] eqn:Hh.
    + right. eauto.
    + left. eexists. eapply lookup_hunter_missing; eassumption.
  - left. eexists. eapply lookup_hunter_invalid; eassumption.
Qed.

Lemma daily_checkin_same_day
    (user_id : string) (w : World) (s : Store) (oid : N) (h : Hunter.t)
    (last : Z) :
  db w = Some s ->
  ObjectId user_id = Some oid ->
  coll_hunter s !! oid = Some h ->
  Hunter.last_checkin h = Some last ->
  isoformat (date last) = isoformat (date (clock (ticks w))) ->
  daily_checkin pow ObjectId isoformat clock user_id w
  = (Return (Already_checked_in (Hunter.streak h) (Hunter.level h)
                                (Hunter.exp h)),
     mkWorld (db w) (S (ticks w))).
Proof.
  intros Hdb Hoid Hh Hlast Hsame.
  unfold daily_checkin. unfold bind at 1. rewrite (check_db_ok _ _ Hdb).
  unfold bind at 1. rewrite (lookup_hunter_found _ _ _ _ _ Hdb Hoid Hh).
  unfold bind at 1. unfold today_str, bind, now, ret. cbn.
  rewrite Hlast. cbn. rewrite Hsame, String.eqb_refl. reflexivity.
Qed.

(** The check-in of a hunter not yet checked in today; [k] is 1 when the
    clock is read for the streak, 0 when there was no check-in before. *)
Lemma daily_checkin_found
    (user_id : string) (w : World) (s : Store) (oid : N) (h : Hunter.t) :
  db w = Some s ->
  ObjectId user_id = Some oid ->
  coll_hunter s !! oid = Some h ->
  (forall last, Hunter.last_checkin h = Some last ->
     isoformat (date last) <> isoformat (date (clock (ticks w)))) ->
  let today := isoformat (date (clock (ticks w))) in
  let k := match Hunter.last_checkin h with Some _ => 1%nat | None => O end in
  let new_streak :=
    match Hunter.last_checkin h with
    | Some last =>
        if date (clock (S (ticks w))) - date last =? 1
        then Hunter.streak h + 1 else 1
    | None => 1
    end in
  let exp_gain := checkin_exp_gain new_streak in
  let n := (k + S (ticks w))%nat in
  daily_checkin pow ObjectId isoformat clock user_id w
  = match daily_checkin_loop pow (loop_fuel (Hunter.exp h + exp_gain))
                             (Hunter.exp h + exp_gain) (Hunter.level h) false with
    | Return (new_exp, level, leveled_up) =>
        (Return (Checkin_complete exp_gain new_streak level new_exp leveled_up),
         mkWorld
           (Some (mkStore
              (alter (Hunter.set_checkin new_exp level (clock n) new_streak
                                         (clock (S n)))
                     oid (coll_hunter s))
              (coll_workout s) (coll_quest s)
              (coll_checkin s ++
               [Checkin.mk user_id today new_streak (clock (S (S n)))
                           (clock (S (S (S n))))])%list))
           (S (S (S (S n)))))
    | Raise e => (Raise e, mkWorld (Some s) n)
    | Diverge => (Diverge, mkWorld (Some s) n)
    end.
Proof.
  intros Hdb Hoid Hh Hday today k new_streak exp_gain n.
  unfold daily_checkin. unfold bind at 1. rewrite (check_db_ok _ _ Hdb).
  unfold bind at 1. rewrite (lookup_hunter_found _ _ _ _ _ Hdb Hoid Hh).
  unfold bind at 1. unfold today_str at 1. unfold bind at 1, now at 1.
  cbn [ret]. fold today.
  subst n exp_gain new_streak k.
  destruct (Hunter.last_checkin h) as [last |] eqn:Hlast;
    cbn [fmap option_fmap option_map].
  - destruct (String.eqb_spec (isoformat (date last)) today) as [Heq | _];
      [exfalso; exact (Hday last eq_refl Heq) |].
    unfold bind at 1. unfold bind at 1, now at 1. cbn [ret ticks db].
    unfold bind at 1, lift at 1. rewrite Hdb.
    destruct (daily_checkin_loop _ _ _ _ _) as [[[e' l'] b] | e |];
      [| reflexivity | reflexivity].
    unfold bind, now, hunter_update_one, checkin_insert_one, get_db, put_db, ret.
    reflexivity.
  - unfold bind at 1. cbn [ret].
    unfold bind at 1, lift at 1. rewrite Hdb.
    destruct (daily_checkin_loop _ _ _ _ _) as [[[e' l'] b] | e |];
      [| reflexivity | reflexivity].
    unfold bind, now, hunter_update_one, checkin_insert_one, get_db, put_db, ret.
    reflexivity.
Qed.

(** C7, amended. For every check-in that is not a same-day no-op (the
    hunter is stored with a level >= 1, its last_checkin date, if any, is
    not the date of the handler's first clock reading, and the thresholds
    of the levels in reach are computed), the new streak is
    old_streak + 1 when the day difference between the handler's second
    clock reading and the prior check-in's date is exactly 1, and 1 when
    there is no prior check-in or that difference exceeds 1; this new
    streak is written to the hunter and recorded as streak_after in the
    Checkin record, which is dated by the first reading. *)
Theorem checkin_streak_rule
    (user_id : string) (w : World) (s : Store) (oid : N) (h : Hunter.t) :
  db w = Some s ->
  ObjectId user_id = Some oid ->
  coll_hunter s !! oid = Some h ->
  1 <= Hunter.level h ->
  (forall last, Hunter.last_checkin h = Some last ->
     isoformat (date last) <> isoformat (date (clock (ticks w)))) ->
  thresholds_return pow (Hunter.level h)
    (Hunter.level h + Z.max (Hunter.exp h) 0 + 30) ->
  exists exp_gain new_streak level exp leveled_up w' s' h' c,
    daily_checkin pow ObjectId isoformat clock user_id w
    = (Return (Checkin_complete exp_gain new_streak level exp leveled_up), w')
    /\ (Hunter.last_checkin h = None -> new_streak = 1)
    /\ (forall last, Hunter.last_checkin h = Some last ->
          date (clock (S (ticks w))) - date last = 1 ->
          new_streak = Hunter.streak h + 1)
    /\ (forall last, Hunter.last_checkin h = Some last ->
          date (clock (S (ticks w))) - date last > 1 ->
          new_streak = 1)
    /\ db w' = Some s'
    /\ coll_hunter s' !! oid = Some h'
    /\ Hunter.streak h' = new_streak
    /\ coll_checkin s' = (coll_checkin s ++ [c])%list
    /\ Checkin.user_id c = user_id
    /\ Checkin.date c = isoformat (date (clock (ticks w)))
    /\ Checkin.streak_after c = new_streak.
Proof.
  intros Hdb Hoid Hh Hlevel Hday Hthr.
  rewrite (daily_checkin_found user_id w s oid h Hdb Hoid Hh Hday).
  set (new_streak := match Hunter.last_checkin h with
                     | Some last =>
                         if date (clock (S (ticks w))) - date last =? 1
                         then Hunter.streak h + 1 else 1
                     | None => 1
                     end).
  destruct (daily_checkin_loop_run pow
              (loop_fuel (Hunter.exp h + checkin_exp_gain new_streak))
              (Hunter.exp h + checkin_exp_gain new_streak) (Hunter.level h))
    as (e' & l' & b & req & Hrun & _);
    [apply (thresholds_return_narrow pow _ _ _ _ Hthr);
       unfold checkin_exp_gain; lia
    | lia |].
  rewrite Hrun.
  eexists _, new_streak, l', e', b, _, _, _, _.
  split; [reflexivity |].
  split; [intros Hnone; subst new_streak; rewrite Hnone; reflexivity |].
  split. { intros last Hlast Hd. subst new_streak. rewrite Hlast, Hd. reflexivity. }
  split. { intros last Hlast Hd. subst new_streak. rewrite Hlast.
           destruct (Z.eqb_spec (date (clock (S (ticks w))) - date last) 1);
             [lia | reflexivity]. }
  split; [reflexivity |].
  split; [cbn; rewrite lookup_alter_eq, Hh; reflexivity |].
  repeat split.
Qed.

Lemma date_or_today_db (payload : CompleteQuestRequest.t) (w w1 : World)
    (o : outcome string) :
  date_or_today isoformat clock payload w = (o, w1) -> db w1 = db w.
Proof.
  unfold date_or_today, today_str, bind, now, ret.
  destruct (CompleteQuestRequest.date payload) as [d |];
    [destruct (String.eqb d "") |]; intros [= <- <-]; reflexivity.
Qed.

(** The road to the "already completed" exit of [complete_quest]. *)
Lemma complete_quest_already_done
    (payload : CompleteQuestRequest.t) (w w1 : World) (s : Store)
    (today : string) (qid : nat) (q : Quest.t) :
  db w = Some s ->
  date_or_today isoformat clock payload w = (Return today, w1) ->
  find_one (Quest.matches (CompleteQuestRequest.user_id payload) today)
           (coll_quest s) = Some (qid, q) ->
  Quest.completed q = true ->
  complete_quest pow ObjectId isoformat clock payload w
  = (Return (Quest_already_completed (Quest.exp_reward q)), w1)
  /\ db w1 = Some s.
Proof.
  intros Hdb Hday Hfind Hdone.
  assert (Hdb1 : db w1 = Some s) by (rewrite (date_or_today_db _ _ _ _ Hday); exact Hdb).
  split; [| exact Hdb1].
  unfold complete_quest. unfold bind at 1. rewrite (check_db_ok _ _ Hdb).
  unfold bind at 1. rewrite Hday.
  unfold bind at 1, quest_find_one, bind, get_db, ret. rewrite Hdb1, Hfind, Hdone.
  reflexivity.
Qed.

(** C4. Quest completion is idempotent under sequential calls: when the
    quest found for the request's (user_id, date) is already marked
    completed, the request returns "Quest already completed" with the
    stored exp_reward as its reward and leaves the store as it was, so
    the hunter's level and exp get no second award and the quest
    document does not change. *)
Theorem complete_quest_is_idempotent
    (payload : CompleteQuestRequest.t) (w w1 : World) (s : Store)
    (today : string) (qid : nat) (q : Quest.t) :
  db w = Some s ->
  date_or_today isoformat clock payload w = (Return today, w1) ->
  find_one (Quest.matches (CompleteQuestRequest.user_id payload) today)
           (coll_quest s) = Some (qid, q) ->
  Quest.completed q = true ->
  exists r w',
    complete_quest pow ObjectId isoformat clock payload w = (Return r, w')
    /\ r = Quest_already_completed (Quest.exp_reward q)
    /\ complete_message r = "Quest already completed"
    /\ db w' = Some s.
Proof.
  intros Hdb Hday Hfind Hdone.
  destruct (complete_quest_already_done payload w w1 s today qid q
              Hdb Hday Hfind Hdone) as [Hrun Hdb1].
  exists (Quest_already_completed (Quest.exp_reward q)), w1.
  repeat split; assumption.
Qed.

(** The store once [complete_quest] has marked quest [qid] completed, at
    clock reading [n]. *)
Lemma complete_quest_lookup_fails
    (payload : CompleteQuestRequest.t) (w w1 : World) (s : Store)
    (today : string) (qid : nat) (q : Quest.t) (e : exn) :
  db w = Some s ->
  date_or_today isoformat clock payload w = (Return today, w1) ->
  find_one (Quest.matches (CompleteQuestRequest.user_id payload) today)
           (coll_quest s) = Some (qid, q) ->
  Quest.completed q = false ->
  let w' :=
    mkWorld (Some (mkStore (coll_hunter s) (coll_workout s)
                     (alter (Quest.set_completed (clock (ticks w1))) qid
                            (coll_quest s))
                     (coll_checkin s)))
            (S (ticks w1)) in
  lookup_hunter ObjectId (CompleteQuestRequest.user_id payload) w' = (Raise e, w') ->
  complete_quest pow ObjectId isoformat clock payload w = (Raise e, w').
Proof.
  intros Hdb Hday Hfind Hopen w' Hlookup.
  assert (Hdb1 : db w1 = Some s)
    by (rewrite (date_or_today_db _ _ _ _ Hday); exact Hdb).
  unfold complete_quest. unfold bind at 1. rewrite (check_db_ok _ _ Hdb).
  unfold bind at 1. rewrite Hday.
  unfold bind at 1, quest_find_one, bind at 1, get_db, ret.
  rewrite Hdb1, Hfind, Hopen.
  unfold bind at 1, now. unfold bind at 1, quest_update_one, bind at 1, get_db, put_db.
  cbn [db ticks]. rewrite Hdb1. cbn [db ticks].
  unfold bind at 1. fold w'. rewrite Hlookup. reflexivity.
Qed.

Lemma date_or_today_returns (payload : CompleteQuestRequest.t) (w : World) :
  exists today w1,
    date_or_today isoformat clock payload w = (Return today, w1).
Proof.
  unfold date_or_today, today_str, bind, now, ret.
  destruct (CompleteQuestRequest.date payload) as [d |];
    [destruct (String.eqb d "") |]; eexists _, _; reflexivity.
Qed.

(** [complete_quest] past the quest write. *)
Lemma complete_quest_found
    (payload : CompleteQuestRequest.t) (w w1 : World) (s : Store)
    (today : string) (qid : nat) (q : Quest.t) (oid : N) (h : Hunter.t) :
  db w = Some s ->
  date_or_today isoformat clock payload w = (Return today, w1) ->
  find_one (Quest.matches (CompleteQuestRequest.user_id payload) today)
           (coll_quest s) = Some (qid, q) ->
  Quest.completed q = false ->
  ObjectId (CompleteQuestRequest.user_id payload) = Some oid ->
  coll_hunter s !! oid = Some h ->
  let quests :=
    alter (Quest.set_completed (clock (ticks w1))) qid (coll_quest s) in
  complete_quest pow ObjectId isoformat clock payload w
  = match complete_quest_loop pow
            (loop_fuel (Hunter.exp h + Quest.exp_reward q))
            (Hunter.exp h + Quest.exp_reward q) (Hunter.level h) false with
    | Return (new_exp, level, leveled_up) =>
        (Return (Quest_completed (Quest.exp_reward q) level new_exp leveled_up),
         mkWorld
           (Some (mkStore
              (alter (Hunter.set_progress new_exp level (clock (S (ticks w1))))
                     oid (coll_hunter s))
              (coll_workout s) quests (coll_checkin s)))
           (S (S (ticks w1))))
    | Raise e =>
        (Raise e,
         mkWorld (Some (mkStore (coll_hunter s) (coll_workout s) quests
                                (coll_checkin s)))
                 (S (ticks w1)))
    | Diverge =>
        (Diverge,
         mkWorld (Some (mkStore (coll_hunter s) (coll_workout s) quests
                                (coll_checkin s)))
                 (S (ticks w1)))
    end.
Proof.
  intros Hdb Hday Hfind Hopen Hoid Hh quests.
  assert (Hdb1 : db w1 = Some s)
    by (rewrite (date_or_today_db _ _ _ _ Hday); exact Hdb).
  unfold complete_quest. unfold bind at 1. rewrite (check_db_ok _ _ Hdb).
  unfold bind at 1. rewrite Hday.
  unfold bind at 1, quest_find_one, bind at 1, get_db, ret.
  rewrite Hdb1, Hfind, Hopen.
  unfold bind at 1, now. unfold bind at 1, quest_update_one, bind at 1, get_db, put_db.
  cbn [db ticks]. rewrite Hdb1. cbn [db ticks].
  unfold bind at 1. fold quests.
  rewrite (lookup_hunter_found _ (mkWorld _ _) (mkStore _ _ _ _) oid h
             eq_refl Hoid Hh).
  unfold bind at 1, lift at 1.
  destruct (complete_quest_loop _ _ _ _ _) as [[[e' l'] b] | e |];
    [| reflexivity | reflexivity].
  unfold bind, hunter_update_one, get_db, put_db, ret. reflexivity.
Qed.

Lemma complete_quest_no_quest
    (payload : CompleteQuestRequest.t) (w w1 : World) (s : Store) (today : string) :
  db w = Some s ->
  date_or_today isoformat clock payload w = (Return today, w1) ->
  find_one (Quest.matches (CompleteQuestRequest.user_id payload) today)
           (coll_quest s) = None ->
  complete_quest pow ObjectId isoformat clock payload w
  = (Raise (HTTPException 404 "Quest not found for today"), w1).
Proof.
  intros Hdb Hday Hfind.
  assert (Hdb1 : db w1 = Some s)
    by (rewrite (date_or_today_db _ _ _ _ Hday); exact Hdb).
  unfold complete_quest. unfold bind at 1. rewrite (check_db_ok _ _ Hdb).
  unfold bind at 1. rewrite Hday.
  unfold quest_find_one, bind, get_db, ret, raise. rewrite Hdb1, Hfind.
  reflexivity.
Qed.

(** C5. In quest completion the quest is set to completed=true before the
    hunter is looked up: when the quest of the request exists with
    completed=false but the user_id is no ObjectId, or no hunter has that
    id, the handler raises its 400 or 404 after the quest write; the
    quest is left completed, no hunter is touched, and a retry for the
    same user_id and date takes the "already completed" exit, again
    without any award. *)
Theorem complete_quest_marks_quest_before_hunter_lookup
    (payload : CompleteQuestRequest.t) (w w1 : World) (s : Store)
    (today : string) (qid : nat) (q : Quest.t) :
  db w = Some s ->
  date_or_today isoformat clock payload w = (Return today, w1) ->
  find_one (Quest.matches (CompleteQuestRequest.user_id payload) today)
           (coll_quest s) = Some (qid, q) ->
  Quest.completed q = false ->
  (ObjectId (CompleteQuestRequest.user_id payload) = None
   \/ exists oid, ObjectId (CompleteQuestRequest.user_id payload) = Some oid
                  /\ coll_hunter s !! oid = None) ->
  exists status detail w' s' q',
    complete_quest pow ObjectId isoformat clock payload w
    = (Raise (HTTPException status detail), w')
    /\ (status, detail)
       = match ObjectId (CompleteQuestRequest.user_id payload) with
         | None => (400, "Invalid user id")
         | Some _ => (404, "Hunter not found")
         end
    /\ db w' = Some s'
    /\ coll_hunter s' = coll_hunter s
    /\ coll_quest s' !! qid = Some q'
    /\ Quest.completed q' = true
    /\ Quest.exp_reward q' = Quest.exp_reward q
    /\ (forall payload' w1',
          CompleteQuestRequest.user_id payload'
          = CompleteQuestRequest.user_id payload ->
          date_or_today isoformat clock payload' w' = (Return today, w1') ->
          exists w'',
            complete_quest pow ObjectId isoformat clock payload' w'
            = (Return (Quest_already_completed (Quest.exp_reward q)), w'')
            /\ db w'' = Some s').
Proof.
  intros Hdb Hday Hfind Hopen Hnohunter.
  set (t_q := clock (ticks w1)).
  set (s' := mkStore (coll_hunter s) (coll_workout s)
               (alter (Quest.set_completed t_q) qid (coll_quest s))
               (coll_checkin s)).
  set (w' := mkWorld (Some s') (S (ticks w1))).
  assert (Hfind' :
    find_one (Quest.matches (CompleteQuestRequest.user_id payload) today)
             (coll_quest s') = Some (qid, Quest.set_completed t_q q)).
  { apply find_one_alter; [exact Hfind |].
    rewrite matches_set_completed.
    apply (find_one_Some _ _ _ _ Hfind). }
  assert (Hretry : forall payload' w1',
    CompleteQuestRequest.user_id payload' = CompleteQuestRequest.user_id payload ->
    date_or_today isoformat clock payload' w' = (Return today, w1') ->
    exists w'',
      complete_quest pow ObjectId isoformat clock payload' w'
      = (Return (Quest_already_completed (Quest.exp_reward q)), w'')
      /\ db w'' = Some s').
  { intros payload' w1' Hu Hday'. exists w1'.
    apply (complete_quest_already_done payload' w' w1' s' today qid
             (Quest.set_completed t_q q)); [reflexivity | exact Hday' | | reflexivity].
    rewrite Hu. exact Hfind'. }
  destruct Hnohunter as [Hbad | (oid & Hoid & Hnone)].
  - exists 400, "Invalid user id", w', s', (Quest.set_completed t_q q).
    rewrite Hbad.
    split.
    { apply (complete_quest_lookup_fails payload w w1 s today qid q _
               Hdb Hday Hfind Hopen).
      apply (lookup_hunter_invalid _ w' s'); [reflexivity | exact Hbad]. }
    repeat split; try exact Hretry.
    apply (find_one_Some _ _ _ _ Hfind').
  - exists 404, "Hunter not found", w', s', (Quest.set_completed t_q q).
    rewrite Hoid.
    split.
    { apply (complete_quest_lookup_fails payload w w1 s today qid q _
               Hdb Hday Hfind Hopen).
      apply (lookup_hunter_missing _ w' s' oid);
        [reflexivity | exact Hoid | exact Hnone]. }
    repeat split; try exact Hretry.
    apply (find_one_Some _ _ _ _ Hfind').
Qed.

(** *** Logging a workout *)

Lemma log_workout_no_gain (payload : LogWorkoutRequest.t) (w : World)
    (s : Store) (e : exn) :
  db w = Some s ->
  workout_exp_gain (LogWorkoutRequest.minutes payload)
                   (LogWorkoutRequest.difficulty payload) = Raise e ->
  log_workout pow ObjectId clock payload w = (Raise e, w).
Proof.
  intros Hdb Hgain. unfold log_workout.
  unfold bind at 1. rewrite (check_db_ok _ _ Hdb).
  unfold bind at 1, lift at 1. rewrite Hgain. reflexivity.
Qed.

Lemma log_workout_no_hunter (payload : LogWorkoutRequest.t) (w : World)
    (s : Store) (exp_gain : Z) (e : exn) :
  db w = Some s ->
  workout_exp_gain (LogWorkoutRequest.minutes payload)
                   (LogWorkoutRequest.difficulty payload) = Return exp_gain ->
  lookup_hunter ObjectId (LogWorkoutRequest.user_id payload) w = (Raise e, w) ->
  log_workout pow ObjectId clock payload w = (Raise e, w).
Proof.
  intros Hdb Hgain Hlookup. unfold log_workout.
  unfold bind at 1. rewrite (check_db_ok _ _ Hdb).
  unfold bind at 1, lift at 1. rewrite Hgain.
  unfold bind at 1. rewrite Hlookup. reflexivity.
Qed.

(** What [log_workout] does for a hunter it finds, once the EXP is
    computed. *)
Lemma log_workout_found
    (payload : LogWorkoutRequest.t) (w : World) (s : Store) (oid : N)
    (h : Hunter.t) (exp_gain : Z) :
  db w = Some s ->
  workout_exp_gain (LogWorkoutRequest.minutes payload)
                   (LogWorkoutRequest.difficulty payload) = Return exp_gain ->
  ObjectId (LogWorkoutRequest.user_id payload) = Some oid ->
  coll_hunter s !! oid = Some h ->
  log_workout pow ObjectId clock payload w
  = match log_workout_loop pow (loop_fuel (Hunter.exp h + exp_gain))
                           (Hunter.exp h + exp_gain) (Hunter.level h) false with
    | Return (new_exp, level, leveled_up) =>
        (Return (Workout_logged exp_gain level new_exp leveled_up),
         mkWorld
           (Some (mkStore
              (alter (Hunter.set_progress new_exp level (clock (ticks w)))
                     oid (coll_hunter s))
              (coll_workout s ++
               [Workout.mk (LogWorkoutRequest.user_id payload)
                           (LogWorkoutRequest.workout_type payload)
                           (LogWorkoutRequest.minutes payload)
                           (LogWorkoutRequest.difficulty payload)
                           exp_gain (clock (S (ticks w)))
                           (clock (S (S (ticks w))))])%list
              (coll_quest s) (coll_checkin s)))
           (S (S (S (ticks w)))))
    | Raise e => (Raise e, w)
    | Diverge => (Diverge, w)
    end.
Proof.
  intros Hdb Hgain Hoid Hh.
  unfold log_workout. unfold bind at 1. rewrite (check_db_ok _ _ Hdb).
  unfold bind at 1, lift at 1. rewrite Hgain.
  unfold bind at 1. rewrite (lookup_hunter_found _ _ _ _ _ Hdb Hoid Hh).
  unfold bind at 1, lift at 1.
  destruct (log_workout_loop pow (loop_fuel (Hunter.exp h + exp_gain))
              (Hunter.exp h + exp_gain) (Hunter.level h) false)
    as [[[e' l'] b] | e |]; [| reflexivity | reflexivity].
  unfold bind, now, hunter_update_one, workout_insert_one, get_db, put_db, ret.
  cbn. rewrite Hdb. reflexivity.
Qed.

(** *** The other routes *)

Lemma create_hunter_run (payload : CreateHunterRequest.t) (w : World) (s : Store) :
  db w = Some s ->
  let hunter :=
    Hunter.mk (CreateHunterRequest.name payload)
              (CreateHunterRequest.title payload) 1 0 0 None
              (clock (ticks w)) (clock (S (ticks w))) in
  create_hunter clock payload w
  = (Return (hunter, fresh (dom (coll_hunter s))),
     mkWorld
       (Some (mkStore (<[fresh (dom (coll_hunter s)) := hunter]> (coll_hunter s))
                      (coll_workout s) (coll_quest s) (coll_checkin s)))
       (S (S (ticks w)))).
Proof.
  destruct w as [d t]. cbn. intros ->. reflexivity.
Qed.

(** [get_daily_quests] for a hunter it finds. *)
Lemma get_daily_quests_found
    (r : nat) (user_id : string) (w : World) (s : Store) (oid : N)
    (h : Hunter.t) :
  db w = Some s ->
  ObjectId user_id = Some oid ->
  coll_hunter s !! oid = Some h ->
  let today := isoformat (date (clock (ticks w))) in
  get_daily_quests ObjectId isoformat clock r user_id w
  = match find_one (Quest.matches user_id today) (coll_quest s) with
    | Some q => (Return q, mkWorld (Some s) (S (ticks w)))
    | None =>
        let quest :=
          Quest.mk user_id today (fst (nth (r mod 4) base ("", 0)))
            "Complete the task to earn EXP and keep your streak."
            (snd (nth (r mod 4) base ("", 0))) false
            (clock (S (ticks w))) (clock (S (S (ticks w)))) in
        (Return (length (coll_quest s), quest),
         mkWorld (Some (mkStore (coll_hunter s) (coll_workout s)
                                (coll_quest s ++ [quest])%list (coll_checkin s)))
                 (S (S (S (ticks w)))))
    end.
Proof.
  intros Hdb Hoid Hh today.
  unfold get_daily_quests. unfold bind at 1. rewrite (check_db_ok _ _ Hdb).
  unfold bind at 1. rewrite (lookup_hunter_found _ _ _ _ _ Hdb Hoid Hh).
  destruct (nth (r mod 4)%nat base ("", 0)) as [title reward].
  unfold today_str, quest_find_one, quest_insert_one, bind, now, get_db, put_db, ret.
  cbn [db ticks fst snd]. rewrite Hdb. fold today.
  destruct (find_one (Quest.matches user_id today) (coll_quest s))
    as [[qid q] |]; reflexivity.
Qed.

(** A failed hunter lookup ends the handler at once. *)
Lemma daily_checkin_no_hunter (user_id : string) (w : World) (s : Store) (e : exn) :
  db w = Some s ->
  lookup_hunter ObjectId user_id w = (Raise e, w) ->
  daily_checkin pow ObjectId isoformat clock user_id w = (Raise e, w).
Proof.
  intros Hdb Hlookup. unfold daily_checkin.
  unfold bind at 1. rewrite (check_db_ok _ _ Hdb).
  unfold bind at 1. rewrite Hlookup. reflexivity.
Qed.

Lemma get_daily_quests_no_hunter (r : nat) (user_id : string) (w : World)
    (s : Store) (e : exn) :
  db w = Some s ->
  lookup_hunter ObjectId user_id w = (Raise e, w) ->
  get_daily_quests ObjectId isoformat clock r user_id w = (Raise e, w).
Proof.
  intros Hdb Hlookup. unfold get_daily_quests.
  unfold bind at 1. rewrite (check_db_ok _ _ Hdb).
  unfold bind at 1. rewrite Hlookup. reflexivity.
Qed.

Lemma base_entry (r : nat) : In (nth (r mod 4) base ("", 0)) base.
Proof.
  apply nth_In. change (length base) with 4%nat.
  apply Nat.mod_upper_bound. discriminate.
Qed.

(** *** Every handler ends *)

Lemma ends_now : ends (now clock).
Proof. intros w. discriminate. Qed.

Lemma ends_today_str : ends (today_str isoformat clock).
Proof. unfold today_str. apply ends_bind; [apply ends_now | auto with ends]. Qed.

Lemma ends_lookup_hunter (user_id : string) : ends (lookup_hunter ObjectId user_id).
Proof.
  unfold lookup_hunter, hunter_find_one.
  repeat ends_step.
Qed.

#[local] Hint Resolve ends_now ends_today_str ends_lookup_hunter : ends.

Lemma ends_create_hunter (payload : CreateHunterRequest.t) :
  ends (create_hunter clock payload).
Proof. unfold create_hunter, hunter_insert_one. repeat ends_step. Qed.

Lemma ends_daily_checkin (user_id : string) :
  pow_at_least_one pow ->
  ends (daily_checkin pow ObjectId isoformat clock user_id).
Proof.
  intros Hpow.
  unfold daily_checkin, hunter_update_one, checkin_insert_one.
  repeat ends_step; apply daily_checkin_loop_ends; (exact Hpow || lia).
Qed.

Lemma ends_log_workout (payload : LogWorkoutRequest.t) :
  pow_at_least_one pow ->
  ends (log_workout pow ObjectId clock payload).
Proof.
  intros Hpow.
  unfold log_workout, hunter_update_one, workout_insert_one.
  repeat ends_step.
  - apply workout_exp_gain_ends.
  - rewrite log_workout_loop_eq. apply daily_checkin_loop_ends; (exact Hpow || lia).
Qed.

Lemma ends_get_daily_quests (r : nat) (user_id : string) :
  ends (get_daily_quests ObjectId isoformat clock r user_id).
Proof.
  unfold get_daily_quests, quest_find_one, quest_insert_one.
  repeat ends_step.
Qed.

Lemma ends_complete_quest (payload : CompleteQuestRequest.t) :
  pow_at_least_one pow ->
  ends (complete_quest pow ObjectId isoformat clock payload).
Proof.
  intros Hpow.
  unfold complete_quest, date_or_today, quest_find_one, quest_update_one,
    hunter_update_one.
  repeat ends_step.
  rewrite complete_quest_loop_eq. apply daily_checkin_loop_ends; (exact Hpow || lia).
Qed.

(** Every request, on every store, has one of the effects of [effect]. *)
Lemma serve_effect (req : request) (w : World) (s : Store) :
  db w = Some s ->
  exists s', db (serve pow ObjectId isoformat clock req w) = Some s'
             /\ effect pow req s s'.
Proof.
  intros Hdb.
  assert (Hnone : forall w', db w' = Some s ->
            exists s', db w' = Some s' /\ effect pow req s s')
    by (intros w' Hw'; exists s; split; [exact Hw' | constructor]).
  destruct req as [payload | user_id | payload | r user_id | payload];
    cbn [serve].
  - rewrite (create_hunter_run payload w s Hdb). cbn [snd db].
    eexists. split; [reflexivity | constructor].
  - destruct (lookup_hunter_cases user_id w s Hdb)
      as [[e Hfail] | (oid & h & Hoid & Hh)].
    { rewrite (daily_checkin_no_hunter user_id w s e Hdb Hfail). auto. }
    destruct (Hunter.last_checkin h) as [last |] eqn:Hlast.
    + destruct (String.eqb_spec (isoformat (date last))
                  (isoformat (date (clock (ticks w))))) as [Hsame | Hdiff].
      { rewrite (daily_checkin_same_day user_id w s oid h last
                   Hdb Hoid Hh Hlast Hsame).
        apply Hnone. cbn. exact Hdb. }
      rewrite (daily_checkin_found user_id w s oid h Hdb Hoid Hh);
        [| intros last0; rewrite Hlast; intros [= <-]; exact Hdiff].
      rewrite Hlast.
      destruct (daily_checkin_loop _ _ _ _ _) as [[[e' l'] b] | e |] eqn:Hloop;
        [| apply Hnone; reflexivity | apply Hnone; reflexivity].
      cbn [snd db]. eexists. split; [reflexivity |].
      eapply (effect_checkin pow user_id s oid h); [exact Hh | | exact Hloop].
      destruct (date (clock (S (ticks w))) - date last =? 1); auto.
    + rewrite (daily_checkin_found user_id w s oid h Hdb Hoid Hh);
        [| intros last0; rewrite Hlast; discriminate].
      rewrite Hlast.
      destruct (daily_checkin_loop _ _ _ _ _) as [[[e' l'] b] | e |] eqn:Hloop;
        [| apply Hnone; reflexivity | apply Hnone; reflexivity].
      cbn [snd db]. eexists. split; [reflexivity |].
      eapply (effect_checkin pow user_id s oid h); [exact Hh | auto | exact Hloop].
  - destruct (workout_exp_gain (LogWorkoutRequest.minutes payload)
                (LogWorkoutRequest.difficulty payload)) as [g | e |] eqn:Hgain.
    2: { rewrite (log_workout_no_gain payload w s e Hdb Hgain). auto. }
    2: { exfalso. exact (workout_exp_gain_ends _ _ Hgain). }
    destruct (lookup_hunter_cases (LogWorkoutRequest.user_id payload) w s Hdb)
      as [[e Hfail] | (oid & h & Hoid & Hh)].
    { rewrite (log_workout_no_hunter payload w s g e Hdb Hgain Hfail). auto. }
    rewrite (log_workout_found payload w s oid h g Hdb Hgain Hoid Hh).
    destruct (log_workout_loop _ _ _ _ _) as [[[e' l'] b] | e |] eqn:Hloop;
      [| apply Hnone; exact Hdb | apply Hnone; exact Hdb].
    cbn [snd db]. eexists. split; [reflexivity |].
    eapply (effect_workout pow payload s oid h g); [exact Hgain | exact Hh | exact Hloop].
  - destruct (lookup_hunter_cases user_id w s Hdb)
      as [[e Hfail] | (oid & h & Hoid & Hh)].
    { rewrite (get_daily_quests_no_hunter r user_id w s e Hdb Hfail). auto. }
    rewrite (get_daily_quests_found r user_id w s oid h Hdb Hoid Hh).
    destruct (find_one _ _) as [[qid q] |] eqn:Hfind;
      [apply Hnone; reflexivity |].
    cbn [snd db]. eexists. split; [reflexivity |].
    apply effect_quest_new; [exact Hfind |].
    pose proof (base_entry r) as Hin.
    destruct (nth (r mod 4)%nat base ("", 0)) as [title reward]. exact Hin.
  - destruct (date_or_today_returns payload w)
      as (today & w1 & Hday).
    assert (Hdb1 : db w1 = Some s)
      by (rewrite (date_or_today_db _ _ _ _ Hday); exact Hdb).
    destruct (find_one (Quest.matches (CompleteQuestRequest.user_id payload) today)
                (coll_quest s)) as [[qid q] |] eqn:Hfind.
    2: { rewrite (complete_quest_no_quest payload w w1 s today Hdb Hday Hfind).
         auto. }
    destruct (Quest.completed q) eqn:Hdone.
    { destruct (complete_quest_already_done payload w w1 s today qid q
                  Hdb Hday Hfind Hdone) as [Hrun _].
      rewrite Hrun. auto. }
    assert (Hq : coll_quest s !! qid = Some q)
      by apply (find_one_Some _ _ _ _ Hfind).
    set (w' := mkWorld
                 (Some (mkStore (coll_hunter s) (coll_workout s)
                          (alter (Quest.set_completed (clock (ticks w1))) qid
                                 (coll_quest s))
                          (coll_checkin s)))
                 (S (ticks w1))).
    destruct (lookup_hunter_cases (CompleteQuestRequest.user_id payload) w' _ eq_refl)
      as [[e Hfail] | (oid & h & Hoid & Hh)].
    { rewrite (complete_quest_lookup_fails payload w w1 s today qid q e
                 Hdb Hday Hfind Hdone Hfail).
      cbn [snd db]. eexists. split; [reflexivity |].
      apply (effect_quest_marked pow payload s qid q); assumption. }
    cbn [coll_hunter] in Hh.
    rewrite (complete_quest_found payload w w1 s today qid q oid h
               Hdb Hday Hfind Hdone Hoid Hh).
    destruct (complete_quest_loop _ _ _ _ _) as [[[e' l'] b] | e |] eqn:Hloop.
    + cbn [snd db]. eexists. split; [reflexivity |].
      eapply (effect_quest_awarded pow payload s qid q oid h); eassumption.
    + cbn [snd db]. eexists. split; [reflexivity |].
      apply (effect_quest_marked pow payload s qid q); assumption.
    + cbn [snd db]. eexists. split; [reflexivity |].
      apply (effect_quest_marked pow payload s qid q); assumption.
Qed.

End RouteProperties.

(** ** What the store transitions keep *)

Section Transitions.

Variable pow : spec_float -> spec_float -> spec_float.

(** What a loop of a handler returned, whichever copy it is. *)
Lemma loop_result (loop : nat -> Z -> Z -> bool -> outcome (Z * Z * bool))
    (fuel : nat) (new_exp level : Z) (leveled_up : bool) (e' l' : Z) (b' : bool) :
  In loop [daily_checkin_loop pow; log_workout_loop pow; complete_quest_loop pow] ->
  loop fuel new_exp level leveled_up = Return (e', l', b') ->
  level <= l'
  /\ (exists req, next_level_exp pow l' = Return req /\ e' < req)
  /\ (0 <= new_exp -> 0 <= e').
Proof.
  intros Hloop. rewrite (level_up_copies pow loop Hloop). intros Hrun.
  destruct (daily_checkin_loop_sound pow _ _ _ _ _ _ _ Hrun)
    as (Hle & Hreq & _ & _ & _ & Hnn).
  auto.
Qed.

Lemma loop_level_le (loop : nat -> Z -> Z -> bool -> outcome (Z * Z * bool))
    (fuel : nat) (new_exp level : Z) (leveled_up : bool) (e' l' : Z) (b' : bool) :
  In loop [daily_checkin_loop pow; log_workout_loop pow; complete_quest_loop pow] ->
  loop fuel new_exp level leveled_up = Return (e', l', b') -> level <= l'.
Proof. intros Hloop Hrun. apply (loop_result loop _ _ _ _ _ _ _ Hloop Hrun). Qed.

Lemma hunter_kept_refl (h : Hunter.t) : hunter_kept h h.
Proof. unfold hunter_kept. repeat split; lia. Qed.

Lemma hunter_kept_trans (h1 h2 h3 : Hunter.t) :
  hunter_kept h1 h2 -> hunter_kept h2 h3 -> hunter_kept h1 h3.
Proof.
  unfold hunter_kept. intros (Hn & Ht & Hc & Hl) (Hn' & Ht' & Hc' & Hl').
  repeat split; try congruence. lia.
Qed.

Lemma fresh_hunter_id (m : gmap N Hunter.t) : m !! fresh (dom m) = None.
Proof. apply not_elem_of_dom, is_fresh. Qed.

(** An update of one hunter that keeps what [hunter_kept] lists. *)
Lemma alter_hunter_kept (m : gmap N Hunter.t) (f : Hunter.t -> Hunter.t)
    (oid0 oid : N) (h0 h : Hunter.t) :
  m !! oid0 = Some h0 -> hunter_kept h0 (f h0) ->
  m !! oid = Some h ->
  exists h', alter f oid0 m !! oid = Some h' /\ hunter_kept h h'.
Proof.
  intros Hh0 Hkept Hh.
  destruct (decide (oid0 = oid)) as [<- | Hne].
  - rewrite lookup_alter_eq, Hh0. cbn. exists (f h0).
    rewrite Hh0 in Hh. injection Hh as <-. auto.
  - rewrite lookup_alter_ne by exact Hne. exists h.
    split; [exact Hh | apply hunter_kept_refl].
Qed.

Lemma effect_hunters_kept (req : request) (s s' : Store) :
  effect pow req s s' ->
  forall oid h, coll_hunter s !! oid = Some h ->
  exists h', coll_hunter s' !! oid = Some h' /\ hunter_kept h h'.
Proof.
  intros Heffect oid0 h0 Hh0.
  assert (Hsame : exists h', coll_hunter s !! oid0 = Some h' /\ hunter_kept h0 h')
    by (exists h0; split; [exact Hh0 | apply hunter_kept_refl]).
  destruct Heffect; cbn [coll_hunter]; try exact Hsame.
  - exists h0. split; [| apply hunter_kept_refl].
    rewrite lookup_insert_ne; [exact Hh0 |].
    intros Heq. rewrite <- Heq, fresh_hunter_id in Hh0. discriminate.
  - apply (alter_hunter_kept _ _ oid oid0 h h0); [assumption | | assumption].
    repeat split. cbn.
    eapply (loop_level_le (daily_checkin_loop pow)); [left; reflexivity | eassumption].
  - apply (alter_hunter_kept _ _ oid oid0 h h0); [assumption | | assumption].
    repeat split. cbn.
    eapply (loop_level_le (log_workout_loop pow)); [right; left; reflexivity | eassumption].
  - apply (alter_hunter_kept _ _ oid oid0 h h0); [assumption | | assumption].
    repeat split. cbn.
    eapply (loop_level_le (complete_quest_loop pow));
      [right; right; left; reflexivity | eassumption].
Qed.

Lemma effect_one_hunter (req : request) (s s' : Store) :
  effect pow req s s' ->
  exists oid0, forall oid, oid <> oid0 ->
    coll_hunter s' !! oid = coll_hunter s !! oid.
Proof.
  intros Heffect.
  destruct Heffect; cbn [coll_hunter];
    try (exists 0%N; intros; reflexivity).
  - exists (fresh (dom (coll_hunter s))). intros oid0 Hne.
    apply lookup_insert_ne. congruence.
  - exists oid. intros oid0 Hne. apply lookup_alter_ne. congruence.
  - exists oid. intros oid0 Hne. apply lookup_alter_ne. congruence.
  - exists oid. intros oid0 Hne. apply lookup_alter_ne. congruence.
Qed.

Lemma effect_logs (req : request) (s s' : Store) :
  effect pow req s s' ->
  exists workouts checkins,
    coll_workout s' = (coll_workout s ++ workouts)%list
    /\ coll_checkin s' = (coll_checkin s ++ checkins)%list
    /\ (length workouts + length checkins <= 1)%nat.
Proof.
  intros Heffect.
  destruct Heffect; cbn [coll_workout coll_checkin];
    try (exists [], []; rewrite !app_nil_r; repeat split; cbn; lia).
  - eexists [], [_]. rewrite app_nil_r. repeat split. cbn. lia.
  - eexists [_], []. rewrite app_nil_r. repeat split. cbn. lia.
Qed.

Lemma quest_kept_refl (q : Quest.t) : quest_kept q q.
Proof. unfold quest_kept. repeat split; auto. Qed.

Lemma quest_kept_trans (q1 q2 q3 : Quest.t) :
  quest_kept q1 q2 -> quest_kept q2 q3 -> quest_kept q1 q3.
Proof.
  unfold quest_kept.
  intros (Hu & Hd & Ht & Hr & Hc) (Hu' & Hd' & Ht' & Hr' & Hc').
  repeat split; try congruence. auto.
Qed.

Lemma alter_quest_kept (l : list Quest.t) (t : Z) (qid0 qid : nat) (q : Quest.t) :
  l !! qid = Some q ->
  exists q', alter (Quest.set_completed t) qid0 l !! qid = Some q'
             /\ quest_kept q q'.
Proof.
  intros Hq. destruct (decide (qid0 = qid)) as [<- | Hne].
  - rewrite list_lookup_alter_eq, Hq. cbn. eexists. split; [reflexivity |].
    unfold quest_kept. repeat split. 
  - rewrite list_lookup_alter_ne by exact Hne. exists q.
    split; [exact Hq | apply quest_kept_refl].
Qed.

Lemma effect_quests_kept (req : request) (s s' : Store) :
  effect pow req s s' ->
  forall qid q, coll_quest s !! qid = Some q ->
  exists q', coll_quest s' !! qid = Some q' /\ quest_kept q q'.
Proof.
  intros Heffect qid0 q0 Hq0.
  assert (Hsame : exists q', coll_quest s !! qid0 = Some q' /\ quest_kept q0 q')
    by (exists q0; split; [exact Hq0 | apply quest_kept_refl]).
  destruct Heffect; cbn [coll_quest]; try exact Hsame.
  - exists q0. split; [| apply quest_kept_refl].
    apply lookup_app_l_Some. exact Hq0.
  - apply alter_quest_kept. exact Hq0.
  - apply alter_quest_kept. exact Hq0.
Qed.

Lemma find_one_None {A} (p : A -> bool) (l : list A) :
  find_one p l = None -> Forall (fun x => p x = false) l.
Proof.
  induction l as [| a l IH]; simpl; [constructor |].
  destruct (p a) eqn:Hpa; [discriminate |].
  destruct (find_one p l) as [[i y] |]; [discriminate |].
  intros _. constructor; [exact Hpa | apply IH; reflexivity].
Qed.

Lemma find_one_app_new {A} (p : A -> bool) (l : list A) (x : A) :
  find_one p l = None -> p x = true ->
  find_one p (l ++ [x]) = Some (length l, x).
Proof.
  induction l as [| a l IH]; simpl; intros Hnone Hx.
  - rewrite Hx. reflexivity.
  - destruct (p a); [discriminate |].
    destruct (find_one p l) as [[i y] |]; [discriminate |].
    rewrite (IH eq_refl Hx). reflexivity.
Qed.

Lemma quest_keys_alter (l : list Quest.t) (t : Z) (qid : nat) :
  map quest_key (alter (Quest.set_completed t) qid l) = map quest_key l.
Proof.
  revert qid. induction l as [| q l IH]; intros [| qid]; try reflexivity.
  change (alter (Quest.set_completed t) (S qid) (q :: l))
    with (q :: alter (Quest.set_completed t) qid l).
  cbn [map]. rewrite IH. reflexivity.
Qed.

Lemma effect_quest_keys (req : request) (s s' : Store) :
  effect pow req s s' -> quest_keys_unique s -> quest_keys_unique s'.
Proof.
  unfold quest_keys_unique. intros Heffect Huniq.
  destruct Heffect; cbn [coll_quest]; try exact Huniq.
  - rewrite map_app. apply NoDup_app. split; [exact Huniq |]. split.
    + intros key Hin Hnew. apply list_elem_of_singleton in Hnew. subst key.
      apply list_elem_of_fmap in Hin as (q & Hkey & Hq).
      apply find_one_None in H.
      rewrite Forall_forall in H. specialize (H q Hq).
      unfold quest_key in Hkey. cbn in Hkey. injection Hkey as Hu Hd.
      unfold Quest.matches in H. rewrite <- Hu, <- Hd, !String.eqb_refl in H.
      discriminate.
    + apply NoDup_singleton.
  - rewrite quest_keys_alter. exact Huniq.
  - rewrite quest_keys_alter. exact Huniq.
Qed.

Lemma effect_logs_valid (req : request) (s s' : Store) :
  effect pow req s s' -> minutes_in_range req -> store_ok pow s ->
  Forall (fun x => Workout.valid x = true) (coll_workout s) ->
  Forall (fun c => Checkin.valid c = true) (coll_checkin s) ->
  Forall (fun x => Workout.valid x = true) (coll_workout s')
  /\ Forall (fun c => Checkin.valid c = true) (coll_checkin s').
Proof.
  intros Heffect Hrange Hok Hw Hc.
  destruct Heffect; cbn [coll_workout coll_checkin]; try (split; assumption).
  - split; [exact Hw |]. apply Forall_app. split; [exact Hc |].
    constructor; [| constructor]. unfold Checkin.valid. cbn.
    destruct (proj1 Hok oid h H) as [_ Hstreak]. apply Z.leb_le. lia.
  - split; [| exact Hc]. apply Forall_app. split; [exact Hw |].
    constructor; [| constructor]. cbn in Hrange.
    pose proof (workout_exp_gain_nonneg (LogWorkoutRequest.minutes payload)
                  (LogWorkoutRequest.difficulty payload) exp_gain
                  ltac:(lia) ltac:(assumption)) as Hgain.
    unfold Workout.valid. cbn.
    rewrite !andb_true_iff, !Z.leb_le. lia.
Qed.

Lemma store_ok_alter_hunter (s : Store) (oid : N) (f : Hunter.t -> Hunter.t)
    (workouts : list Workout.t) (quests : list Quest.t)
    (checkins : list Checkin.t) :
  store_ok pow s ->
  (forall h, coll_hunter s !! oid = Some h ->
             hunter_normalized pow (f h) /\ 0 <= Hunter.streak (f h)) ->
  Forall (fun q => 0 <= Quest.exp_reward q) quests ->
  store_ok pow (mkStore (alter f oid (coll_hunter s)) workouts quests checkins).
Proof.
  intros [Hhunters _] Hf Hquests. split; [| exact Hquests].
  intros oid' h'. cbn.
  destruct (decide (oid = oid')) as [<- | Hne].
  - rewrite lookup_alter_eq.
    destruct (coll_hunter s !! oid) as [h |] eqn:Hh; [| discriminate].
    intros [= <-]. apply Hf. reflexivity.
  - rewrite lookup_alter_ne by exact Hne. apply Hhunters.
Qed.

Lemma base_reward_nonneg (title : string) (reward : Z) :
  In (title, reward) base -> 0 <= reward.
Proof.
  cbn. intros [H | [H | [H | [H | []]]]]; injection H as _ <-; lia.
Qed.

(** A leveled hunter is normalized. *)
Lemma leveled_hunter_normalized
    (loop : nat -> Z -> Z -> bool -> outcome (Z * Z * bool))
    (fuel : nat) (gain : Z) (h : Hunter.t) (e' l' : Z) (b' : bool)
    (set : Hunter.t) :
  In loop [daily_checkin_loop pow; log_workout_loop pow; complete_quest_loop pow] ->
  hunter_normalized pow h -> 0 <= gain ->
  loop fuel (Hunter.exp h + gain) (Hunter.level h) false = Return (e', l', b') ->
  Hunter.level set = l' -> Hunter.exp set = e' ->
  hunter_normalized pow set.
Proof.
  intros Hloop (Hlevel & Hexp & _) Hgain Hrun Hl He.
  destruct (loop_result loop _ _ _ _ _ _ _ Hloop Hrun) as (Hle & Hreq & Hnn).
  unfold hunter_normalized. rewrite Hl, He.
  split; [lia |]. split; [apply Hnn; lia | exact Hreq].
Qed.

(** Requests with minutes >= 0 keep the invariants. *)
Lemma effect_store_ok (req : request) (s s' : Store) :
  effect pow req s s' -> minutes_nonnegative req ->
  store_ok pow s -> store_ok pow s'.
Proof.
  intros Heffect Hreq Hok.
  destruct Heffect; try exact Hok.
  - destruct Hok as [Hhunters Hquests]. split; [| exact Hquests].
    intros oid h. cbn.
    destruct (decide (fresh (dom (coll_hunter s)) = oid)) as [<- | Hne].
    + rewrite lookup_insert_eq. intros [= <-].
      split; [| cbn; lia]. split; cbn; [lia |]. split; [lia |].
      exists 100. split; [apply next_level_exp_1 | lia].
    + rewrite lookup_insert_ne by exact Hne. apply Hhunters.
  - apply store_ok_alter_hunter; [exact Hok | | exact (proj2 Hok)].
    intros h0 Hh0. rewrite H in Hh0. injection Hh0 as <-.
    destruct (proj1 Hok oid h H) as [Hnorm Hstreak].
    split; [| cbn; lia].
    eapply (leveled_hunter_normalized (daily_checkin_loop pow));
      [left; reflexivity | exact Hnorm | | eassumption | reflexivity | reflexivity].
    unfold checkin_exp_gain. lia.
  - apply store_ok_alter_hunter; [exact Hok | | exact (proj2 Hok)].
    intros h0 Hh0. rewrite H0 in Hh0. injection Hh0 as <-.
    destruct (proj1 Hok oid h H0) as [Hnorm Hstreak].
    split; [| exact Hstreak].
    eapply (leveled_hunter_normalized (log_workout_loop pow));
      [right; left; reflexivity | exact Hnorm | | eassumption
      | reflexivity | reflexivity].
    cbn in Hreq. exact (workout_exp_gain_nonneg _ _ _ Hreq H).
  - destruct Hok as [Hhunters Hquests]. split; [exact Hhunters |].
    cbn. apply Forall_app. split; [exact Hquests |].
    constructor; [| constructor]. cbn. eapply base_reward_nonneg. eassumption.
  - destruct Hok as [Hhunters Hquests]. split; [exact Hhunters |].
    cbn. apply Forall_alter; [exact Hquests |]. intros x _ Hx. exact Hx.
  - assert (Hquests' :
      Forall (fun q => 0 <= Quest.exp_reward q)
             (alter (Quest.set_completed t_q) qid (coll_quest s))).
    { apply Forall_alter; [exact (proj2 Hok) |]. intros x _ Hx. exact Hx. }
    apply store_ok_alter_hunter; [exact Hok | | exact Hquests'].
    intros h0 Hh0. rewrite H1 in Hh0. injection Hh0 as <-.
    destruct (proj1 Hok oid h H1) as [Hnorm Hstreak].
    split; [| exact Hstreak].
    eapply (leveled_hunter_normalized (complete_quest_loop pow));
      [right; right; left; reflexivity | exact Hnorm | | eassumption
      | reflexivity | reflexivity].
    exact (Forall_lookup_1 _ _ _ _ (proj2 Hok) H).
Qed.

End Transitions.

(** ** Sequences of requests *)

Section RequestSequences.

Variable pow : spec_float -> spec_float -> spec_float.
Variable ObjectId : string -> option N.
Variable isoformat : Z -> string.
Variable clock : nat -> Z.

(** A relation that every store transition respects holds between the
    store before and the store after any sequence of requests. *)
Lemma serve_all_related (R : Store -> Store -> Prop) :
  (forall s, R s s) ->
  (forall s1 s2 s3, R s1 s2 -> R s2 s3 -> R s1 s3) ->
  (forall req s s', effect pow req s s' -> R s s') ->
  forall reqs w s, db w = Some s ->
  exists s', db (serve_all pow ObjectId isoformat clock reqs w) = Some s' /\ R s s'.
Proof.
  intros Hrefl Htrans Hstep reqs.
  induction reqs as [| req reqs IH]; intros w s Hdb; cbn.
  - exists s. auto.
  - destruct (serve_effect pow ObjectId isoformat clock req w s Hdb)
      as (s1 & Hdb1 & Heffect).
    destruct (IH _ s1 Hdb1) as (s' & Hdb' & HR).
    exists s'. split; [exact Hdb' |].
    eapply Htrans; [apply (Hstep req); exact Heffect | exact HR].
Qed.

(** X3. No request, valid or not, ever deletes a hunter, changes its name,
    title or creation time, or lowers its level: after any sequence of
    requests a hunter stored before is still stored under the same id,
    with a level at least as high. *)
Theorem hunters_are_never_lost
    (reqs : list request) (w : World) (s : Store) (oid : N) (h : Hunter.t) :
  db w = Some s ->
  coll_hunter s !! oid = Some h ->
  exists s' h',
    db (serve_all pow ObjectId isoformat clock reqs w) = Some s'
    /\ coll_hunter s' !! oid = Some h'
    /\ Hunter.name h' = Hunter.name h
    /\ Hunter.title h' = Hunter.title h
    /\ Hunter.created_at h' = Hunter.created_at h
    /\ Hunter.level h <= Hunter.level h'.
Proof.
  intros Hdb Hh.
  destruct (serve_all_related
              (fun s s' => forall oid h, coll_hunter s !! oid = Some h ->
                 exists h', coll_hunter s' !! oid = Some h' /\ hunter_kept h h'))
    with (reqs := reqs) (w := w) (s := s) as (s' & Hdb' & Hkept).
  - intros s0 oid0 h0 H0. exists h0. split; [exact H0 | apply hunter_kept_refl].
  - intros s1 s2 s3 H12 H23 oid0 h0 H0.
    destruct (H12 oid0 h0 H0) as (h1 & H1 & Hk1).
    destruct (H23 oid0 h1 H1) as (h2 & H2 & Hk2).
    exists h2. split; [exact H2 | eapply hunter_kept_trans; eassumption].
  - intros req s0 s1 Heffect. apply (effect_hunters_kept pow req). exact Heffect.
  - exact Hdb.
  - destruct (Hkept oid h Hh) as (h' & Hh' & Hk).
    exists s', h'. split; [exact Hdb' |]. split; [exact Hh' |]. exact Hk.
Qed.

(** X4. The workout and check-in collections are append-only logs: any
    sequence of requests leaves the records already stored in place and
    unchanged, and appends at most one record per request. *)
Theorem logs_are_append_only (reqs : list request) (w : World) (s : Store) :
  db w = Some s ->
  exists s' workouts checkins,
    db (serve_all pow ObjectId isoformat clock reqs w) = Some s'
    /\ coll_workout s' = (coll_workout s ++ workouts)%list
    /\ coll_checkin s' = (coll_checkin s ++ checkins)%list
    /\ (length workouts + length checkins <= length reqs)%nat.
Proof.
  revert w s. induction reqs as [| req reqs IH]; intros w s Hdb; cbn.
  - exists s, [], []. rewrite !app_nil_r. repeat split; [exact Hdb | cbn; lia].
  - destruct (serve_effect pow ObjectId isoformat clock req w s Hdb)
      as (s1 & Hdb1 & Heffect).
    destruct (effect_logs pow req s s1 Heffect) as (ws1 & cs1 & Hw1 & Hc1 & Hlen1).
    destruct (IH _ s1 Hdb1) as (s' & ws & cs & Hdb' & Hw & Hc & Hlen).
    exists s', (ws1 ++ ws)%list, (cs1 ++ cs)%list.
    split; [exact Hdb' |].
    rewrite Hw, Hw1, Hc, Hc1, <- !app_assoc, !length_app.
    repeat split. lia.
Qed.

(** X5. A quest is never deleted, and its user_id, date, title and reward
    never change; once completed it stays completed: after any sequence of
    requests the quest at a given position is the same quest, completed if
    it was. *)
Theorem quests_are_never_lost
    (reqs : list request) (w : World) (s : Store) (qid : nat) (q : Quest.t) :
  db w = Some s ->
  coll_quest s !! qid = Some q ->
  exists s' q',
    db (serve_all pow ObjectId isoformat clock reqs w) = Some s'
    /\ coll_quest s' !! qid = Some q'
    /\ Quest.user_id q' = Quest.user_id q
    /\ Quest.date q' = Quest.date q
    /\ Quest.title q' = Quest.title q
    /\ Quest.exp_reward q' = Quest.exp_reward q
    /\ (Quest.completed q = true -> Quest.completed q' = true).
Proof.
  intros Hdb Hq.
  destruct (serve_all_related
              (fun s s' => forall qid q, coll_quest s !! qid = Some q ->
                 exists q', coll_quest s' !! qid = Some q' /\ quest_kept q q'))
    with (reqs := reqs) (w := w) (s := s) as (s' & Hdb' & Hkept).
  - intros s0 qid0 q0 H0. exists q0. split; [exact H0 | apply quest_kept_refl].
  - intros s1 s2 s3 H12 H23 qid0 q0 H0.
    destruct (H12 qid0 q0 H0) as (q1 & H1 & Hk1).
    destruct (H23 qid0 q1 H1) as (q2 & H2 & Hk2).
    exists q2. split; [exact H2 | eapply quest_kept_trans; eassumption].
  - intros req s0 s1 Heffect. apply (effect_quests_kept pow req). exact Heffect.
  - exact Hdb.
  - destruct (Hkept qid q Hq) as (q' & Hq' & Hk).
    exists s', q'. split; [exact Hdb' |]. split; [exact Hq' |]. exact Hk.
Qed.

(** X6. A request changes at most one hunter document: apart from one id,
    every id maps to the same document (or to none) before and after. *)
Theorem request_touches_one_hunter (req : request) (w : World) (s : Store) :
  db w = Some s ->
  exists s' oid0,
    db (serve pow ObjectId isoformat clock req w) = Some s'
    /\ forall oid, oid <> oid0 ->
         coll_hunter s' !! oid = coll_hunter s !! oid.
Proof.
  intros Hdb.
  destruct (serve_effect pow ObjectId isoformat clock req w s Hdb)
    as (s' & Hdb' & Heffect).
  destruct (effect_one_hunter pow req s s' Heffect) as (oid0 & Hframe).
  exists s', oid0. split; assumption.
Qed.

Lemma serve_all_quest_keys (reqs : list request) (w : World) (s : Store) :
  db w = Some s -> quest_keys_unique s ->
  exists s', db (serve_all pow ObjectId isoformat clock reqs w) = Some s'
             /\ quest_keys_unique s'.
Proof.
  revert w s. induction reqs as [| req reqs IH]; intros w s Hdb Huniq; cbn.
  - exists s. auto.
  - destruct (serve_effect pow ObjectId isoformat clock req w s Hdb)
      as (s1 & Hdb1 & Heffect).
    apply (IH _ s1 Hdb1). exact (effect_quest_keys pow req s s1 Heffect Huniq).
Qed.

(** X7. In every store reached from the empty one there is at most one
    quest per (user_id, date) pair: no two quests of the collection agree
    on both. *)
Theorem one_quest_per_user_and_day (reqs : list request) :
  exists s,
    db (serve_all pow ObjectId isoformat clock reqs empty_world) = Some s
    /\ NoDup (map (fun q => (Quest.user_id q, Quest.date q)) (coll_quest s)).
Proof.
  apply (serve_all_quest_keys reqs empty_world (mkStore ∅ [] [] []));
    [reflexivity | constructor].
Qed.

Lemma serve_all_valid (reqs : list request) (w : World) (s : Store) :
  Forall minutes_in_range reqs ->
  db w = Some s -> store_ok pow s ->
  Forall (fun x => Workout.valid x = true) (coll_workout s) ->
  Forall (fun c => Checkin.valid c = true) (coll_checkin s) ->
  exists s', db (serve_all pow ObjectId isoformat clock reqs w) = Some s'
             /\ store_ok pow s'
             /\ Forall (fun x => Workout.valid x = true) (coll_workout s')
             /\ Forall (fun c => Checkin.valid c = true) (coll_checkin s').
Proof.
  revert w s.
  induction reqs as [| req reqs IH]; intros w s Hreqs Hdb Hok Hw Hc; cbn.
  - exists s. auto.
  - apply Forall_cons in Hreqs as [Hreq Hreqs].
    destruct (serve_effect pow ObjectId isoformat clock req w s Hdb)
      as (s1 & Hdb1 & Heffect).
    destruct (effect_logs_valid pow req s s1 Heffect Hreq Hok Hw Hc) as [Hw1 Hc1].
    apply (IH _ s1 Hreqs Hdb1); [| exact Hw1 | exact Hc1].
    assert (Hnn : minutes_nonnegative req)
      by (destruct req; cbn in *; try exact I; lia).
    exact (effect_store_ok pow req s s1 Heffect Hnn Hok).
Qed.

(** X8. With the minutes of every logged workout within 1..300, every
    document that the routes persist passes the schema that schemas.py
    declares for its collection: from the empty store, any sequence of such
    requests leaves only valid Hunter, Workout, Quest and Checkin
    documents. *)
Theorem persisted_documents_pass_their_schemas (reqs : list request) :
  Forall minutes_in_range reqs ->
  exists s,
    db (serve_all pow ObjectId isoformat clock reqs empty_world) = Some s
    /\ (forall oid h, coll_hunter s !! oid = Some h -> Hunter.valid h = true)
    /\ Forall (fun x => Workout.valid x = true) (coll_workout s)
    /\ Forall (fun q => Quest.valid q = true) (coll_quest s)
    /\ Forall (fun c => Checkin.valid c = true) (coll_checkin s).
Proof.
  intros Hreqs.
  destruct (serve_all_valid reqs empty_world (mkStore ∅ [] [] []) Hreqs eq_refl)
    as (s & Hdb & Hok & Hw & Hc).
  - split; [| constructor].
    intros oid h Hh. cbn in Hh. rewrite lookup_empty in Hh. discriminate.
  - constructor.
  - constructor.
  - exists s. split; [exact Hdb |].
    split; [| split; [exact Hw | split; [| exact Hc]]].
    + intros oid h Hh. destruct (proj1 Hok oid h Hh) as [(Hl & He & _) Hs].
      unfold Hunter.valid. rewrite !andb_true_iff, !Z.leb_le. lia.
    + eapply Forall_impl; [exact (proj2 Hok) |].
      intros q Hq. unfold Quest.valid. apply Z.leb_le. exact Hq.
Qed.

Lemma serve_all_ok (reqs : list request) (w : World) (s : Store) :
  Forall minutes_nonnegative reqs ->
  db w = Some s -> store_ok pow s ->
  exists s', db (serve_all pow ObjectId isoformat clock reqs w) = Some s'
             /\ store_ok pow s'.
Proof.
  revert w s. induction reqs as [| req reqs IH]; intros w s Hreqs Hdb Hok; cbn.
  - exists s. auto.
  - apply Forall_cons in Hreqs as [Hreq Hreqs].
    destruct (serve_effect pow ObjectId isoformat clock req w s Hdb)
      as (s1 & Hdb1 & Heffect).
    apply (IH _ s1 Hreqs Hdb1).
    exact (effect_store_ok pow req s s1 Heffect Hreq Hok).
Qed.

(** X1. From the empty store, any sequence of requests to the five
    routes whose workouts carry minutes >= 0 leaves every stored hunter
    with level >= 1 and 0 <= exp < next_level_exp(level), the threshold
    that the code computes for the hunter's level. *)
Theorem hunters_stay_normalized (reqs : list request) :
  Forall minutes_nonnegative reqs ->
  exists s,
    db (serve_all pow ObjectId isoformat clock reqs empty_world) = Some s
    /\ forall oid h, coll_hunter s !! oid = Some h ->
         1 <= Hunter.level h
         /\ 0 <= Hunter.exp h
         /\ exists req, next_level_exp pow (Hunter.level h) = Return req
                        /\ Hunter.exp h < req.
Proof.
  intros Hreqs.
  destruct (serve_all_ok reqs empty_world (mkStore ∅ [] [] []) Hreqs eq_refl)
    as (s & Hdb & Hok).
  - split; [| constructor].
    intros oid h Hh. cbn in Hh. rewrite lookup_empty in Hh. discriminate.
  - exists s. split; [exact Hdb |].
    intros oid h Hh. exact (proj1 (proj1 Hok oid h Hh)).
Qed.

End RequestSequences.

(** ** The handlers, one by one *)

Section HandlerProperties.

Variable pow : spec_float -> spec_float -> spec_float.
Variable ObjectId : string -> option N.
Variable isoformat : Z -> string.
Variable clock : nat -> Z.

(** X9. Creating a hunter stores, under an id that was not in use, a
    hunter with the name and title of the request at level 1 with exp 0,
    streak 0 and no check-in; the response carries that hunter and its id;
    every other hunter and the other three collections stay as they
    were. *)
Theorem create_hunter_stores_a_fresh_hunter
    (payload : CreateHunterRequest.t) (w : World) (s : Store) :
  db w = Some s ->
  exists hunter oid w' s',
    create_hunter clock payload w = (Return (hunter, oid), w')
    /\ db w' = Some s'
    /\ Hunter.name hunter = CreateHunterRequest.name payload
    /\ Hunter.title hunter = CreateHunterRequest.title payload
    /\ Hunter.level hunter = 1
    /\ Hunter.exp hunter = 0
    /\ Hunter.streak hunter = 0
    /\ Hunter.last_checkin hunter = None
    /\ coll_hunter s !! oid = None
    /\ coll_hunter s' !! oid = Some hunter
    /\ (forall oid', oid' <> oid -> coll_hunter s' !! oid' = coll_hunter s !! oid')
    /\ coll_workout s' = coll_workout s
    /\ coll_quest s' = coll_quest s
    /\ coll_checkin s' = coll_checkin s.
Proof.
  intros Hdb. eexists _, _, _, _.
  split; [apply (create_hunter_run clock payload w s Hdb) |].
  split; [reflexivity |].
  do 6 (split; [reflexivity |]).
  split; [apply fresh_hunter_id |].
  split; [apply lookup_insert_eq |].
  split; [| repeat split].
  intros oid' Hne. cbn. apply lookup_insert_ne. congruence.
Qed.

(** X10. Without a database every route answers 500 "Database not
    configured" and does nothing else: no clock reading, no write. *)
Theorem no_database_is_a_500 (w : World) :
  db w = None ->
  let e := HTTPException 500 "Database not configured" in
  (forall payload, create_hunter clock payload w = (Raise e, w))
  /\ list_hunters w = (Raise e, w)
  /\ (forall user_id,
        daily_checkin pow ObjectId isoformat clock user_id w = (Raise e, w))
  /\ (forall payload, log_workout pow ObjectId clock payload w = (Raise e, w))
  /\ (forall r user_id,
        get_daily_quests ObjectId isoformat clock r user_id w = (Raise e, w))
  /\ (forall payload,
        complete_quest pow ObjectId isoformat clock payload w = (Raise e, w))
  /\ (forall user_id, get_profile pow ObjectId user_id w = (Raise e, w)).
Proof.
  intros Hdb e.
  assert (Hcheck : check_db w = (Raise e, w))
    by (unfold check_db; rewrite Hdb; reflexivity).
  repeat split; intros;
    [unfold create_hunter | unfold list_hunters | unfold daily_checkin
     | unfold log_workout | unfold get_daily_quests | unfold complete_quest
     | unfold get_profile];
    unfold bind at 1; rewrite Hcheck; reflexivity.
Qed.

Lemma get_profile_no_hunter (user_id : string) (w : World) (s : Store) (e : exn) :
  db w = Some s ->
  lookup_hunter ObjectId user_id w = (Raise e, w) ->
  get_profile pow ObjectId user_id w = (Raise e, w).
Proof.
  intros Hdb Hlookup. unfold get_profile.
  unfold bind at 1. rewrite (check_db_ok _ _ Hdb).
  unfold bind at 1. rewrite Hlookup. reflexivity.
Qed.

(** X11. A user id that is no ObjectId gets 400 "Invalid user id", and one
    that names no hunter gets 404 "Hunter not found", from the check-in,
    quest and profile routes; the request stops there, with no write and
    no clock reading. The workout route computes int(minutes * diff_mult)
    first: it gives the same answer when that product is computed, as it
    is for every minutes from 1 to 300, and otherwise raises the error of
    the product (OverflowError) whatever the user id. *)
Theorem unknown_hunter_is_rejected (user_id : string) (w : World) (s : Store) :
  db w = Some s ->
  (ObjectId user_id = None
   \/ exists oid, ObjectId user_id = Some oid /\ coll_hunter s !! oid = None) ->
  let e := match ObjectId user_id with
           | None => HTTPException 400 "Invalid user id"
           | Some _ => HTTPException 404 "Hunter not found"
           end in
  daily_checkin pow ObjectId isoformat clock user_id w = (Raise e, w)
  /\ (forall payload, LogWorkoutRequest.user_id payload = user_id ->
        log_workout pow ObjectId clock payload w
        = (match workout_exp_gain (LogWorkoutRequest.minutes payload)
                                  (LogWorkoutRequest.difficulty payload) with
           | Return _ => Raise e
           | Raise overflow => Raise overflow
           | Diverge => Diverge
           end, w))
  /\ (forall payload, LogWorkoutRequest.user_id payload = user_id ->
        1 <= LogWorkoutRequest.minutes payload <= 300 ->
        log_workout pow ObjectId clock payload w = (Raise e, w))
  /\ (forall r, get_daily_quests ObjectId isoformat clock r user_id w
                = (Raise e, w))
  /\ get_profile pow ObjectId user_id w = (Raise e, w).
Proof.
  intros Hdb Hunknown e.
  assert (Hlookup : lookup_hunter ObjectId user_id w = (Raise e, w)).
  { subst e. destruct Hunknown as [Hbad | (oid & Hoid & Hnone)].
    - rewrite Hbad. apply (lookup_hunter_invalid ObjectId _ _ s Hdb Hbad).
    - rewrite Hoid. apply (lookup_hunter_missing ObjectId _ _ s oid Hdb Hoid Hnone). }
  assert (Hworkout : forall payload, LogWorkoutRequest.user_id payload = user_id ->
            log_workout pow ObjectId clock payload w
            = (match workout_exp_gain (LogWorkoutRequest.minutes payload)
                                      (LogWorkoutRequest.difficulty payload) with
               | Return _ => Raise e
               | Raise overflow => Raise overflow
               | Diverge => Diverge
               end, w)).
  { intros payload Hu. rewrite <- Hu in Hlookup.
    destruct (workout_exp_gain (LogWorkoutRequest.minutes payload)
                (LogWorkoutRequest.difficulty payload)) as [g | x |] eqn:Hgain.
    - apply (log_workout_no_hunter pow ObjectId clock payload w s g e Hdb Hgain Hlookup).
    - apply (log_workout_no_gain pow ObjectId clock payload w s x Hdb Hgain).
    - exfalso. exact (workout_exp_gain_ends _ _ Hgain). }
  split; [apply (daily_checkin_no_hunter pow ObjectId isoformat clock _ _ s _ Hdb Hlookup) |].
  split; [exact Hworkout |].
  split.
  { intros payload Hu Hminutes. rewrite (Hworkout payload Hu).
    rewrite (workout_exp_gain_valid_minutes _ (LogWorkoutRequest.difficulty payload)
               Hminutes).
    reflexivity. }
  split; [intros r; apply (get_daily_quests_no_hunter ObjectId isoformat clock _ _ _ s _ Hdb Hlookup) |].
  apply (get_profile_no_hunter _ _ s _ Hdb Hlookup).
Qed.

(** X12. Completing a quest that does not exist for the requested
    (user_id, date) answers 404 "Quest not found for today" and writes
    nothing; the user id is not even parsed, so this is the answer for an
    invalid or unknown user id as well. *)
Theorem complete_quest_without_quest
    (payload : CompleteQuestRequest.t) (w w1 : World) (s : Store) (today : string) :
  db w = Some s ->
  date_or_today isoformat clock payload w = (Return today, w1) ->
  find_one (Quest.matches (CompleteQuestRequest.user_id payload) today)
           (coll_quest s) = None ->
  complete_quest pow ObjectId isoformat clock payload w
  = (Raise (HTTPException 404 "Quest not found for today"), w1)
  /\ db w1 = Some s.
Proof.
  intros Hdb Hday Hfind. split.
  - apply (complete_quest_no_quest pow ObjectId isoformat clock payload w w1 s today
             Hdb Hday Hfind).
  - rewrite (date_or_today_db _ _ _ _ _ _ Hday). exact Hdb.
Qed.

(** X13. The first quest fetch of a day creates the quest: for a hunter
    with no quest under (user_id, today), the route appends one open quest
    for that user and day whose title and reward are one entry of the
    catalog (so the reward is 75, 90, 40 or 60), returns it with its id,
    and leaves hunters, workouts and check-ins alone. *)
Theorem get_daily_quests_creates_from_catalog
    (r : nat) (user_id : string) (w : World) (s : Store) (oid : N) (h : Hunter.t) :
  db w = Some s ->
  ObjectId user_id = Some oid ->
  coll_hunter s !! oid = Some h ->
  find_one (Quest.matches user_id (isoformat (date (clock (ticks w)))))
           (coll_quest s) = None ->
  exists qid quest w' s',
    get_daily_quests ObjectId isoformat clock r user_id w
    = (Return (qid, quest), w')
    /\ db w' = Some s'
    /\ coll_quest s' = (coll_quest s ++ [quest])%list
    /\ coll_quest s' !! qid = Some quest
    /\ Quest.user_id quest = user_id
    /\ Quest.date quest = isoformat (date (clock (ticks w)))
    /\ Quest.completed quest = false
    /\ In (Quest.title quest, Quest.exp_reward quest) base
    /\ In (Quest.exp_reward quest) [75; 90; 40; 60]
    /\ coll_hunter s' = coll_hunter s
    /\ coll_workout s' = coll_workout s
    /\ coll_checkin s' = coll_checkin s.
Proof.
  intros Hdb Hoid Hh Hfind.
  pose proof (get_daily_quests_found ObjectId isoformat clock r user_id w s oid h
                Hdb Hoid Hh) as Hrun.
  cbv zeta in Hrun. rewrite Hfind in Hrun.
  pose proof (base_entry r) as Hin.
  destruct (nth (r mod 4)%nat base ("", 0)) as [title reward].
  cbn [fst snd] in Hrun.
  eexists _, _, _, _. split; [exact Hrun |].
  split; [reflexivity |]. split; [reflexivity |].
  split; [cbn; apply list_lookup_middle; reflexivity |].
  do 3 (split; [reflexivity |]).
  split; [exact Hin |].
  split; [| repeat split].
  cbn in Hin |- *.
  destruct Hin as [H | [H | [H | [H | []]]]]; injection H as _ <-; auto.
Qed.

(** X14. Fetching the quest again on the same day returns the same quest
    and creates nothing, whatever random.choice would draw: after a fetch
    for a stored hunter, a second fetch whose clock reading falls on the
    same date string answers with the same id and document and leaves the
    store unchanged. *)
Theorem get_daily_quests_same_day_same_quest
    (r r' : nat) (user_id : string) (w : World) (s : Store) (oid : N)
    (h : Hunter.t) :
  db w = Some s ->
  ObjectId user_id = Some oid ->
  coll_hunter s !! oid = Some h ->
  exists q w1 w2,
    get_daily_quests ObjectId isoformat clock r user_id w = (Return q, w1)
    /\ (isoformat (date (clock (ticks w1))) = isoformat (date (clock (ticks w))) ->
        get_daily_quests ObjectId isoformat clock r' user_id w1 = (Return q, w2)
        /\ db w2 = db w1).
Proof.
  intros Hdb Hoid Hh.
  pose proof (get_daily_quests_found ObjectId isoformat clock r user_id w s oid h
                Hdb Hoid Hh) as Hrun.
  cbv zeta in Hrun.
  destruct (find_one (Quest.matches user_id (isoformat (date (clock (ticks w)))))
              (coll_quest s)) as [[qid q] |] eqn:Hfind.
  - eexists _, _, _. split; [exact Hrun |]. intros Hsame.
    pose proof (get_daily_quests_found ObjectId isoformat clock r' user_id
                  (mkWorld (Some s) (S (ticks w))) s oid h eq_refl Hoid Hh)
      as Hrun'.
    cbv zeta in Hrun'. cbn [ticks] in Hsame, Hrun'.
    rewrite Hsame, Hfind in Hrun'. split; [exact Hrun' | reflexivity].
  - eexists _, _, _. split; [exact Hrun |]. intros Hsame.
    cbn [ticks] in Hsame.
    match type of Hrun with
    | _ = (Return (_, ?quest), mkWorld (Some ?s1) ?n) =>
        pose proof (get_daily_quests_found ObjectId isoformat clock r' user_id
                      (mkWorld (Some s1) n) s1 oid h eq_refl Hoid Hh) as Hrun';
        cbv zeta in Hrun'; cbn [ticks coll_quest] in Hrun';
        rewrite Hsame, (find_one_app_new _ _ quest Hfind) in Hrun'
    end.
    + split; [exact Hrun' | reflexivity].
    + unfold Quest.matches. cbn. rewrite !String.eqb_refl. reflexivity.
Qed.

(** X15. Completing an open quest of a stored hunter (level >= 1,
    exp >= 0, reward >= 0, the thresholds of the levels in reach computed)
    awards exactly the stored reward: the response and the hunter document
    carry the same new level and exp, with 0 <= exp < next_level_exp(level)
    and old exp + reward = new exp + the thresholds of the levels passed;
    leveled_up tells whether the level rose; streak and last check-in are
    untouched; the quest is marked completed with its reward unchanged;
    workouts and check-ins stay as they were. *)
Theorem complete_quest_awards_the_reward
    (payload : CompleteQuestRequest.t) (w w1 : World) (s : Store)
    (today : string) (qid : nat) (q : Quest.t) (oid : N) (h : Hunter.t) :
  db w = Some s ->
  date_or_today isoformat clock payload w = (Return today, w1) ->
  find_one (Quest.matches (CompleteQuestRequest.user_id payload) today)
           (coll_quest s) = Some (qid, q) ->
  Quest.completed q = false ->
  ObjectId (CompleteQuestRequest.user_id payload) = Some oid ->
  coll_hunter s !! oid = Some h ->
  1 <= Hunter.level h -> 0 <= Hunter.exp h -> 0 <= Quest.exp_reward q ->
  thresholds_return pow (Hunter.level h)
    (Hunter.level h + (Hunter.exp h + Quest.exp_reward q)) ->
  exists level exp leveled_up w' s' h' q' req,
    complete_quest pow ObjectId isoformat clock payload w
    = (Return (Quest_completed (Quest.exp_reward q) level exp leveled_up), w')
    /\ db w' = Some s'
    /\ coll_hunter s' !! oid = Some h'
    /\ Hunter.level h' = level
    /\ Hunter.exp h' = exp
    /\ Hunter.streak h' = Hunter.streak h
    /\ Hunter.last_checkin h' = Hunter.last_checkin h
    /\ Hunter.level h <= level
    /\ next_level_exp pow level = Return req
    /\ 0 <= exp < req
    /\ Hunter.exp h + Quest.exp_reward q
       = exp + consumed (threshold pow) (Hunter.level h)
                 (Z.to_nat (level - Hunter.level h))
    /\ (leveled_up = true <-> Hunter.level h < level)
    /\ coll_quest s' !! qid = Some q'
    /\ Quest.completed q' = true
    /\ Quest.exp_reward q' = Quest.exp_reward q
    /\ coll_workout s' = coll_workout s
    /\ coll_checkin s' = coll_checkin s.
Proof.
  intros Hdb Hday Hfind Hopen Hoid Hh Hlevel Hexp Hreward Hthr.
  pose proof (complete_quest_found pow ObjectId isoformat clock payload w w1 s today
                qid q oid h Hdb Hday Hfind Hopen Hoid Hh) as Hrun.
  cbv zeta in Hrun.
  destruct (daily_checkin_loop_run pow
              (loop_fuel (Hunter.exp h + Quest.exp_reward q))
              (Hunter.exp h + Quest.exp_reward q) (Hunter.level h))
    as (e' & l' & b & req & Hloop & Hle & Hreq & Hlt & Hsum & Hup & Hnn & _);
    [apply (thresholds_return_narrow pow _ _ _ _ Hthr); lia | lia |].
  assert (Hloop' : complete_quest_loop pow
                     (loop_fuel (Hunter.exp h + Quest.exp_reward q))
                     (Hunter.exp h + Quest.exp_reward q) (Hunter.level h) false
                   = Return (e', l', b))
    by (etransitivity; [apply complete_quest_loop_eq | exact Hloop]).
  rewrite Hloop' in Hrun.
  eexists l', e', b, _, _, _, _, req.
  split; [exact Hrun |]. split; [reflexivity |].
  split; [cbn; rewrite lookup_alter_eq, Hh; reflexivity |].
  do 4 (split; [reflexivity |]).
  split; [exact Hle |]. split; [exact Hreq |]. split; [lia |].
  split; [exact Hsum |].
  split; [exact Hup |].
  split.
  { cbn. rewrite list_lookup_alter_eq.
    rewrite (proj1 (find_one_Some _ _ _ _ Hfind)). reflexivity. }
  repeat split.
Qed.

(** X16. Logging a workout with minutes >= 0 whose EXP
    int(minutes * diff_mult) is computed, for a stored hunter (level >= 1,
    exp >= 0, the thresholds of the levels in reach computed), levels the
    hunter by that EXP, which is not negative: response and hunter
    document carry the same new level and exp, with
    0 <= exp < next_level_exp(level) and
    old exp + exp_gain = new exp + the thresholds of the levels passed;
    leveled_up tells whether the level rose; name, streak and last
    check-in are untouched; quests and check-ins stay as they were. *)
Theorem log_workout_levels_the_hunter
    (payload : LogWorkoutRequest.t) (w : World) (s : Store) (oid : N)
    (h : Hunter.t) (exp_gain : Z) :
  db w = Some s ->
  ObjectId (LogWorkoutRequest.user_id payload) = Some oid ->
  coll_hunter s !! oid = Some h ->
  1 <= Hunter.level h -> 0 <= Hunter.exp h ->
  0 <= LogWorkoutRequest.minutes payload ->
  workout_exp_gain (LogWorkoutRequest.minutes payload)
                   (LogWorkoutRequest.difficulty payload) = Return exp_gain ->
  thresholds_return pow (Hunter.level h)
    (Hunter.level h + (Hunter.exp h + exp_gain)) ->
  exists r w' s' h' req,
    log_workout pow ObjectId clock payload w = (Return r, w')
    /\ db w' = Some s'
    /\ coll_hunter s' !! oid = Some h'
    /\ Hunter.level h' = wr_level r
    /\ Hunter.exp h' = wr_exp r
    /\ Hunter.name h' = Hunter.name h
    /\ Hunter.streak h' = Hunter.streak h
    /\ Hunter.last_checkin h' = Hunter.last_checkin h
    /\ wr_exp_gain r = exp_gain
    /\ 0 <= exp_gain
    /\ Hunter.level h <= wr_level r
    /\ next_level_exp pow (wr_level r) = Return req
    /\ 0 <= wr_exp r < req
    /\ Hunter.exp h + wr_exp_gain r
       = wr_exp r
         + consumed (threshold pow) (Hunter.level h)
             (Z.to_nat (wr_level r - Hunter.level h))
    /\ (wr_leveled_up r = true <-> Hunter.level h < wr_level r)
    /\ coll_quest s' = coll_quest s
    /\ coll_checkin s' = coll_checkin s.
Proof.
  intros Hdb Hoid Hh Hlevel Hexp Hminutes Hgain Hthr.
  pose proof (log_workout_found pow ObjectId clock payload w s oid h exp_gain
                Hdb Hgain Hoid Hh) as Hrun.
  pose proof (workout_exp_gain_nonneg _ _ _ Hminutes Hgain) as Hnonneg.
  destruct (daily_checkin_loop_run pow
              (loop_fuel (Hunter.exp h + exp_gain))
              (Hunter.exp h + exp_gain) (Hunter.level h))
    as (e' & l' & b & req & Hloop & Hle & Hreq & Hlt & Hsum & Hup & Hnn & _);
    [apply (thresholds_return_narrow pow _ _ _ _ Hthr); lia | lia |].
  assert (Hloop' : log_workout_loop pow (loop_fuel (Hunter.exp h + exp_gain))
                     (Hunter.exp h + exp_gain) (Hunter.level h) false
                   = Return (e', l', b))
    by (etransitivity; [apply log_workout_loop_eq | exact Hloop]).
  rewrite Hloop' in Hrun.
  eexists _, _, _, _, req.
  split; [exact Hrun |]. split; [reflexivity |].
  split; [cbn; rewrite lookup_alter_eq, Hh; reflexivity |].
  do 5 (split; [reflexivity |]).
  cbn [wr_level wr_exp wr_exp_gain wr_leveled_up].
  split; [reflexivity |]. split; [exact Hnonneg |].
  split; [exact Hle |]. split; [exact Hreq |]. split; [lia |].
  split; [exact Hsum |].
  split; [exact Hup |]. repeat split.
Qed.

(** X23. A workout of 1 to 300 minutes, the range of the schema, is
    logged with the EXP of the specification: for a stored hunter (the
    thresholds of the levels in reach computed) the EXP in the response
    and in the Workout record is floor(minutes * multiplier), with
    multiplier 1.0 for "easy", 1.5 for "normal", 2.0 for "hard" and 1.5 for
    any other difficulty, an amount from 1 to 600; in particular a hunter
    at level 1, exp 0 who logs a 60-minute "normal" workout gains 90 EXP
    and stays at level 1 with exp 90, leveled_up false. *)
Theorem workout_exp_is_floor_for_valid_minutes
    (payload : LogWorkoutRequest.t) (w : World) (s : Store) (oid : N)
    (h : Hunter.t) :
  db w = Some s ->
  ObjectId (LogWorkoutRequest.user_id payload) = Some oid ->
  coll_hunter s !! oid = Some h ->
  1 <= LogWorkoutRequest.minutes payload <= 300 ->
  thresholds_return pow (Hunter.level h)
    (Hunter.level h + Z.max (Hunter.exp h) 0 + 600) ->
  (multiplier "easy" = 1 # 1
   /\ multiplier "normal" = 3 # 2
   /\ multiplier "hard" = 2 # 1
   /\ forall d, d <> "easy" -> d <> "normal" -> d <> "hard" ->
                multiplier d = 3 # 2)
  /\ exists r w' s' x h',
       log_workout pow ObjectId clock payload w = (Return r, w')
       /\ wr_exp_gain r
          = Qfloor (inject_Z (LogWorkoutRequest.minutes payload)
                    * multiplier (LogWorkoutRequest.difficulty payload))
       /\ 1 <= wr_exp_gain r <= 600
       /\ db w' = Some s'
       /\ coll_workout s' = (coll_workout s ++ [x])%list
       /\ Workout.minutes x = LogWorkoutRequest.minutes payload
       /\ Workout.exp_awarded x = wr_exp_gain r
       /\ coll_hunter s' !! oid = Some h'
       /\ Hunter.level h' = wr_level r
       /\ Hunter.exp h' = wr_exp r
       /\ (Hunter.level h = 1 -> Hunter.exp h = 0 ->
           LogWorkoutRequest.minutes payload = 60 ->
           LogWorkoutRequest.difficulty payload = "normal" ->
           r = Workout_logged 90 1 90 false).
Proof.
  intros Hdb Hoid Hh Hminutes Hthr.
  split; [exact multiplier_table |].
  pose proof (workout_exp_gain_valid_minutes _
                (LogWorkoutRequest.difficulty payload) Hminutes) as Hgain.
  pose proof (workout_exp_gain_valid_range _
                (LogWorkoutRequest.difficulty payload) Hminutes) as Hrange.
  set (exp_gain := Qfloor (inject_Z (LogWorkoutRequest.minutes payload)
                           * multiplier (LogWorkoutRequest.difficulty payload)))
    in *.
  pose proof (log_workout_found pow ObjectId clock payload w s oid h exp_gain
                Hdb Hgain Hoid Hh) as Hrun.
  destruct (daily_checkin_loop_run pow
              (loop_fuel (Hunter.exp h + exp_gain))
              (Hunter.exp h + exp_gain) (Hunter.level h))
    as (e' & l' & b & req & Hloop & _);
    [apply (thresholds_return_narrow pow _ _ _ _ Hthr); lia | lia |].
  assert (Hloop' : log_workout_loop pow (loop_fuel (Hunter.exp h + exp_gain))
                     (Hunter.exp h + exp_gain) (Hunter.level h) false
                   = Return (e', l', b))
    by (etransitivity; [apply log_workout_loop_eq | exact Hloop]).
  rewrite Hloop' in Hrun.
  eexists _, _, _, _, _.
  split; [exact Hrun |].
  cbn [wr_level wr_exp wr_exp_gain wr_leveled_up].
  split; [reflexivity |]. split; [exact Hrange |].
  split; [reflexivity |].
  split; [reflexivity |].
  split; [reflexivity |].
  split; [reflexivity |].
  split; [cbn; rewrite lookup_alter_eq, Hh; reflexivity |].
  split; [reflexivity |].
  split; [reflexivity |].
  intros Hl1 He0 Hm Hd. subst exp_gain. rewrite Hl1, He0, Hm, Hd in Hloop.
  change (Qfloor (inject_Z 60 * multiplier "normal")) with 90 in Hloop.
  change (loop_fuel (0 + 90)) with (S (loop_fuel 89)) in Hloop.
  cbn [daily_checkin_loop] in Hloop. rewrite next_level_exp_1 in Hloop.
  cbn in Hloop. injection Hloop as <- <- <-. rewrite Hm, Hd. reflexivity.
Qed.

(** X17. A check-in that is not a same-day no-op, for a stored hunter
    (level >= 1, exp >= 0, streak >= 0, the thresholds of the levels in
    reach computed), awards 10 + min(new_streak, 20) EXP, an amount between
    11 and 30 that stays at 30 from a streak of 20 on; the hunter is
    levelled by it (0 <= exp < next_level_exp(level), old exp + exp_gain =
    new exp + thresholds passed), and its last_checkin becomes a clock
    reading taken during the request. *)
Theorem checkin_awards_capped_bonus
    (user_id : string) (w : World) (s : Store) (oid : N) (h : Hunter.t) :
  db w = Some s ->
  ObjectId user_id = Some oid ->
  coll_hunter s !! oid = Some h ->
  1 <= Hunter.level h -> 0 <= Hunter.exp h -> 0 <= Hunter.streak h ->
  (forall last, Hunter.last_checkin h = Some last ->
     isoformat (date last) <> isoformat (date (clock (ticks w)))) ->
  thresholds_return pow (Hunter.level h) (Hunter.level h + (Hunter.exp h + 30)) ->
  exists exp_gain new_streak level exp leveled_up w' s' h' n req,
    daily_checkin pow ObjectId isoformat clock user_id w
    = (Return (Checkin_complete exp_gain new_streak level exp leveled_up), w')
    /\ exp_gain = 10 + Z.min new_streak 20
    /\ 11 <= exp_gain <= 30
    /\ (20 <= new_streak -> exp_gain = 30)
    /\ db w' = Some s'
    /\ coll_hunter s' !! oid = Some h'
    /\ Hunter.level h' = level
    /\ Hunter.exp h' = exp
    /\ Hunter.last_checkin h' = Some (clock n)
    /\ (ticks w < n < ticks w')%nat
    /\ Hunter.level h <= level
    /\ next_level_exp pow level = Return req
    /\ 0 <= exp < req
    /\ Hunter.exp h + exp_gain
       = exp + consumed (threshold pow) (Hunter.level h)
                 (Z.to_nat (level - Hunter.level h))
    /\ coll_workout s' = coll_workout s
    /\ coll_quest s' = coll_quest s.
Proof.
  intros Hdb Hoid Hh Hlevel Hexp Hstreak Hday Hthr.
  pose proof (daily_checkin_found pow ObjectId isoformat clock user_id w s oid h
                Hdb Hoid Hh Hday) as Hrun.
  cbv zeta in Hrun.
  set (ns := match Hunter.last_checkin h with
             | Some last =>
                 if date (clock (S (ticks w))) - date last =? 1
                 then Hunter.streak h + 1 else 1
             | None => 1
             end) in *.
  assert (Hns : 1 <= ns).
  { subst ns. destruct (Hunter.last_checkin h) as [last |]; [| lia].
    destruct (date (clock (S (ticks w))) - date last =? 1); lia. }
  assert (Hgain : 11 <= checkin_exp_gain ns <= 30)
    by (unfold checkin_exp_gain; lia).
  destruct (daily_checkin_loop_run pow
              (loop_fuel (Hunter.exp h + checkin_exp_gain ns))
              (Hunter.exp h + checkin_exp_gain ns) (Hunter.level h))
    as (e' & l' & b & req & Hloop & Hle & Hreq & Hlt & Hsum & _ & Hnn & _);
    [apply (thresholds_return_narrow pow _ _ _ _ Hthr); lia | lia |].
  rewrite Hloop in Hrun.
  eexists _, ns, l', e', b, _, _, _, _, req.
  split; [exact Hrun |].
  split; [reflexivity |]. split; [exact Hgain |].
  split; [unfold checkin_exp_gain; lia |].
  split; [reflexivity |].
  split; [cbn; rewrite lookup_alter_eq, Hh; reflexivity |].
  do 3 (split; [reflexivity |]).
  split; [cbn; destruct (Hunter.last_checkin h); lia |].
  split; [exact Hle |]. split; [exact Hreq |].
  split; [lia |].
  split; [exact Hsum |]. repeat split.
Qed.

(** The world and the hunter after a check-in that is not a same-day
    no-op; [n] is the clock reading stored as last_checkin. *)
Lemma daily_checkin_then
    (user_id : string) (w : World) (s : Store) (oid : N) (h : Hunter.t) (n : nat) :
  db w = Some s ->
  ObjectId user_id = Some oid ->
  coll_hunter s !! oid = Some h ->
  1 <= Hunter.level h ->
  (forall last, Hunter.last_checkin h = Some last ->
     isoformat (date last) <> isoformat (date (clock (ticks w)))) ->
  n = (match Hunter.last_checkin h with Some _ => 2 | None => 1 end
       + ticks w)%nat ->
  thresholds_return pow (Hunter.level h)
    (Hunter.level h + Z.max (Hunter.exp h) 0 + 30) ->
  exists exp_gain new_streak level exp leveled_up s' h',
    daily_checkin pow ObjectId isoformat clock user_id w
    = (Return (Checkin_complete exp_gain new_streak level exp leveled_up),
       mkWorld (Some s') (4 + n))
    /\ coll_hunter s' !! oid = Some h'
    /\ Hunter.streak h' = new_streak
    /\ Hunter.level h' = level
    /\ Hunter.exp h' = exp
    /\ Hunter.last_checkin h' = Some (clock n)
    /\ Hunter.level h <= level
    /\ level + Z.max exp 0 <= Hunter.level h + Z.max (Hunter.exp h) 0 + 30
    /\ length (coll_checkin s') = S (length (coll_checkin s)).
Proof.
  intros Hdb Hoid Hh Hlevel Hday -> Hthr.
  pose proof (daily_checkin_found pow ObjectId isoformat clock user_id w s oid h
                Hdb Hoid Hh Hday) as Hrun.
  cbv zeta in Hrun.
  set (ns := match Hunter.last_checkin h with
             | Some last =>
                 if date (clock (S (ticks w))) - date last =? 1
                 then Hunter.streak h + 1 else 1
             | None => 1
             end) in *.
  assert (Hgain : checkin_exp_gain ns <= 30)
    by (unfold checkin_exp_gain; lia).
  assert (Hthr' : thresholds_return pow (Hunter.level h)
                    (Hunter.level h
                     + Z.max (Hunter.exp h + checkin_exp_gain ns) 0))
    by (apply (thresholds_return_narrow pow _ _ _ _ Hthr); lia).
  destruct (daily_checkin_loop_run pow
              (loop_fuel (Hunter.exp h + checkin_exp_gain ns))
              (Hunter.exp h + checkin_exp_gain ns) (Hunter.level h)
              Hthr' ltac:(lia))
    as (e' & l' & b & req & Hloop & Hle & _).
  pose proof (daily_checkin_loop_reach_max pow _ _ _ _ _ _ _ Hthr' Hloop)
    as Hreach.
  assert (Hbound : l' + Z.max e' 0
                   <= Hunter.level h + Z.max (Hunter.exp h) 0 + 30) by lia.
  rewrite Hloop in Hrun. clear Hreach Hthr' Hloop Hgain.
  destruct (Hunter.last_checkin h) as [last |] eqn:Hlast.
  all: eexists _, _, l', e', b, _, _.
  all: split; [exact Hrun |].
  all: split; [cbn; rewrite lookup_alter_eq, Hh; reflexivity |].
  all: do 4 (split; [reflexivity |]).
  all: split; [exact Hle |].
  all: split; [exact Hbound |].
  all: cbn; rewrite length_app; cbn; lia.
Qed.

(** X18. Checking in twice on one day awards once: after a check-in that
    is not a no-op (the thresholds of the levels in reach computed), a
    second check-in whose clock reading falls on the date stored as
    last_checkin answers "Already checked in today" with the streak, level
    and exp that the first one returned, and changes nothing; the two
    requests together add exactly one Checkin record. *)
Theorem checkin_twice_awards_once
    (user_id : string) (w : World) (s : Store) (oid : N) (h : Hunter.t) (n : nat) :
  db w = Some s ->
  ObjectId user_id = Some oid ->
  coll_hunter s !! oid = Some h ->
  1 <= Hunter.level h ->
  (forall last, Hunter.last_checkin h = Some last ->
     isoformat (date last) <> isoformat (date (clock (ticks w)))) ->
  n = (match Hunter.last_checkin h with Some _ => 2 | None => 1 end
       + ticks w)%nat ->
  isoformat (date (clock n)) = isoformat (date (clock (4 + n))) ->
  thresholds_return pow (Hunter.level h)
    (Hunter.level h + Z.max (Hunter.exp h) 0 + 30) ->
  exists exp_gain new_streak level exp leveled_up w' w'' s',
    daily_checkin pow ObjectId isoformat clock user_id w
    = (Return (Checkin_complete exp_gain new_streak level exp leveled_up), w')
    /\ db w' = Some s'
    /\ daily_checkin pow ObjectId isoformat clock user_id w'
       = (Return (Already_checked_in new_streak level exp), w'')
    /\ db w'' = Some s'
    /\ length (coll_checkin s') = S (length (coll_checkin s)).
Proof.
  intros Hdb Hoid Hh Hlevel Hday Hn Hsame Hthr.
  destruct (daily_checkin_then user_id w s oid h n Hdb Hoid Hh Hlevel Hday Hn Hthr)
    as (g & ns & l & e & b & s' & h' & Hrun & Hh' & Hs & Hl & He & Hlast & _ & _
        & Hlen).
  exists g, ns, l, e, b, (mkWorld (Some s') (4 + n)),
    (mkWorld (Some s') (S (4 + n))), s'.
  split; [exact Hrun |]. split; [reflexivity |].
  split; [| split; [reflexivity | exact Hlen]].
  rewrite (daily_checkin_same_day pow ObjectId isoformat clock user_id
             (mkWorld (Some s') (4 + n)) s' oid h' (clock n)
             eq_refl Hoid Hh' Hlast Hsame).
  rewrite Hs, Hl, He. reflexivity.
Qed.

(** X19. Checking in on two consecutive days extends the streak: after a
    check-in that is not a no-op, the next check-in, when its clock
    readings fall on another date string and one day after the date
    stored as last_checkin, is awarded with a streak one higher than the
    first one returned (the thresholds of the levels in reach of the two
    awards computed). *)
Theorem checkin_next_day_extends_streak
    (user_id : string) (w : World) (s : Store) (oid : N) (h : Hunter.t) (n : nat) :
  db w = Some s ->
  ObjectId user_id = Some oid ->
  coll_hunter s !! oid = Some h ->
  1 <= Hunter.level h ->
  (forall last, Hunter.last_checkin h = Some last ->
     isoformat (date last) <> isoformat (date (clock (ticks w)))) ->
  n = (match Hunter.last_checkin h with Some _ => 2 | None => 1 end
       + ticks w)%nat ->
  isoformat (date (clock n)) <> isoformat (date (clock (4 + n))) ->
  date (clock (5 + n)) - date (clock n) = 1 ->
  thresholds_return pow (Hunter.level h)
    (Hunter.level h + Z.max (Hunter.exp h) 0 + 60) ->
  exists exp_gain new_streak level exp leveled_up w'
         exp_gain2 level2 exp2 leveled_up2 w'',
    daily_checkin pow ObjectId isoformat clock user_id w
    = (Return (Checkin_complete exp_gain new_streak level exp leveled_up), w')
    /\ daily_checkin pow ObjectId isoformat clock user_id w'
       = (Return (Checkin_complete exp_gain2 (new_streak + 1) level2 exp2
                                   leveled_up2), w'').
Proof.
  intros Hdb Hoid Hh Hlevel Hday Hn Hother Hnext Hthr.
  destruct (daily_checkin_then user_id w s oid h n Hdb Hoid Hh Hlevel Hday Hn)
    as (g & ns & l & e & b & s' & h' & Hrun & Hh' & Hs & Hl & He & Hlast & Hl1
        & Hreach & _);
    [apply (thresholds_return_narrow pow _ _ _ _ Hthr); lia |].
  assert (Hday' : forall last, Hunter.last_checkin h' = Some last ->
            isoformat (date last)
            <> isoformat (date (clock (ticks (mkWorld (Some s') (4 + n)))))).
  { intros last. rewrite Hlast. intros [= <-]. exact Hother. }
  destruct (daily_checkin_then user_id (mkWorld (Some s') (4 + n)) s' oid h' _
              eq_refl Hoid Hh' ltac:(lia) Hday' eq_refl)
    as (g2 & ns2 & l2 & e2 & b2 & s2 & h2 & Hrun2 & _);
    [apply (thresholds_return_narrow pow _ _ _ _ Hthr); lia |].
  pose proof (daily_checkin_found pow ObjectId isoformat clock user_id
                (mkWorld (Some s') (4 + n)) s' oid h' eq_refl Hoid Hh' Hday')
    as Hfound.
  cbv zeta in Hfound. rewrite Hlast in Hfound.
  change (S (ticks (mkWorld (Some s') (4 + n)))) with (5 + n)%nat in Hfound.
  rewrite Hnext, Z.eqb_refl, Hs in Hfound.
  rewrite Hrun2 in Hfound.
  destruct (daily_checkin_loop _ _ _ _ _) as [[[e3 l3] b3] | |];
    [| discriminate | discriminate].
  injection Hfound as Hg Hns Hl2 He2 Hb2 _.
  eexists g, ns, l, e, b, _, g2, l2, e2, b2, _.
  split; [exact Hrun |]. rewrite Hrun2, Hns. reflexivity.
Qed.

Lemma percent_ends (exp to_next : Z) : percent exp to_next <> Diverge.
Proof.
  unfold percent, int_true_div.
  destruct exp as [| a | a], to_next as [| b | b]; cbn [and_then];
    try discriminate; try apply int_of_float_ends.
  all: destruct (SFdiv_core_binary _ _ _ _ _ _) as [[q e] l].
  all: destruct (binary_round_aux _ _ _ _ _ _); cbn [and_then];
    try discriminate; apply int_of_float_ends.
Qed.

Lemma ends_get_profile (user_id : string) : ends (get_profile pow ObjectId user_id).
Proof.
  unfold get_profile. repeat ends_step.
  - unfold lookup_hunter, hunter_find_one. repeat ends_step.
  - apply next_level_exp_ends.
  - apply percent_ends.
Qed.

(** X20. No request hangs, when the C library's pow(x, 1.5) is at least
    1 for x >= 1: each of the routes, on every world and for every
    request, returns or raises; the level-up loop inside comes to an end
    for every stored level and exp, also for exp < 0 or level 0. *)
Theorem no_handler_hangs (w : World) :
  pow_at_least_one pow ->
  (forall payload, fst (create_hunter clock payload w) <> Diverge)
  /\ fst (list_hunters w) <> Diverge
  /\ (forall user_id,
        fst (daily_checkin pow ObjectId isoformat clock user_id w) <> Diverge)
  /\ (forall payload, fst (log_workout pow ObjectId clock payload w) <> Diverge)
  /\ (forall r user_id,
        fst (get_daily_quests ObjectId isoformat clock r user_id w) <> Diverge)
  /\ (forall payload,
        fst (complete_quest pow ObjectId isoformat clock payload w) <> Diverge)
  /\ (forall user_id, fst (get_profile pow ObjectId user_id w) <> Diverge).
Proof.
  intros Hpow.
  split; [intros payload; apply ends_create_hunter |].
  split.
  { assert (H : ends list_hunters)
      by (unfold list_hunters; repeat ends_step).
    apply H. }
  split; [intros user_id; apply ends_daily_checkin; exact Hpow |].
  split; [intros payload; apply ends_log_workout; exact Hpow |].
  split; [intros r user_id; apply ends_get_daily_quests |].
  split; [intros payload; apply ends_complete_quest; exact Hpow |].
  intros user_id. apply ends_get_profile.
Qed.

(** X21. The hunter list returns at most 100 hunters, each one a stored
    document paired with its own id and no id twice; with at most 100
    hunters stored it returns all of them; it reads the store and changes
    nothing. *)
Theorem list_hunters_lists_stored_hunters (w : World) (s : Store) :
  db w = Some s ->
  exists l,
    list_hunters w = (Return l, w)
    /\ length l = Nat.min 100 (size (coll_hunter s))
    /\ NoDup (map fst l)
    /\ (forall oid h, In (oid, h) l -> coll_hunter s !! oid = Some h)
    /\ ((size (coll_hunter s) <= 100)%nat ->
        forall oid h, coll_hunter s !! oid = Some h -> In (oid, h) l).
Proof.
  intros Hdb. exists (take 100 (map_to_list (coll_hunter s))).
  split.
  { unfold list_hunters, bind, check_db, get_db, ret. rewrite Hdb. cbn.
    rewrite Hdb. reflexivity. }
  split; [rewrite length_take, length_map_to_list; reflexivity |].
  split.
  { change (map fst (take 100 (map_to_list (coll_hunter s))))
      with (fst <$> take 100 (map_to_list (coll_hunter s))).
    rewrite fmap_take.
    apply (sublist_NoDup _ (fst <$> map_to_list (coll_hunter s)));
      [apply NoDup_fst_map_to_list | apply sublist_take]. }
  split.
  - intros oid h Hin. apply list_elem_of_In in Hin.
    apply subseteq_take in Hin. apply elem_of_map_to_list in Hin. exact Hin.
  - intros Hsize oid h Hh. apply list_elem_of_In.
    rewrite take_ge by (rewrite length_map_to_list; exact Hsize).
    apply elem_of_map_to_list. exact Hh.
Qed.

(** X22. The profile route only reads: for a stored hunter whose
    threshold next_level_exp(level) is computed, and whose percentage
    int(exp / to_next * 100) is computed (no quotient beyond the range of
    a float), it answers with the stored name, title, level, exp and
    streak and with exp_to_next = next_level_exp(level), and leaves the
    world as it was. The progress is min(100, int(exp / to_next * 100)),
    never above 100; it is 0, without any division, when exp_to_next is
    0, as it is at level 0; exp_to_next is 100 at level 1 and, when the C
    library's pow(x, 1.5) is at least 1 for x >= 1, at least 1 from level
    1 on. *)
Theorem get_profile_reads_the_hunter
    (user_id : string) (w : World) (s : Store) (oid : N) (h : Hunter.t) (req : Z) :
  db w = Some s ->
  ObjectId user_id = Some oid ->
  coll_hunter s !! oid = Some h ->
  next_level_exp pow (Hunter.level h) = Return req ->
  (req = 0 \/ exists p, percent (Hunter.exp h) req = Return p) ->
  exists r,
    get_profile pow ObjectId user_id w = (Return r, w)
    /\ pr_id r = oid
    /\ pr_name r = Hunter.name h
    /\ pr_title r = Hunter.title h
    /\ pr_level r = Hunter.level h
    /\ pr_exp r = Hunter.exp h
    /\ pr_streak r = Hunter.streak h
    /\ pr_exp_to_next r = req
    /\ pr_progress_pct r <= 100
    /\ (req = 0 -> pr_progress_pct r = 0)
    /\ (forall p, req <> 0 -> percent (Hunter.exp h) req = Return p ->
          pr_progress_pct r = Z.min 100 p)
    /\ (Hunter.level h = 0 -> pr_exp_to_next r = 0)
    /\ (Hunter.level h = 1 -> pr_exp_to_next r = 100)
    /\ (pow_at_least_one pow -> 1 <= Hunter.level h -> 1 <= pr_exp_to_next r).
Proof.
  intros Hdb Hoid Hh Hreq Hpercent.
  assert (Hrun : forall progress,
    (if req =? 0 then ret 0
     else bind (lift (percent (Hunter.exp h) req))
               (fun p => ret (Z.min 100 p))) w
    = (Return progress, w) ->
    get_profile pow ObjectId user_id w
    = (Return (Profile oid (Hunter.name h) (Hunter.title h) (Hunter.level h)
                 (Hunter.exp h) req progress (Hunter.streak h)), w)).
  { intros progress Hprogress.
    unfold get_profile. unfold bind at 1. rewrite (check_db_ok _ _ Hdb).
    unfold bind at 1. rewrite (lookup_hunter_found _ _ _ _ _ _ Hdb Hoid Hh).
    unfold bind at 1, lift at 1. rewrite Hreq.
    unfold bind at 1. rewrite Hprogress. reflexivity. }
  assert (Hzero : Hunter.level h = 0 -> req = 0).
  { intros H0. rewrite H0, next_level_exp_0 in Hreq. congruence. }
  assert (Hone : Hunter.level h = 1 -> req = 100).
  { intros H1. rewrite H1, next_level_exp_1 in Hreq. congruence. }
  assert (Hnext : pow_at_least_one pow -> 1 <= Hunter.level h -> 1 <= req)
    by (intros Hpow Hl; exact (next_level_exp_positive pow _ _ Hpow Hl Hreq)).
  destruct (Z.eqb_spec req 0) as [Hz | Hnz].
  - eexists. split; [apply Hrun; reflexivity |].
    cbn [pr_id pr_name pr_title pr_level pr_exp pr_streak pr_exp_to_next
         pr_progress_pct].
    do 7 (split; [reflexivity |]).
    split; [lia |]. split; [reflexivity |].
    split; [intros p Hne; contradiction |].
    split; [exact Hzero |]. split; [exact Hone | exact Hnext].
  - destruct Hpercent as [Hz | [p Hp]]; [contradiction |].
    eexists. split.
    { apply Hrun. unfold bind, lift, ret. rewrite Hp. reflexivity. }
    cbn [pr_id pr_name pr_title pr_level pr_exp pr_streak pr_exp_to_next
         pr_progress_pct].
    do 7 (split; [reflexivity |]).
    split; [lia |]. split; [intros Hz; contradiction |].
    split.
    { intros p' _ Hp'. rewrite Hp in Hp'. injection Hp' as <-. reflexivity. }
    split; [exact Hzero |]. split; [exact Hone | exact Hnext].
Qed.

End HandlerProperties.

(** ** The handlers on concrete requests

    The examples below run the handlers with [pow_rn] for the C library's
    [pow], with [hex_ObjectId], [civil_isoformat] and a clock that ticks
    once per second. *)

Example create_hunter_world1 :
  create_hunter second_clock (CreateHunterRequest.mk "Sung" None) empty_world
  = (Return (sung, 0%N), world1).
Proof. vm_compute. reflexivity. Qed.

(** The thresholds of the first levels, and the first level at which
    double precision leaves floor(100 * L^1.5). *)
Example next_level_exp_first_levels :
  map (next_level_exp pow_rn) [1; 2; 3; 4; 5; 10; 100]
  = map Return [100; 282; 519; 800; 1118; 3162; 100000].
Proof. vm_compute. reflexivity. Qed.

Example next_level_exp_360004 :
  next_level_exp pow_rn level_360004 = Return 21600360001
  /\ required level_360004 = 21600360000.
Proof. split; vm_compute; reflexivity. Qed.

(** The EXP of a workout outside the minutes of the schema: for large
    minutes the product is rounded, and beyond the range of a float it
    raises. *)
Example workout_exp_gain_rounds :
  workout_exp_gain (2 ^ 53 + 1) "normal" = Return 13510798882111488
  /\ Qfloor (inject_Z (2 ^ 53 + 1) * multiplier "normal") = 13510798882111489.
Proof. split; vm_compute; reflexivity. Qed.

(** The percentage of the profile is computed on floats: 29 of 100 is
    0.29 * 100 = 28.999999999999996, shown as 28. *)
Example percent_29_of_100 : percent 29 100 = Return 28.
Proof. vm_compute. reflexivity. Qed.

Example percent_overflows : percent (2 ^ 1100) 3 = Raise OverflowError.
Proof. vm_compute. reflexivity. Qed.

Example workout_exp_gain_overflows :
  workout_exp_gain (2 ^ 1024) "normal" = Raise OverflowError.
Proof. vm_compute. reflexivity. Qed.

(** C8 on the code: the request model accepts minutes = -1, and
    [log_workout] logs that "normal" workout with EXP int(-1.5) = -1, in
    the response and in the Workout record, while floor(-1 * 1.5) = -2:
    [int] truncates toward zero, and the two part for the negative
    minutes that the missing validation lets through. *)
Theorem negative_minutes_exp_is_not_the_floor :
  exists p r w' s' x,
    LogWorkoutRequest.model_validate id0 "run" (-1) (Some "normal") = Some p
    /\ p = workout_minus_1_normal
    /\ log_workout pow_rn hex_ObjectId second_clock p world1 = (Return r, w')
    /\ db w' = Some s'
    /\ coll_workout s' = [x]
    /\ Workout.minutes x = -1
    /\ Workout.exp_awarded x = -1
    /\ wr_exp_gain r = -1
    /\ Qfloor (inject_Z (LogWorkoutRequest.minutes p)
               * multiplier (LogWorkoutRequest.difficulty p))
       = -2
    /\ wr_exp_gain r
       <> Qfloor (inject_Z (LogWorkoutRequest.minutes p)
                  * multiplier (LogWorkoutRequest.difficulty p)).
Proof.
  eexists _, _, _, _, _.
  split; [reflexivity |].
  split; [reflexivity |].
  split; [vm_compute; reflexivity |].
  split; [reflexivity |].
  split; [reflexivity |].
  repeat split. vm_compute. discriminate.
Qed.

(** C3 on the code: the request model accepts minutes = 0 and
    minutes = 301, and [log_workout] then runs as for any other request: it
    updates the hunter and inserts a Workout record that the schema of the
    workout collection (minutes from 1 to 300) rejects. *)
Theorem workout_minutes_out_of_range_are_logged :
  (exists p r w' s' x h',
     LogWorkoutRequest.model_validate id0 "run" 0 None = Some p
     /\ log_workout pow_rn hex_ObjectId second_clock p world1 = (Return r, w')
     /\ r = Workout_logged 0 1 0 false
     /\ db w' = Some s'
     /\ coll_workout s' = [x]
     /\ Workout.minutes x = 0
     /\ Workout.valid x = false
     /\ coll_hunter s' !! 0%N = Some h'
     /\ h' <> sung)
  /\ (exists p r w' s' x h',
        LogWorkoutRequest.model_validate id0 "run" 301 (Some "hard") = Some p
        /\ log_workout pow_rn hex_ObjectId second_clock p world1 = (Return r, w')
        /\ r = Workout_logged 602 3 220 true
        /\ db w' = Some s'
        /\ coll_workout s' = [x]
        /\ Workout.minutes x = 301
        /\ Workout.valid x = false
        /\ coll_hunter s' !! 0%N = Some h'
        /\ Hunter.level h' = 3 /\ Hunter.exp h' = 220).
Proof.
  split.
  - eexists _, _, _, _, _, _.
    split; [reflexivity |].
    split; [vm_compute; reflexivity |].
    split; [reflexivity |].
    split; [reflexivity |].
    split; [reflexivity |].
    split; [reflexivity |].
    split; [reflexivity |].
    split; [vm_compute; reflexivity |].
    discriminate.
  - eexists _, _, _, _, _, _.
    split; [reflexivity |].
    split; [vm_compute; reflexivity |].
    split; [reflexivity |].
    split; [reflexivity |].
    split; [reflexivity |].
    split; [reflexivity |].
    split; [reflexivity |].
    split; [vm_compute; reflexivity |].
    split; reflexivity.
Qed.

(** C2 on the code: a hunter is created and then logs a -10 minute
    "normal" workout; the handler answers "Workout logged" and persists
    exp = -15, a hunter state with exp < 0, in a store reached from the
    empty one through the routes alone. *)
Theorem negative_minutes_persist_negative_exp :
  exists r w2 s2 h2,
    create_hunter second_clock (CreateHunterRequest.mk "Sung" None) empty_world
    = (Return (sung, 0%N), world1)
    /\ log_workout pow_rn hex_ObjectId second_clock workout_minus_10_normal world1
       = (Return r, w2)
    /\ r = Workout_logged (-15) 1 (-15) false
    /\ w2 = serve_all pow_rn hex_ObjectId civil_isoformat second_clock
              [POST_hunters (CreateHunterRequest.mk "Sung" None);
               POST_workouts workout_minus_10_normal] empty_world
    /\ db w2 = Some s2
    /\ coll_hunter s2 !! 0%N = Some h2
    /\ Hunter.level h2 = 1
    /\ Hunter.exp h2 = -15
    /\ Hunter.valid h2 = false
    /\ ~ hunter_normalized pow_rn h2.
Proof.
  eexists _, _, _, _.
  split; [vm_compute; reflexivity |].
  split; [vm_compute; reflexivity |].
  split; [reflexivity |].
  split; [vm_compute; reflexivity |].
  split; [reflexivity |].
  split; [vm_compute; reflexivity |].
  split; [reflexivity |].
  split; [reflexivity |].
  split; [reflexivity |].
  intros [_ [Hexp _]]. cbn in Hexp. lia.
Qed.

(** The second example of the specification: the same hunter logs a
    second 60-minute "normal" workout and reaches level 2 with exp 80. *)
Example second_workout_levels_up :
  exists w',
    log_workout pow_rn hex_ObjectId second_clock workout_60_normal
      (snd (log_workout pow_rn hex_ObjectId second_clock workout_60_normal world1))
    = (Return (Workout_logged 90 2 80 true), w').
Proof. eexists. vm_compute. reflexivity. Qed.

(** One request to each route, from the empty store: the hunter checks
    in (11 EXP), logs 60 minutes (90 EXP, level 2), and completes the
    quest "Run 3 km" (90 EXP). *)
Example session_levels_the_hunter :
  exists s h,
    db (serve_all pow_rn hex_ObjectId civil_isoformat second_clock session
          empty_world)
    = Some s
    /\ coll_hunter s !! 0%N = Some h
    /\ Hunter.level h = 2 /\ Hunter.exp h = 91 /\ Hunter.streak h = 1
    /\ length (coll_workout s) = 1%nat
    /\ length (coll_quest s) = 1%nat
    /\ length (coll_checkin s) = 1%nat.
Proof.
  eexists _, _. split; [vm_compute; reflexivity |].
  split; [vm_compute; reflexivity |]. repeat split.
Qed.

(** ** Where the claims of the specification part from the code *)

(** C1, as stated, fails at level 360004: there
    floor(100 * L^1.5) = 21600360000 while next_level_exp returns
    21600360001, so a hunter at exp 0 awarded 21600360000 EXP stays at
    level 360004 with exp 21600360000, which is not below
    required(360004). *)
Lemma level_up_range_and_conservation_counterexample :
  1 <= level_360004
  /\ 0 <= 0 < required level_360004
  /\ 0 <= award_360004
  /\ (forall loop fuel,
        In loop [daily_checkin_loop pow_rn; log_workout_loop pow_rn;
                 complete_quest_loop pow_rn] ->
        (1 <= fuel)%nat ->
        loop fuel (0 + award_360004) level_360004 false
        = Return (award_360004, level_360004, false))
  /\ ~ (0 <= award_360004 < required level_360004).
Proof.
  split; [unfold level_360004; lia |].
  split; [vm_compute; split; [discriminate | reflexivity] |].
  split; [unfold award_360004; lia |].
  split.
  - intros loop fuel Hloop Hfuel. rewrite (level_up_copies pow_rn loop Hloop).
    apply (daily_checkin_loop_more_fuel pow_rn 1);
      [vm_compute; reflexivity | discriminate | exact Hfuel].
  - vm_compute. intros [_ H]. discriminate H.
Qed.

(** C7, as stated, fails when midnight passes between the two clock
    readings of the handler: the hunter checked in on 2023-11-13 with
    streak 3 and checks in at 23:59:59 on 2023-11-14, which is not a
    same-day no-op and exactly one day after the prior check-in; the
    streak is tested a second later, on 2023-11-15, and is reset to 1
    instead of becoming 4, in the hunter and in the Checkin record dated
    2023-11-14. *)
Lemma checkin_streak_rule_counterexample :
  Hunter.last_checkin sung_yesterday = Some 1699913600
  /\ Hunter.streak sung_yesterday = 3
  /\ civil_isoformat (date 1699913600) = "2023-11-13"
  /\ civil_isoformat (date (midnight_clock (ticks world_yesterday))) = "2023-11-14"
  /\ date (midnight_clock (ticks world_yesterday)) - date 1699913600 = 1
  /\ exists w' s' h' c,
       daily_checkin pow_rn hex_ObjectId civil_isoformat midnight_clock id0
         world_yesterday
       = (Return (Checkin_complete 11 1 1 51 false), w')
       /\ db w' = Some s'
       /\ coll_hunter s' !! 0%N = Some h'
       /\ Hunter.streak h' = 1
       /\ coll_checkin s' = [c]
       /\ Checkin.date c = "2023-11-14"
       /\ Checkin.streak_after c = 1
       /\ Checkin.streak_after c <> Hunter.streak sung_yesterday + 1.
Proof.
  split; [reflexivity |]. split; [reflexivity |].
  split; [vm_compute; reflexivity |]. split; [vm_compute; reflexivity |].
  split; [vm_compute; reflexivity |].
  eexists _, _, _, _.
  split; [vm_compute; reflexivity |].
  split; [reflexivity |].
  split; [vm_compute; reflexivity |].
  split; [reflexivity |].
  split; [reflexivity |].
  split; [reflexivity |].
  split; [reflexivity |].
  vm_compute. discriminate.
Qed.

(** C9, as stated, fails at level 2^53: the threshold is computed from
    the level as a float, 2^53 + 1 is rounded to 2^53, and the two levels
    get the same threshold. *)
Lemma thresholds_positive_and_loop_terminates_counterexample :
  1 <= 2 ^ 53
  /\ 2 ^ 53 < 2 ^ 53 + 1
  /\ next_level_exp pow_rn (2 ^ 53) = Return 85483964500100924666019840
  /\ next_level_exp pow_rn (2 ^ 53 + 1) = Return 85483964500100924666019840
  /\ ~ (threshold pow_rn (2 ^ 53) < threshold pow_rn (2 ^ 53 + 1)).
Proof.
  split; [lia |]. split; [lia |].
  split; [vm_compute; reflexivity |]. split; [vm_compute; reflexivity |].
  vm_compute. discriminate.
Qed.

(** The common function of the three copies is the Leveling Engine over
    the thresholds of the code; over required(L) = floor(100 * L^1.5) it
    is another function at large levels: at level 360004 with exp 0 and
    delta 21600360000 that engine levels up to 360005 with exp 0, while
    each of the three copies stays at level 360004. *)
Example copies_leave_the_engine_over_required :
  daily_checkin_loop pow_rn 2 (0 + award_360004) level_360004 false
  = Return (award_360004, level_360004, false)
  /\ log_workout_loop pow_rn 2 (0 + award_360004) level_360004 false
     = Return (award_360004, level_360004, false)
  /\ complete_quest_loop pow_rn 2 (0 + award_360004) level_360004 false
     = Return (award_360004, level_360004, false)
  /\ engine_outcome (leveling_engine required 2 level_360004 0 award_360004)
     = Return (0, level_360004 + 1, true)
  /\ engine_outcome
       (leveling_engine (threshold pow_rn) 2 level_360004 0 award_360004)
     = Return (award_360004, level_360004, false).
Proof.
  split; [vm_compute; reflexivity |].
  split; [vm_compute; reflexivity |].
  split; [vm_compute; reflexivity |].
  split; [vm_compute; reflexivity |].
  vm_compute. reflexivity.
Qed.

(** ** The theorems at concrete inputs *)

Lemma level_up_range_and_conservation_witness :
  In (daily_checkin_loop pow_rn)
     [daily_checkin_loop pow_rn; log_workout_loop pow_rn;
      complete_quest_loop pow_rn]
  /\ 1 <= 1 /\ 0 <= 90 /\ 0 <= 90
  /\ (loop_fuel (90 + 90) <= loop_fuel (90 + 90))%nat
  /\ thresholds_return pow_rn 1 (1 + (90 + 90))
  /\ exists new_exp new_level leveled_up req,
       daily_checkin_loop pow_rn (loop_fuel (90 + 90)) (90 + 90) 1 false
       = Return (new_exp, new_level, leveled_up)
       /\ next_level_exp pow_rn new_level = Return req
       /\ 0 <= new_exp < req
       /\ 1 <= new_level <= 1 + (90 + 90)
       /\ 90 + 90
          = new_exp
            + consumed (threshold pow_rn) 1 (Z.to_nat (new_level - 1))
       /\ (forall L, 1 <= L < new_level ->
             next_level_exp pow_rn L = Return (threshold pow_rn L)
             /\ 1 <= threshold pow_rn L).
Proof.
  assert (H1 : In (daily_checkin_loop pow_rn)
                 [daily_checkin_loop pow_rn; log_workout_loop pow_rn;
                  complete_quest_loop pow_rn])
    by (left; reflexivity).
  assert (H2 : 1 <= 1) by lia.
  assert (H3 : 0 <= 90) by lia.
  assert (H5 : (loop_fuel (90 + 90) <= loop_fuel (90 + 90))%nat) by lia.
  assert (H6 : thresholds_return pow_rn 1 (1 + (90 + 90)))
    by (apply (thresholds_return_from_sound pow_rn 1 200);
        [vm_compute; reflexivity | lia]).
  repeat (split; [assumption |]).
  exact (level_up_range_and_conservation pow_rn (daily_checkin_loop pow_rn)
           (loop_fuel (90 + 90)) 1 90 90 H1 H2 H3 H3 H5 H6).
Defined.

Lemma thresholds_positive_and_loop_terminates_witness :
  pow_at_least_one pow_rn
  /\ (required 1 = 100
      /\ (forall L, 1 <= L -> 0 < required L)
      /\ (forall a b, 1 <= a -> a < b -> required a < required b))
  /\ next_level_exp pow_rn 1 = Return 100
  /\ (forall L req, 1 <= L -> next_level_exp pow_rn L = Return req -> 0 < req)
  /\ next_level_exp pow_rn (2 ^ 53 + 1) = next_level_exp pow_rn (2 ^ 53)
  /\ (forall loop level exp delta,
        In loop [daily_checkin_loop pow_rn; log_workout_loop pow_rn;
                 complete_quest_loop pow_rn] ->
        1 <= level -> 0 <= exp -> 0 <= delta ->
        exists n o,
          o <> Diverge
          /\ (forall fuel, (n <= fuel)%nat ->
                loop fuel (exp + delta) level false = o)
          /\ (thresholds_return pow_rn level (level + (exp + delta)) ->
              exists r, o = Return r)).
Proof.
  assert (H1 : pow_at_least_one pow_rn) by exact pow_rn_at_least_one.
  split; [exact H1 |].
  exact (thresholds_positive_and_loop_terminates pow_rn H1).
Defined.


Lemma checkin_same_day_is_noop_witness :
  db world_today = Some store_today
  /\ hex_ObjectId id0 = Some 0%N
  /\ coll_hunter store_today !! 0%N = Some sung_today
  /\ Hunter.last_checkin sung_today = Some 1700000003
  /\ date 1700000003 = date (second_clock (ticks world_today))
  /\ exists r w',
       daily_checkin pow_rn hex_ObjectId civil_isoformat second_clock id0 world_today
       = (Return r, w')
       /\ r = Already_checked_in (Hunter.streak sung_today)
                (Hunter.level sung_today) (Hunter.exp sung_today)
       /\ checkin_message r = "Already checked in today"
       /\ db w' = Some store_today.
Proof.
  assert (H1 : db world_today = Some store_today) by reflexivity.
  assert (H2 : hex_ObjectId id0 = Some 0%N) by reflexivity.
  assert (H3 : coll_hunter store_today !! 0%N = Some sung_today) by reflexivity.
  assert (H4 : Hunter.last_checkin sung_today = Some 1700000003) by reflexivity.
  assert (H5 : date 1700000003 = date (second_clock (ticks world_today)))
    by reflexivity.
  repeat (split; [assumption |]).
  exact (checkin_same_day_is_noop pow_rn hex_ObjectId civil_isoformat second_clock
           id0 world_today store_today 0%N sung_today 1700000003
           H1 H2 H3 H4 H5).
Defined.

Lemma checkin_streak_rule_witness :
  db world_yesterday = Some store_yesterday
  /\ hex_ObjectId id0 = Some 0%N
  /\ coll_hunter store_yesterday !! 0%N = Some sung_yesterday
  /\ 1 <= Hunter.level sung_yesterday
  /\ (forall last, Hunter.last_checkin sung_yesterday = Some last ->
        civil_isoformat (date last)
        <> civil_isoformat (date (second_clock (ticks world_yesterday))))
  /\ thresholds_return pow_rn (Hunter.level sung_yesterday)
       (Hunter.level sung_yesterday + Z.max (Hunter.exp sung_yesterday) 0 + 30)
  /\ exists exp_gain new_streak level exp leveled_up w' s' h' c,
       daily_checkin pow_rn hex_ObjectId civil_isoformat second_clock id0
         world_yesterday
       = (Return (Checkin_complete exp_gain new_streak level exp leveled_up), w')
       /\ (Hunter.last_checkin sung_yesterday = None -> new_streak = 1)
       /\ (forall last, Hunter.last_checkin sung_yesterday = Some last ->
             date (second_clock (S (ticks world_yesterday))) - date last = 1 ->
             new_streak = Hunter.streak sung_yesterday + 1)
       /\ (forall last, Hunter.last_checkin sung_yesterday = Some last ->
             date (second_clock (S (ticks world_yesterday))) - date last > 1 ->
             new_streak = 1)
       /\ db w' = Some s'
       /\ coll_hunter s' !! 0%N = Some h'
       /\ Hunter.streak h' = new_streak
       /\ coll_checkin s' = (coll_checkin store_yesterday ++ [c])%list
       /\ Checkin.user_id c = id0
       /\ Checkin.date c
          = civil_isoformat (date (second_clock (ticks world_yesterday)))
       /\ Checkin.streak_after c = new_streak.
Proof.
  assert (H1 : db world_yesterday = Some store_yesterday) by reflexivity.
  assert (H2 : hex_ObjectId id0 = Some 0%N) by reflexivity.
  assert (H3 : coll_hunter store_yesterday !! 0%N = Some sung_yesterday)
    by reflexivity.
  assert (H4 : 1 <= Hunter.level sung_yesterday) by (simpl; lia).
  assert (H5 : forall last, Hunter.last_checkin sung_yesterday = Some last ->
                 civil_isoformat (date last)
                 <> civil_isoformat (date (second_clock (ticks world_yesterday))))
    by (intros last [= <-]; vm_compute; discriminate).
  assert (H6 : thresholds_return pow_rn (Hunter.level sung_yesterday)
                 (Hunter.level sung_yesterday
                  + Z.max (Hunter.exp sung_yesterday) 0 + 30))
    by (apply (thresholds_return_from_sound pow_rn 1 100);
        [vm_compute; reflexivity | simpl; lia]).
  repeat (split; [assumption |]).
  exact (checkin_streak_rule pow_rn hex_ObjectId civil_isoformat second_clock
           id0 world_yesterday store_yesterday 0%N sung_yesterday
           H1 H2 H3 H4 H5 H6).
Defined.

Lemma complete_quest_is_idempotent_witness :
  db world_quest_done = Some store_quest_done
  /\ date_or_today civil_isoformat second_clock (complete_today id0)
       world_quest_done
     = (Return "2023-11-14", mkWorld (Some store_quest_done) 6)
  /\ find_one (Quest.matches
                 (CompleteQuestRequest.user_id (complete_today id0)) "2023-11-14")
              (coll_quest store_quest_done)
     = Some (O, quest_run id0 true)
  /\ Quest.completed (quest_run id0 true) = true
  /\ exists r w',
       complete_quest pow_rn hex_ObjectId civil_isoformat second_clock
         (complete_today id0) world_quest_done = (Return r, w')
       /\ r = Quest_already_completed (Quest.exp_reward (quest_run id0 true))
       /\ complete_message r = "Quest already completed"
       /\ db w' = Some store_quest_done.
Proof.
  assert (H1 : db world_quest_done = Some store_quest_done) by reflexivity.
  assert (H2 : date_or_today civil_isoformat second_clock (complete_today id0)
                 world_quest_done
               = (Return "2023-11-14", mkWorld (Some store_quest_done) 6))
    by reflexivity.
  assert (H3 : find_one (Quest.matches
                 (CompleteQuestRequest.user_id (complete_today id0)) "2023-11-14")
                 (coll_quest store_quest_done)
               = Some (O, quest_run id0 true)) by reflexivity.
  assert (H4 : Quest.completed (quest_run id0 true) = true) by reflexivity.
  repeat (split; [assumption |]).
  exact (complete_quest_is_idempotent pow_rn hex_ObjectId civil_isoformat second_clock
           (complete_today id0) world_quest_done _ store_quest_done
           "2023-11-14" O (quest_run id0 true) H1 H2 H3 H4).
Defined.

Lemma complete_quest_marks_quest_before_hunter_lookup_witness :
  db world_quest_orphan = Some store_quest_orphan
  /\ date_or_today civil_isoformat second_clock (complete_today "ghost")
       world_quest_orphan
     = (Return "2023-11-14", mkWorld (Some store_quest_orphan) 6)
  /\ find_one (Quest.matches
                 (CompleteQuestRequest.user_id (complete_today "ghost"))
                 "2023-11-14")
              (coll_quest store_quest_orphan)
     = Some (O, quest_run "ghost" false)
  /\ Quest.completed (quest_run "ghost" false) = false
  /\ (hex_ObjectId (CompleteQuestRequest.user_id (complete_today "ghost")) = None
      \/ exists oid,
           hex_ObjectId (CompleteQuestRequest.user_id (complete_today "ghost"))
           = Some oid
           /\ coll_hunter store_quest_orphan !! oid = None)
  /\ exists status detail w' s' q',
       complete_quest pow_rn hex_ObjectId civil_isoformat second_clock
         (complete_today "ghost") world_quest_orphan
       = (Raise (HTTPException status detail), w')
       /\ (status, detail)
          = match hex_ObjectId
                    (CompleteQuestRequest.user_id (complete_today "ghost")) with
            | None => (400, "Invalid user id")
            | Some _ => (404, "Hunter not found")
            end
       /\ db w' = Some s'
       /\ coll_hunter s' = coll_hunter store_quest_orphan
       /\ coll_quest s' !! O = Some q'
       /\ Quest.completed q' = true
       /\ Quest.exp_reward q' = Quest.exp_reward (quest_run "ghost" false)
       /\ (forall payload' w1',
             CompleteQuestRequest.user_id payload'
             = CompleteQuestRequest.user_id (complete_today "ghost") ->
             date_or_today civil_isoformat second_clock payload' w'
             = (Return "2023-11-14", w1') ->
             exists w'',
               complete_quest pow_rn hex_ObjectId civil_isoformat second_clock payload' w'
               = (Return (Quest_already_completed
                            (Quest.exp_reward (quest_run "ghost" false))), w'')
               /\ db w'' = Some s').
Proof.
  assert (H1 : db world_quest_orphan = Some store_quest_orphan) by reflexivity.
  assert (H2 : date_or_today civil_isoformat second_clock (complete_today "ghost")
                 world_quest_orphan
               = (Return "2023-11-14", mkWorld (Some store_quest_orphan) 6))
    by reflexivity.
  assert (H3 : find_one (Quest.matches
                 (CompleteQuestRequest.user_id (complete_today "ghost"))
                 "2023-11-14")
                 (coll_quest store_quest_orphan)
               = Some (O, quest_run "ghost" false)) by reflexivity.
  assert (H4 : Quest.completed (quest_run "ghost" false) = false) by reflexivity.
  assert (H5 : hex_ObjectId (CompleteQuestRequest.user_id (complete_today "ghost"))
               = None
               \/ exists oid,
                    hex_ObjectId
                      (CompleteQuestRequest.user_id (complete_today "ghost"))
                    = Some oid
                    /\ coll_hunter store_quest_orphan !! oid = None)
    by (left; reflexivity).
  repeat (split; [assumption |]).
  exact (complete_quest_marks_quest_before_hunter_lookup
           pow_rn hex_ObjectId civil_isoformat second_clock
           (complete_today "ghost") world_quest_orphan _ store_quest_orphan
           "2023-11-14" O (quest_run "ghost" false) H1 H2 H3 H4 H5).
Defined.

Lemma level_up_is_additive_witness :
  In (log_workout_loop pow_rn)
     [daily_checkin_loop pow_rn; log_workout_loop pow_rn;
      complete_quest_loop pow_rn]
  /\ 1 <= 1 /\ 0 <= 0 /\ 0 <= 90 /\ 0 <= 90
  /\ thresholds_return pow_rn 1 (1 + (0 + 90 + 90))
  /\ exists exp1 level1 up1 exp2 level2 up2,
       log_workout_loop pow_rn (loop_fuel (0 + 90)) (0 + 90) 1 false
       = Return (exp1, level1, up1)
       /\ log_workout_loop pow_rn (loop_fuel (exp1 + 90)) (exp1 + 90) level1 false
          = Return (exp2, level2, up2)
       /\ log_workout_loop pow_rn (loop_fuel (0 + 90 + 90)) (0 + 90 + 90) 1 false
          = Return (exp2, level2, up1 || up2).
Proof.
  assert (H0 : In (log_workout_loop pow_rn)
                 [daily_checkin_loop pow_rn; log_workout_loop pow_rn;
                  complete_quest_loop pow_rn])
    by (right; left; reflexivity).
  assert (H1 : 1 <= 1) by lia.
  assert (H2 : 0 <= 0) by lia.
  assert (H3 : 0 <= 90) by lia.
  assert (H4 : thresholds_return pow_rn 1 (1 + (0 + 90 + 90)))
    by (apply (thresholds_return_from_sound pow_rn 1 200);
        [vm_compute; reflexivity | lia]).
  repeat (split; [assumption |]).
  exact (level_up_is_additive pow_rn (log_workout_loop pow_rn) 1 0 90 90
           H0 H1 H2 H3 H3 H4).
Defined.

Lemma small_levels_follow_the_specification_witness :
  In (complete_quest_loop pow_rn)
     [daily_checkin_loop pow_rn; log_workout_loop pow_rn;
      complete_quest_loop pow_rn]
  /\ 1 <= 1 /\ 0 <= 90 /\ 0 <= 90 /\ 1 + (90 + 90) <= 10000
  /\ exists new_exp new_level leveled_up,
       complete_quest_loop pow_rn (loop_fuel (90 + 90)) (90 + 90) 1 false
       = Return (new_exp, new_level, leveled_up)
       /\ 0 <= new_exp < required new_level
       /\ 1 <= new_level
       /\ 90 + 90
          = new_exp + consumed required 1 (Z.to_nat (new_level - 1))
       /\ (leveled_up = true <-> 1 < new_level)
       /\ engine_outcome
            (leveling_engine required (loop_fuel (90 + 90)) 1 90 90)
          = Return (new_exp, new_level, leveled_up).
Proof.
  assert (H0 : In (complete_quest_loop pow_rn)
                 [daily_checkin_loop pow_rn; log_workout_loop pow_rn;
                  complete_quest_loop pow_rn])
    by (right; right; left; reflexivity).
  assert (H1 : 1 <= 1) by lia.
  assert (H2 : 0 <= 90) by lia.
  assert (H3 : 1 + (90 + 90) <= 10000) by lia.
  repeat (split; [assumption |]).
  exact (proj2 (proj2 (small_levels_follow_the_specification
                         (complete_quest_loop pow_rn) 1 90 90 H0 H1 H2 H2 H3))).
Defined.

(** ** The properties above at concrete requests *)

Lemma hunters_stay_normalized_witness :
  Forall minutes_nonnegative session
  /\ exists s,
       db (serve_all pow_rn hex_ObjectId civil_isoformat second_clock session
             empty_world)
       = Some s
       /\ forall oid h, coll_hunter s !! oid = Some h ->
            1 <= Hunter.level h
            /\ 0 <= Hunter.exp h
            /\ exists req, next_level_exp pow_rn (Hunter.level h) = Return req
                           /\ Hunter.exp h < req.
Proof.
  assert (H1 : Forall minutes_nonnegative session)
    by (repeat constructor; simpl; lia).
  split; [exact H1 |].
  exact (hunters_stay_normalized pow_rn hex_ObjectId civil_isoformat
           second_clock session H1).
Defined.

Lemma hunters_are_never_lost_witness :
  db world1 = Some store1
  /\ coll_hunter store1 !! 0%N = Some sung
  /\ exists s' h',
       db (serve_all pow_rn hex_ObjectId civil_isoformat second_clock session world1)
       = Some s'
       /\ coll_hunter s' !! 0%N = Some h'
       /\ Hunter.name h' = Hunter.name sung
       /\ Hunter.title h' = Hunter.title sung
       /\ Hunter.created_at h' = Hunter.created_at sung
       /\ Hunter.level sung <= Hunter.level h'.
Proof.
  assert (H1 : db world1 = Some store1) by reflexivity.
  assert (H2 : coll_hunter store1 !! 0%N = Some sung) by reflexivity.
  repeat (split; [assumption |]).
  exact (hunters_are_never_lost pow_rn hex_ObjectId civil_isoformat second_clock
           session world1 store1 0%N sung H1 H2).
Defined.

Lemma logs_are_append_only_witness :
  db world_today = Some store_today
  /\ exists s' workouts checkins,
       db (serve_all pow_rn hex_ObjectId civil_isoformat second_clock session
             world_today)
       = Some s'
       /\ coll_workout s' = (coll_workout store_today ++ workouts)%list
       /\ coll_checkin s' = (coll_checkin store_today ++ checkins)%list
       /\ (length workouts + length checkins <= length session)%nat.
Proof.
  assert (H1 : db world_today = Some store_today) by reflexivity.
  repeat (split; [assumption |]).
  exact (logs_are_append_only pow_rn hex_ObjectId civil_isoformat second_clock
           session world_today store_today H1).
Defined.

Lemma quests_are_never_lost_witness :
  db world_quest_done = Some store_quest_done
  /\ coll_quest store_quest_done !! O = Some (quest_run id0 true)
  /\ exists s' q',
       db (serve_all pow_rn hex_ObjectId civil_isoformat second_clock session
             world_quest_done)
       = Some s'
       /\ coll_quest s' !! O = Some q'
       /\ Quest.user_id q' = Quest.user_id (quest_run id0 true)
       /\ Quest.date q' = Quest.date (quest_run id0 true)
       /\ Quest.title q' = Quest.title (quest_run id0 true)
       /\ Quest.exp_reward q' = Quest.exp_reward (quest_run id0 true)
       /\ (Quest.completed (quest_run id0 true) = true ->
           Quest.completed q' = true).
Proof.
  assert (H1 : db world_quest_done = Some store_quest_done) by reflexivity.
  assert (H2 : coll_quest store_quest_done !! O = Some (quest_run id0 true))
    by reflexivity.
  repeat (split; [assumption |]).
  exact (quests_are_never_lost pow_rn hex_ObjectId civil_isoformat second_clock
           session world_quest_done store_quest_done O (quest_run id0 true)
           H1 H2).
Defined.

Lemma request_touches_one_hunter_witness :
  db world1 = Some store1
  /\ exists s' oid0,
       db (serve pow_rn hex_ObjectId civil_isoformat second_clock
             (POST_workouts workout_60_normal) world1)
       = Some s'
       /\ forall oid, oid <> oid0 ->
            coll_hunter s' !! oid = coll_hunter store1 !! oid.
Proof.
  assert (H1 : db world1 = Some store1) by reflexivity.
  repeat (split; [assumption |]).
  exact (request_touches_one_hunter pow_rn hex_ObjectId civil_isoformat second_clock
           (POST_workouts workout_60_normal) world1 store1 H1).
Defined.

Lemma persisted_documents_pass_their_schemas_witness :
  Forall minutes_in_range session
  /\ exists s,
       db (serve_all pow_rn hex_ObjectId civil_isoformat second_clock session
             empty_world)
       = Some s
       /\ (forall oid h, coll_hunter s !! oid = Some h -> Hunter.valid h = true)
       /\ Forall (fun x => Workout.valid x = true) (coll_workout s)
       /\ Forall (fun q => Quest.valid q = true) (coll_quest s)
       /\ Forall (fun c => Checkin.valid c = true) (coll_checkin s).
Proof.
  assert (H1 : Forall minutes_in_range session)
    by (repeat constructor; simpl; lia).
  repeat (split; [assumption |]).
  exact (persisted_documents_pass_their_schemas
           pow_rn hex_ObjectId civil_isoformat second_clock session H1).
Defined.

Lemma create_hunter_stores_a_fresh_hunter_witness :
  db world1 = Some store1
  /\ exists hunter oid w' s',
       create_hunter second_clock (CreateHunterRequest.mk "Jin" (Some "Rookie"))
         world1
       = (Return (hunter, oid), w')
       /\ db w' = Some s'
       /\ Hunter.name hunter = "Jin"
       /\ Hunter.title hunter = Some "Rookie"
       /\ Hunter.level hunter = 1
       /\ Hunter.exp hunter = 0
       /\ Hunter.streak hunter = 0
       /\ Hunter.last_checkin hunter = None
       /\ coll_hunter store1 !! oid = None
       /\ coll_hunter s' !! oid = Some hunter
       /\ (forall oid', oid' <> oid ->
             coll_hunter s' !! oid' = coll_hunter store1 !! oid')
       /\ coll_workout s' = coll_workout store1
       /\ coll_quest s' = coll_quest store1
       /\ coll_checkin s' = coll_checkin store1.
Proof.
  assert (H1 : db world1 = Some store1) by reflexivity.
  repeat (split; [assumption |]).
  exact (create_hunter_stores_a_fresh_hunter second_clock
           (CreateHunterRequest.mk "Jin" (Some "Rookie")) world1 store1 H1).
Defined.

Lemma no_database_is_a_500_witness :
  db world_no_db = None
  /\ (forall payload,
        create_hunter second_clock payload world_no_db
        = (Raise (HTTPException 500 "Database not configured"), world_no_db))
  /\ list_hunters world_no_db
     = (Raise (HTTPException 500 "Database not configured"), world_no_db)
  /\ (forall user_id,
        daily_checkin pow_rn hex_ObjectId civil_isoformat second_clock user_id
          world_no_db
        = (Raise (HTTPException 500 "Database not configured"), world_no_db))
  /\ (forall payload,
        log_workout pow_rn hex_ObjectId second_clock payload world_no_db
        = (Raise (HTTPException 500 "Database not configured"), world_no_db))
  /\ (forall r user_id,
        get_daily_quests hex_ObjectId civil_isoformat second_clock r user_id
          world_no_db
        = (Raise (HTTPException 500 "Database not configured"), world_no_db))
  /\ (forall payload,
        complete_quest pow_rn hex_ObjectId civil_isoformat second_clock payload
          world_no_db
        = (Raise (HTTPException 500 "Database not configured"), world_no_db))
  /\ (forall user_id,
        get_profile pow_rn hex_ObjectId user_id world_no_db
        = (Raise (HTTPException 500 "Database not configured"), world_no_db)).
Proof.
  assert (H1 : db world_no_db = None) by reflexivity.
  repeat (split; [assumption |]).
  exact (no_database_is_a_500 pow_rn hex_ObjectId civil_isoformat second_clock world_no_db H1).
Defined.

Lemma unknown_hunter_is_rejected_witness :
  db world1 = Some store1
  /\ (hex_ObjectId id1 = None
      \/ exists oid, hex_ObjectId id1 = Some oid
                     /\ coll_hunter store1 !! oid = None)
  /\ daily_checkin pow_rn hex_ObjectId civil_isoformat second_clock id1 world1
     = (Raise (HTTPException 404 "Hunter not found"), world1)
  /\ (forall payload, LogWorkoutRequest.user_id payload = id1 ->
        log_workout pow_rn hex_ObjectId second_clock payload world1
        = (match workout_exp_gain (LogWorkoutRequest.minutes payload)
                                  (LogWorkoutRequest.difficulty payload) with
           | Return _ => Raise (HTTPException 404 "Hunter not found")
           | Raise overflow => Raise overflow
           | Diverge => Diverge
           end, world1))
  /\ (forall payload, LogWorkoutRequest.user_id payload = id1 ->
        1 <= LogWorkoutRequest.minutes payload <= 300 ->
        log_workout pow_rn hex_ObjectId second_clock payload world1
        = (Raise (HTTPException 404 "Hunter not found"), world1))
  /\ (forall r,
        get_daily_quests hex_ObjectId civil_isoformat second_clock r id1 world1
        = (Raise (HTTPException 404 "Hunter not found"), world1))
  /\ get_profile pow_rn hex_ObjectId id1 world1
     = (Raise (HTTPException 404 "Hunter not found"), world1).
Proof.
  assert (H1 : db world1 = Some store1) by reflexivity.
  assert (H2 : hex_ObjectId id1 = None
               \/ exists oid, hex_ObjectId id1 = Some oid
                              /\ coll_hunter store1 !! oid = None)
    by (right; exists 1%N; split; reflexivity).
  repeat (split; [assumption |]).
  exact (unknown_hunter_is_rejected pow_rn hex_ObjectId civil_isoformat
           second_clock id1 world1 store1 H1 H2).
Defined.

Lemma complete_quest_without_quest_witness :
  db world1 = Some store1
  /\ date_or_today civil_isoformat second_clock (complete_today "ghost") world1
     = (Return "2023-11-14", mkWorld (Some store1) 3)
  /\ find_one (Quest.matches
                 (CompleteQuestRequest.user_id (complete_today "ghost"))
                 "2023-11-14")
              (coll_quest store1)
     = None
  /\ complete_quest pow_rn hex_ObjectId civil_isoformat second_clock
       (complete_today "ghost") world1
     = (Raise (HTTPException 404 "Quest not found for today"),
        mkWorld (Some store1) 3)
  /\ db (mkWorld (Some store1) 3) = Some store1.
Proof.
  assert (H1 : db world1 = Some store1) by reflexivity.
  assert (H2 : date_or_today civil_isoformat second_clock
                 (complete_today "ghost") world1
               = (Return "2023-11-14", mkWorld (Some store1) 3))
    by reflexivity.
  assert (H3 : find_one (Quest.matches
                 (CompleteQuestRequest.user_id (complete_today "ghost"))
                 "2023-11-14")
                 (coll_quest store1)
               = None) by reflexivity.
  repeat (split; [assumption |]).
  exact (complete_quest_without_quest pow_rn hex_ObjectId civil_isoformat second_clock
           (complete_today "ghost") world1 _ store1 "2023-11-14" H1 H2 H3).
Defined.

Lemma get_daily_quests_creates_from_catalog_witness :
  db world1 = Some store1
  /\ hex_ObjectId id0 = Some 0%N
  /\ coll_hunter store1 !! 0%N = Some sung
  /\ find_one (Quest.matches id0
                 (civil_isoformat (date (second_clock (ticks world1)))))
              (coll_quest store1)
     = None
  /\ exists qid quest w' s',
       get_daily_quests hex_ObjectId civil_isoformat second_clock 1 id0 world1
       = (Return (qid, quest), w')
       /\ db w' = Some s'
       /\ coll_quest s' = (coll_quest store1 ++ [quest])%list
       /\ coll_quest s' !! qid = Some quest
       /\ Quest.user_id quest = id0
       /\ Quest.date quest
          = civil_isoformat (date (second_clock (ticks world1)))
       /\ Quest.completed quest = false
       /\ In (Quest.title quest, Quest.exp_reward quest) base
       /\ In (Quest.exp_reward quest) [75; 90; 40; 60]
       /\ coll_hunter s' = coll_hunter store1
       /\ coll_workout s' = coll_workout store1
       /\ coll_checkin s' = coll_checkin store1.
Proof.
  assert (H1 : db world1 = Some store1) by reflexivity.
  assert (H2 : hex_ObjectId id0 = Some 0%N) by reflexivity.
  assert (H3 : coll_hunter store1 !! 0%N = Some sung) by reflexivity.
  assert (H4 : find_one (Quest.matches id0
                 (civil_isoformat (date (second_clock (ticks world1)))))
                 (coll_quest store1)
               = None) by reflexivity.
  repeat (split; [assumption |]).
  exact (get_daily_quests_creates_from_catalog
           hex_ObjectId civil_isoformat second_clock 1 id0 world1 store1
           0%N sung H1 H2 H3 H4).
Defined.

Lemma get_daily_quests_same_day_same_quest_witness :
  db world1 = Some store1
  /\ hex_ObjectId id0 = Some 0%N
  /\ coll_hunter store1 !! 0%N = Some sung
  /\ exists q w1 w2,
       get_daily_quests hex_ObjectId civil_isoformat second_clock 1 id0 world1
       = (Return q, w1)
       /\ (civil_isoformat (date (second_clock (ticks w1)))
           = civil_isoformat (date (second_clock (ticks world1))) ->
           get_daily_quests hex_ObjectId civil_isoformat second_clock 2 id0 w1
           = (Return q, w2)
           /\ db w2 = db w1).
Proof.
  assert (H1 : db world1 = Some store1) by reflexivity.
  assert (H2 : hex_ObjectId id0 = Some 0%N) by reflexivity.
  assert (H3 : coll_hunter store1 !! 0%N = Some sung) by reflexivity.
  repeat (split; [assumption |]).
  exact (get_daily_quests_same_day_same_quest
           hex_ObjectId civil_isoformat second_clock 1 2 id0 world1 store1
           0%N sung H1 H2 H3).
Defined.

Lemma complete_quest_awards_the_reward_witness :
  db world_quest_open = Some store_quest_open
  /\ date_or_today civil_isoformat second_clock (complete_today id0)
       world_quest_open
     = (Return "2023-11-14", mkWorld (Some store_quest_open) 6)
  /\ find_one (Quest.matches
                 (CompleteQuestRequest.user_id (complete_today id0))
                 "2023-11-14")
              (coll_quest store_quest_open)
     = Some (O, quest_run id0 false)
  /\ Quest.completed (quest_run id0 false) = false
  /\ hex_ObjectId (CompleteQuestRequest.user_id (complete_today id0))
     = Some 0%N
  /\ coll_hunter store_quest_open !! 0%N = Some sung
  /\ 1 <= Hunter.level sung
  /\ 0 <= Hunter.exp sung
  /\ 0 <= Quest.exp_reward (quest_run id0 false)
  /\ thresholds_return pow_rn (Hunter.level sung)
       (Hunter.level sung
        + (Hunter.exp sung + Quest.exp_reward (quest_run id0 false)))
  /\ exists level exp leveled_up w' s' h' q' req,
       complete_quest pow_rn hex_ObjectId civil_isoformat second_clock
         (complete_today id0) world_quest_open
       = (Return (Quest_completed (Quest.exp_reward (quest_run id0 false))
                                  level exp leveled_up), w')
       /\ db w' = Some s'
       /\ coll_hunter s' !! 0%N = Some h'
       /\ Hunter.level h' = level
       /\ Hunter.exp h' = exp
       /\ Hunter.streak h' = Hunter.streak sung
       /\ Hunter.last_checkin h' = Hunter.last_checkin sung
       /\ Hunter.level sung <= level
       /\ next_level_exp pow_rn level = Return req
       /\ 0 <= exp < req
       /\ Hunter.exp sung + Quest.exp_reward (quest_run id0 false)
          = exp + consumed (threshold pow_rn) (Hunter.level sung)
                    (Z.to_nat (level - Hunter.level sung))
       /\ (leveled_up = true <-> Hunter.level sung < level)
       /\ coll_quest s' !! O = Some q'
       /\ Quest.completed q' = true
       /\ Quest.exp_reward q' = Quest.exp_reward (quest_run id0 false)
       /\ coll_workout s' = coll_workout store_quest_open
       /\ coll_checkin s' = coll_checkin store_quest_open.
Proof.
  assert (H1 : db world_quest_open = Some store_quest_open) by reflexivity.
  assert (H2 : date_or_today civil_isoformat second_clock (complete_today id0)
                 world_quest_open
               = (Return "2023-11-14", mkWorld (Some store_quest_open) 6))
    by reflexivity.
  assert (H3 : find_one (Quest.matches
                 (CompleteQuestRequest.user_id (complete_today id0))
                 "2023-11-14")
                 (coll_quest store_quest_open)
               = Some (O, quest_run id0 false)) by reflexivity.
  assert (H4 : Quest.completed (quest_run id0 false) = false) by reflexivity.
  assert (H5 : hex_ObjectId (CompleteQuestRequest.user_id (complete_today id0))
               = Some 0%N) by reflexivity.
  assert (H6 : coll_hunter store_quest_open !! 0%N = Some sung) by reflexivity.
  assert (H7 : 1 <= Hunter.level sung) by (simpl; lia).
  assert (H8 : 0 <= Hunter.exp sung) by (simpl; lia).
  assert (H9 : 0 <= Quest.exp_reward (quest_run id0 false)) by (simpl; lia).
  assert (H10 : thresholds_return pow_rn (Hunter.level sung)
                  (Hunter.level sung
                   + (Hunter.exp sung + Quest.exp_reward (quest_run id0 false))))
    by (apply (thresholds_return_from_sound pow_rn 1 100);
        [vm_compute; reflexivity | simpl; lia]).
  repeat (split; [assumption |]).
  exact (complete_quest_awards_the_reward
           pow_rn hex_ObjectId civil_isoformat second_clock (complete_today id0)
           world_quest_open _ store_quest_open "2023-11-14" O
           (quest_run id0 false) 0%N sung H1 H2 H3 H4 H5 H6 H7 H8 H9 H10).
Defined.

Lemma log_workout_levels_the_hunter_witness :
  db world1 = Some store1
  /\ hex_ObjectId (LogWorkoutRequest.user_id workout_60_normal) = Some 0%N
  /\ coll_hunter store1 !! 0%N = Some sung
  /\ 1 <= Hunter.level sung
  /\ 0 <= Hunter.exp sung
  /\ 0 <= LogWorkoutRequest.minutes workout_60_normal
  /\ workout_exp_gain (LogWorkoutRequest.minutes workout_60_normal)
                      (LogWorkoutRequest.difficulty workout_60_normal)
     = Return 90
  /\ thresholds_return pow_rn (Hunter.level sung)
       (Hunter.level sung + (Hunter.exp sung + 90))
  /\ exists r w' s' h' req,
       log_workout pow_rn hex_ObjectId second_clock workout_60_normal world1
       = (Return r, w')
       /\ db w' = Some s'
       /\ coll_hunter s' !! 0%N = Some h'
       /\ Hunter.level h' = wr_level r
       /\ Hunter.exp h' = wr_exp r
       /\ Hunter.name h' = Hunter.name sung
       /\ Hunter.streak h' = Hunter.streak sung
       /\ Hunter.last_checkin h' = Hunter.last_checkin sung
       /\ wr_exp_gain r = 90
       /\ 0 <= 90
       /\ Hunter.level sung <= wr_level r
       /\ next_level_exp pow_rn (wr_level r) = Return req
       /\ 0 <= wr_exp r < req
       /\ Hunter.exp sung + wr_exp_gain r
          = wr_exp r
            + consumed (threshold pow_rn) (Hunter.level sung)
                (Z.to_nat (wr_level r - Hunter.level sung))
       /\ (wr_leveled_up r = true <-> Hunter.level sung < wr_level r)
       /\ coll_quest s' = coll_quest store1
       /\ coll_checkin s' = coll_checkin store1.
Proof.
  assert (H1 : db world1 = Some store1) by reflexivity.
  assert (H2 : hex_ObjectId (LogWorkoutRequest.user_id workout_60_normal)
               = Some 0%N) by reflexivity.
  assert (H3 : coll_hunter store1 !! 0%N = Some sung) by reflexivity.
  assert (H4 : 1 <= Hunter.level sung) by (simpl; lia).
  assert (H5 : 0 <= Hunter.exp sung) by (simpl; lia).
  assert (H6 : 0 <= LogWorkoutRequest.minutes workout_60_normal)
    by (simpl; lia).
  assert (H7 : workout_exp_gain (LogWorkoutRequest.minutes workout_60_normal)
                 (LogWorkoutRequest.difficulty workout_60_normal)
               = Return 90) by (vm_compute; reflexivity).
  assert (H8 : thresholds_return pow_rn (Hunter.level sung)
                 (Hunter.level sung + (Hunter.exp sung + 90)))
    by (apply (thresholds_return_from_sound pow_rn 1 100);
        [vm_compute; reflexivity | simpl; lia]).
  repeat (split; [assumption |]).
  exact (log_workout_levels_the_hunter pow_rn hex_ObjectId second_clock
           workout_60_normal world1 store1 0%N sung 90
           H1 H2 H3 H4 H5 H6 H7 H8).
Defined.

Lemma workout_exp_is_floor_for_valid_minutes_witness :
  db world1 = Some store1
  /\ hex_ObjectId (LogWorkoutRequest.user_id workout_60_normal) = Some 0%N
  /\ coll_hunter store1 !! 0%N = Some sung
  /\ 1 <= LogWorkoutRequest.minutes workout_60_normal <= 300
  /\ thresholds_return pow_rn (Hunter.level sung)
       (Hunter.level sung + Z.max (Hunter.exp sung) 0 + 600)
  /\ exists r w' s' x h',
       log_workout pow_rn hex_ObjectId second_clock workout_60_normal world1
       = (Return r, w')
       /\ wr_exp_gain r
          = Qfloor (inject_Z (LogWorkoutRequest.minutes workout_60_normal)
                    * multiplier (LogWorkoutRequest.difficulty workout_60_normal))
       /\ 1 <= wr_exp_gain r <= 600
       /\ db w' = Some s'
       /\ coll_workout s' = (coll_workout store1 ++ [x])%list
       /\ Workout.minutes x = LogWorkoutRequest.minutes workout_60_normal
       /\ Workout.exp_awarded x = wr_exp_gain r
       /\ coll_hunter s' !! 0%N = Some h'
       /\ Hunter.level h' = wr_level r
       /\ Hunter.exp h' = wr_exp r
       /\ (Hunter.level sung = 1 -> Hunter.exp sung = 0 ->
           LogWorkoutRequest.minutes workout_60_normal = 60 ->
           LogWorkoutRequest.difficulty workout_60_normal = "normal" ->
           r = Workout_logged 90 1 90 false).
Proof.
  assert (H1 : db world1 = Some store1) by reflexivity.
  assert (H2 : hex_ObjectId (LogWorkoutRequest.user_id workout_60_normal)
               = Some 0%N) by reflexivity.
  assert (H3 : coll_hunter store1 !! 0%N = Some sung) by reflexivity.
  assert (H4 : 1 <= LogWorkoutRequest.minutes workout_60_normal <= 300)
    by (simpl; lia).
  assert (H5 : thresholds_return pow_rn (Hunter.level sung)
                 (Hunter.level sung + Z.max (Hunter.exp sung) 0 + 600))
    by (apply (thresholds_return_from_sound pow_rn 1 700);
        [vm_compute; reflexivity | simpl; lia]).
  repeat (split; [assumption |]).
  exact (proj2 (workout_exp_is_floor_for_valid_minutes
                  pow_rn hex_ObjectId second_clock workout_60_normal world1
                  store1 0%N sung H1 H2 H3 H4 H5)).
Defined.

Lemma checkin_awards_capped_bonus_witness :
  db world_yesterday = Some store_yesterday
  /\ hex_ObjectId id0 = Some 0%N
  /\ coll_hunter store_yesterday !! 0%N = Some sung_yesterday
  /\ 1 <= Hunter.level sung_yesterday
  /\ 0 <= Hunter.exp sung_yesterday
  /\ 0 <= Hunter.streak sung_yesterday
  /\ (forall last, Hunter.last_checkin sung_yesterday = Some last ->
        civil_isoformat (date last)
        <> civil_isoformat (date (second_clock (ticks world_yesterday))))
  /\ thresholds_return pow_rn (Hunter.level sung_yesterday)
       (Hunter.level sung_yesterday + (Hunter.exp sung_yesterday + 30))
  /\ exists exp_gain new_streak level exp leveled_up w' s' h' n req,
       daily_checkin pow_rn hex_ObjectId civil_isoformat second_clock id0
         world_yesterday
       = (Return (Checkin_complete exp_gain new_streak level exp leveled_up),
          w')
       /\ exp_gain = 10 + Z.min new_streak 20
       /\ 11 <= exp_gain <= 30
       /\ (20 <= new_streak -> exp_gain = 30)
       /\ db w' = Some s'
       /\ coll_hunter s' !! 0%N = Some h'
       /\ Hunter.level h' = level
       /\ Hunter.exp h' = exp
       /\ Hunter.last_checkin h' = Some (second_clock n)
       /\ (ticks world_yesterday < n < ticks w')%nat
       /\ Hunter.level sung_yesterday <= level
       /\ next_level_exp pow_rn level = Return req
       /\ 0 <= exp < req
       /\ Hunter.exp sung_yesterday + exp_gain
          = exp + consumed (threshold pow_rn) (Hunter.level sung_yesterday)
                    (Z.to_nat (level - Hunter.level sung_yesterday))
       /\ coll_workout s' = coll_workout store_yesterday
       /\ coll_quest s' = coll_quest store_yesterday.
Proof.
  assert (H1 : db world_yesterday = Some store_yesterday) by reflexivity.
  assert (H2 : hex_ObjectId id0 = Some 0%N) by reflexivity.
  assert (H3 : coll_hunter store_yesterday !! 0%N = Some sung_yesterday)
    by reflexivity.
  assert (H4 : 1 <= Hunter.level sung_yesterday) by (simpl; lia).
  assert (H5 : 0 <= Hunter.exp sung_yesterday) by (simpl; lia).
  assert (H6 : 0 <= Hunter.streak sung_yesterday) by (simpl; lia).
  assert (H7 : forall last, Hunter.last_checkin sung_yesterday = Some last ->
                 civil_isoformat (date last)
                 <> civil_isoformat
                      (date (second_clock (ticks world_yesterday))))
    by (intros last Hlast; injection Hlast as <-; vm_compute; discriminate).
  assert (H8 : thresholds_return pow_rn (Hunter.level sung_yesterday)
                 (Hunter.level sung_yesterday
                  + (Hunter.exp sung_yesterday + 30)))
    by (apply (thresholds_return_from_sound pow_rn 1 100);
        [vm_compute; reflexivity | simpl; lia]).
  repeat (split; [assumption |]).
  exact (checkin_awards_capped_bonus pow_rn hex_ObjectId civil_isoformat
           second_clock id0 world_yesterday store_yesterday 0%N sung_yesterday
           H1 H2 H3 H4 H5 H6 H7 H8).
Defined.

Lemma checkin_twice_awards_once_witness :
  db world_yesterday = Some store_yesterday
  /\ hex_ObjectId id0 = Some 0%N
  /\ coll_hunter store_yesterday !! 0%N = Some sung_yesterday
  /\ 1 <= Hunter.level sung_yesterday
  /\ (forall last, Hunter.last_checkin sung_yesterday = Some last ->
        civil_isoformat (date last)
        <> civil_isoformat (date (second_clock (ticks world_yesterday))))
  /\ 2%nat
     = (match Hunter.last_checkin sung_yesterday with
        | Some _ => 2
        | None => 1
        end + ticks world_yesterday)%nat
  /\ civil_isoformat (date (second_clock 2))
     = civil_isoformat (date (second_clock (4 + 2)))
  /\ thresholds_return pow_rn (Hunter.level sung_yesterday)
       (Hunter.level sung_yesterday + Z.max (Hunter.exp sung_yesterday) 0 + 30)
  /\ exists exp_gain new_streak level exp leveled_up w' w'' s',
       daily_checkin pow_rn hex_ObjectId civil_isoformat second_clock id0
         world_yesterday
       = (Return (Checkin_complete exp_gain new_streak level exp leveled_up),
          w')
       /\ db w' = Some s'
       /\ daily_checkin pow_rn hex_ObjectId civil_isoformat second_clock id0 w'
          = (Return (Already_checked_in new_streak level exp), w'')
       /\ db w'' = Some s'
       /\ length (coll_checkin s') = S (length (coll_checkin store_yesterday)).
Proof.
  assert (H1 : db world_yesterday = Some store_yesterday) by reflexivity.
  assert (H2 : hex_ObjectId id0 = Some 0%N) by reflexivity.
  assert (H3 : coll_hunter store_yesterday !! 0%N = Some sung_yesterday)
    by reflexivity.
  assert (H4 : 1 <= Hunter.level sung_yesterday) by (simpl; lia).
  assert (H5 : forall last, Hunter.last_checkin sung_yesterday = Some last ->
                 civil_isoformat (date last)
                 <> civil_isoformat
                      (date (second_clock (ticks world_yesterday))))
    by (intros last Hlast; injection Hlast as <-; vm_compute; discriminate).
  assert (H6 : 2%nat
               = (match Hunter.last_checkin sung_yesterday with
                  | Some _ => 2
                  | None => 1
                  end + ticks world_yesterday)%nat) by reflexivity.
  assert (H7 : civil_isoformat (date (second_clock 2))
               = civil_isoformat (date (second_clock (4 + 2))))
    by reflexivity.
  assert (H8 : thresholds_return pow_rn (Hunter.level sung_yesterday)
                 (Hunter.level sung_yesterday
                  + Z.max (Hunter.exp sung_yesterday) 0 + 30))
    by (apply (thresholds_return_from_sound pow_rn 1 100);
        [vm_compute; reflexivity | simpl; lia]).
  repeat (split; [assumption |]).
  exact (checkin_twice_awards_once pow_rn hex_ObjectId civil_isoformat
           second_clock id0 world_yesterday store_yesterday 0%N sung_yesterday
           2%nat H1 H2 H3 H4 H5 H6 H7 H8).
Defined.

Lemma checkin_next_day_extends_streak_witness :
  db world1 = Some store1
  /\ hex_ObjectId id0 = Some 0%N
  /\ coll_hunter store1 !! 0%N = Some sung
  /\ 1 <= Hunter.level sung
  /\ (forall last, Hunter.last_checkin sung = Some last ->
        civil_isoformat (date last)
        <> civil_isoformat (date (next_day_clock (ticks world1))))
  /\ 3%nat
     = (match Hunter.last_checkin sung with
        | Some _ => 2
        | None => 1
        end + ticks world1)%nat
  /\ civil_isoformat (date (next_day_clock 3))
     <> civil_isoformat (date (next_day_clock (4 + 3)))
  /\ date (next_day_clock (5 + 3)) - date (next_day_clock 3) = 1
  /\ thresholds_return pow_rn (Hunter.level sung)
       (Hunter.level sung + Z.max (Hunter.exp sung) 0 + 60)
  /\ exists exp_gain new_streak level exp leveled_up w'
            exp_gain2 level2 exp2 leveled_up2 w'',
       daily_checkin pow_rn hex_ObjectId civil_isoformat next_day_clock id0 world1
       = (Return (Checkin_complete exp_gain new_streak level exp leveled_up),
          w')
       /\ daily_checkin pow_rn hex_ObjectId civil_isoformat next_day_clock id0 w'
          = (Return (Checkin_complete exp_gain2 (new_streak + 1) level2 exp2
                                      leveled_up2), w'').
Proof.
  assert (H1 : db world1 = Some store1) by reflexivity.
  assert (H2 : hex_ObjectId id0 = Some 0%N) by reflexivity.
  assert (H3 : coll_hunter store1 !! 0%N = Some sung) by reflexivity.
  assert (H4 : 1 <= Hunter.level sung) by (simpl; lia).
  assert (H5 : forall last, Hunter.last_checkin sung = Some last ->
                 civil_isoformat (date last)
                 <> civil_isoformat (date (next_day_clock (ticks world1))))
    by (intros last Hlast; discriminate Hlast).
  assert (H6 : 3%nat
               = (match Hunter.last_checkin sung with
                  | Some _ => 2
                  | None => 1
                  end + ticks world1)%nat) by reflexivity.
  assert (H7 : civil_isoformat (date (next_day_clock 3))
               <> civil_isoformat (date (next_day_clock (4 + 3))))
    by (vm_compute; discriminate).
  assert (H8 : date (next_day_clock (5 + 3)) - date (next_day_clock 3) = 1)
    by reflexivity.
  assert (H9 : thresholds_return pow_rn (Hunter.level sung)
                 (Hunter.level sung + Z.max (Hunter.exp sung) 0 + 60))
    by (apply (thresholds_return_from_sound pow_rn 1 100);
        [vm_compute; reflexivity | simpl; lia]).
  repeat (split; [assumption |]).
  exact (checkin_next_day_extends_streak
           pow_rn hex_ObjectId civil_isoformat next_day_clock
           id0 world1 store1 0%N sung 3%nat H1 H2 H3 H4 H5 H6 H7 H8 H9).
Defined.

Lemma no_handler_hangs_witness :
  pow_at_least_one pow_rn
  /\ (forall payload, fst (create_hunter second_clock payload world1) <> Diverge)
  /\ fst (list_hunters world1) <> Diverge
  /\ (forall user_id,
        fst (daily_checkin pow_rn hex_ObjectId civil_isoformat second_clock
               user_id world1) <> Diverge)
  /\ (forall payload,
        fst (log_workout pow_rn hex_ObjectId second_clock payload world1)
        <> Diverge)
  /\ (forall r user_id,
        fst (get_daily_quests hex_ObjectId civil_isoformat second_clock r
               user_id world1) <> Diverge)
  /\ (forall payload,
        fst (complete_quest pow_rn hex_ObjectId civil_isoformat second_clock
               payload world1) <> Diverge)
  /\ (forall user_id,
        fst (get_profile pow_rn hex_ObjectId user_id world1) <> Diverge).
Proof.
  assert (H1 : pow_at_least_one pow_rn) by exact pow_rn_at_least_one.
  split; [exact H1 |].
  exact (no_handler_hangs pow_rn hex_ObjectId civil_isoformat second_clock
           world1 H1).
Defined.

Lemma list_hunters_lists_stored_hunters_witness :
  db world1 = Some store1
  /\ exists l,
       list_hunters world1 = (Return l, world1)
       /\ length l = Nat.min 100 (size (coll_hunter store1))
       /\ NoDup (map fst l)
       /\ (forall oid h, In (oid, h) l -> coll_hunter store1 !! oid = Some h)
       /\ ((size (coll_hunter store1) <= 100)%nat ->
           forall oid h, coll_hunter store1 !! oid = Some h -> In (oid, h) l).
Proof.
  assert (H1 : db world1 = Some store1) by reflexivity.
  repeat (split; [assumption |]).
  exact (list_hunters_lists_stored_hunters world1 store1 H1).
Defined.

Lemma get_profile_reads_the_hunter_witness :
  db world_today = Some store_today
  /\ hex_ObjectId id0 = Some 0%N
  /\ coll_hunter store_today !! 0%N = Some sung_today
  /\ next_level_exp pow_rn (Hunter.level sung_today) = Return 100
  /\ (100 = 0
      \/ exists p, percent (Hunter.exp sung_today) 100 = Return p)
  /\ exists r,
       get_profile pow_rn hex_ObjectId id0 world_today
       = (Return r, world_today)
       /\ pr_id r = 0%N
       /\ pr_name r = Hunter.name sung_today
       /\ pr_title r = Hunter.title sung_today
       /\ pr_level r = Hunter.level sung_today
       /\ pr_exp r = Hunter.exp sung_today
       /\ pr_streak r = Hunter.streak sung_today
       /\ pr_exp_to_next r = 100
       /\ pr_progress_pct r <= 100
       /\ (100 = 0 -> pr_progress_pct r = 0)
       /\ (forall p, 100 <> 0 ->
             percent (Hunter.exp sung_today) 100 = Return p ->
             pr_progress_pct r = Z.min 100 p)
       /\ (Hunter.level sung_today = 0 -> pr_exp_to_next r = 0)
       /\ (Hunter.level sung_today = 1 -> pr_exp_to_next r = 100)
       /\ (pow_at_least_one pow_rn -> 1 <= Hunter.level sung_today ->
           1 <= pr_exp_to_next r).
Proof.
  assert (H1 : db world_today = Some store_today) by reflexivity.
  assert (H2 : hex_ObjectId id0 = Some 0%N) by reflexivity.
  assert (H3 : coll_hunter store_today !! 0%N = Some sung_today)
    by reflexivity.
  assert (H4 : next_level_exp pow_rn (Hunter.level sung_today) = Return 100)
    by reflexivity.
  assert (H5 : 100 = 0
               \/ exists p, percent (Hunter.exp sung_today) 100 = Return p)
    by (right; exists 11; reflexivity).
  repeat (split; [assumption |]).
  exact (get_profile_reads_the_hunter pow_rn hex_ObjectId id0
           world_today store_today 0%N sung_today 100 H1 H2 H3 H4 H5).
Defined.

